(** * The memory-mapped token dataset of [scripts/pretrain.py]

    A shallow embedding of [MMapTextDataset]: the per-line chunking loop,
    the train/validation split, the serialisation of the two buckets to
    [cache/train.bin] and [cache/val.bin], and the lazy reader
    ([__init__], [__len__], [__getitem__]).

    Python values are modelled as follows.
    - [int] is [Z]; [//] is [Z.div] (both round towards minus infinity).
    - [str] is [string]; a token is a [string].
    - a [list] is a Rocq list; [l[i] = x] raises [IndexError] out of range.
    - [float] is [Q]: the only float operation of the code is the
      comparison [random.random() > args.train_dev_split].
    - exceptions are the [Raised] case of [outcome]; state that the code
      mutates (file system, random generator, log) is threaded explicitly.
    - a binary file is its list of bytes; [np.memmap] with [dtype=np.uint16]
      sees it as the array of its little-endian 16-bit words.  A file of
      length zero cannot be mapped: reading it raises [ValueError], and
      writing an array without cells raises [ValueError] after the empty
      file has been created (NumPy 1.x) or leaves a file of one byte
      (NumPy 2.x); the release in use is part of the world.
    - text files are ASCII: a byte above 127 makes the read raise
      [UnicodeDecodeError], as it does under an ASCII locale.
    - paths are compared as they are written; the file system holds its
      entries under the spellings the program uses. *)

From Stdlib Require Import ZArith QArith Lia.
From Stdlib.Strings Require Import Ascii Byte.
From stdpp Require Import base list strings gmap.

Local Open Scope Z_scope.

(** ** Python values *)

Inductive exn :=
| AssertionError
| IndexError
| ValueError
| ZeroDivisionError
| FileNotFoundError
| FileExistsError
| IsADirectoryError
| NotADirectoryError
| UnicodeDecodeError.

Inductive outcome (A : Type) :=
| Ok (a : A)
| Raised (e : exn).
Arguments Ok {A} a.
Arguments Raised {A} e.

(** [len(l)] *)
Definition py_len {A} (l : list A) : Z := Z.of_nat (length l).

(** [[x] * n]: the empty list when [n <= 0]. *)
Definition py_repeat {A} (x : A) (n : Z) : list A := replicate (Z.to_nat n) x.

(** [l[i] = x]: a negative index counts from the end; out of range the
    assignment raises [IndexError] ([None]). *)
Definition py_setitem {A} (l : list A) (i : Z) (x : A) : option (list A) :=
  let j := if i <? 0 then i + py_len l else i in
  if (0 <=? j) && (j <? py_len l) then Some (<[Z.to_nat j := x]> l) else None.

(** ** The tokenizer (external collaborator) *)

Definition token := string.
Definition chunk := list token.

Record Tokenizer := {
  tokenize : string -> list token;
  convert_token_to_id : token -> Z;
  bos_token : token;
  eos_token : token;
  pad_token : token;
  tokenizer_len : Z
}.

(** [tokenizer.convert_tokens_to_ids(chunk)] *)
Definition convert_tokens_to_ids (tk : Tokenizer) (c : chunk) : list Z :=
  map (convert_token_to_id tk) c.

(** ** The chunk builder (lines 67-76 of [raw_text_to_mmap]) *)

(** The body of [for token in tokens]. *)
Definition chunk_step (tk : Tokenizer) (seqlen : Z)
    (st : list chunk * chunk) (tok : token) : list chunk * chunk :=
  let '(chunks_list, current_chunk) := st in
  let '(chunks_list, current_chunk) :=
    if py_len current_chunk =? seqlen - 1
    then (chunks_list ++ [current_chunk ++ [eos_token tk]], [bos_token tk])
    else (chunks_list, current_chunk) in
  (chunks_list, current_chunk ++ [tok]).

(** The whole builder: [chunks_list] is the bucket the line was assigned to,
    the result is that bucket after the appends. *)
Definition chunk_builder (tk : Tokenizer) (seqlen : Z) (tokens : list token)
    (chunks_list : list chunk) : outcome (list chunk) :=
  let '(chunks_list, current_chunk) :=
    foldl (chunk_step tk seqlen) (chunks_list, [bos_token tk]) tokens in
  let current_chunk :=
    current_chunk ++ py_repeat (pad_token tk) (seqlen - py_len current_chunk) in
  match py_setitem current_chunk (seqlen - 1) (eos_token tk) with
  | Some current_chunk => Ok (chunks_list ++ [current_chunk])
  | None => Raised IndexError
  end.

(** The chunks one document adds to its bucket. *)
Definition emitted_chunks (tk : Tokenizer) (seqlen : Z) (tokens : list token)
    : outcome (list chunk) :=
  chunk_builder tk seqlen tokens [].

(** ** Text: [str.strip] and iteration over the lines of a file *)

(** [c.isspace()] on the ASCII range. *)
Definition py_isspace (c : ascii) : bool :=
  let n := nat_of_ascii c in
  ((9 <=? n) && (n <=? 13) || (28 <=? n) && (n <=? 32))%nat.

Fixpoint lstrip (s : string) : string :=
  match s with
  | EmptyString => EmptyString
  | String c s' => if py_isspace c then lstrip s' else s
  end.

Definition rstrip (s : string) : string := String.rev (lstrip (String.rev s)).

(** [s.strip()] *)
Definition strip (s : string) : string := rstrip (lstrip s).

(** Text mode with universal newlines: ["\r\n"] and ["\r"] read as ["\n"]. *)
Fixpoint universal_newlines (s : string) : string :=
  match s with
  | EmptyString => EmptyString
  | String "013" s' =>
      String "010" (match s' with
                    | String "010" s'' => universal_newlines s''
                    | _ => universal_newlines s'
                    end)
  | String c s' => String c (universal_newlines s')
  end.

(** [for line in fin]: every line keeps its terminating newline. *)
Fixpoint iter_lines (s : string) (line : string) : list string :=
  match s with
  | EmptyString => if decide (line = EmptyString) then [] else [line]
  | String c s' =>
      let line := (line +:+ String c EmptyString)%string in
      if Ascii.eqb c "010" then line :: iter_lines s' EmptyString
      else iter_lines s' line
  end.

(** ** The file system *)

Record filesystem := {
  fs_dirs : gset string;
  fs_files : gmap string (list Byte.byte)
}.

Definition ends_with (suffix s : string) : bool :=
  String.prefix (String.rev suffix) (String.rev s).

Fixpoint drop_prefix (p s : string) : option string :=
  match p, s with
  | EmptyString, _ => Some s
  | String a p', String b s' => if Ascii.eqb a b then drop_prefix p' s' else None
  | _, _ => None
  end.

Fixpoint contains_char (c : ascii) (s : string) : bool :=
  match s with
  | EmptyString => false
  | String a s' => Ascii.eqb a c || contains_char c s'
  end.

(** Does [p] match [f'{input_dir}/*.txt']?  The star matches within one
    path component and never a name that starts with a dot. *)
Definition matches_txt (input_dir p : string) : bool :=
  match drop_prefix (input_dir +:+ "/") p with
  | Some name =>
      negb (contains_char "/" name) && negb (String.prefix "." name)
      && ends_with ".txt" name
  | None => false
  end.

(** [glob.glob(f'{input_dir}/*.txt')]; the order is that of the directory
    listing, here the order of [elements]. *)
Definition glob_txt (fs : filesystem) (input_dir : string) : list string :=
  List.filter (matches_txt input_dir) (elements (dom (fs_files fs) ∪ fs_dirs fs)).

(** A directory path may be written with a trailing slash. *)
Definition strip_slash (p : string) : string :=
  match String.rev p with
  | String "/" q => String.rev q
  | _ => p
  end.

Fixpoint after_slash (s : string) : string :=
  match s with
  | EmptyString => EmptyString
  | String c s' => if Ascii.eqb c "/" then s' else after_slash s'
  end.

(** The parent directory; the empty path is the working directory. *)
Definition dirname (p : string) : string :=
  String.rev (after_slash (String.rev p)).

Definition is_dir (fs : filesystem) (p : string) : bool :=
  bool_decide (p = EmptyString) || bool_decide (p ∈ fs_dirs fs).

Definition is_file (fs : filesystem) (p : string) : bool :=
  bool_decide (is_Some (fs_files fs !! p)).

(** [os.path.exists(p)]: with a trailing slash only a directory counts. *)
Definition os_path_exists (fs : filesystem) (p : string) : bool :=
  if ends_with "/" p then is_dir fs (strip_slash p)
  else is_dir fs p || is_file fs p.

(** [os.mkdir(p)] *)
Definition os_mkdir (fs : filesystem) (p : string) : outcome filesystem :=
  let q := strip_slash p in
  if is_dir fs q || is_file fs q then Raised FileExistsError
  else if is_dir fs (dirname q)
  then Ok {| fs_dirs := {[q]} ∪ fs_dirs fs; fs_files := fs_files fs |}
  else if is_file fs (dirname q) then Raised NotADirectoryError
  else Raised FileNotFoundError.

(** ** The random generator *)

(** The global generator of the [random] module: a stream of floats in
    [0, 1) for [random.random()], a stream of integers for the draws of
    [random.shuffle], and the number of draws made so far. *)
Record rng := {
  rng_floats : nat -> Q;
  rng_ints : nat -> nat;
  rng_pos : nat
}.

Definition rng_next (g : rng) : rng :=
  {| rng_floats := rng_floats g; rng_ints := rng_ints g; rng_pos := S (rng_pos g) |}.

(** ** The monad of the script: state and exceptions *)

(** The NumPy release decides what [np.memmap] does with an empty array. *)
Inductive numpy_release := NumPy1 | NumPy2.

Record world := {
  w_fs : filesystem;
  w_rng : rng;
  w_log : list string;
  w_numpy : numpy_release
}.

Definition M (A : Type) : Type := world -> outcome A * world.

Definition ret {A} (a : A) : M A := fun w => (Ok a, w).

Definition bind {A B} (m : M A) (k : A -> M B) : M B :=
  fun w => match m w with
           | (Ok a, w') => k a w'
           | (Raised e, w') => (Raised e, w')
           end.

Definition raise {A} (e : exn) : M A := fun w => (Raised e, w).

Notation "'let*' x := m 'in' k" := (bind m (fun x => k))
  (at level 10, x pattern, m at level 100, k at level 200).

(** [assert b] *)
Definition py_assert (b : bool) : M unit :=
  if b then ret tt else raise AssertionError.

(** [for x in l: s = body(s, x)] *)
Fixpoint for_each {S A} (body : S -> A -> M S) (s : S) (l : list A) : M S :=
  match l with
  | [] => ret s
  | x :: l' => let* s' := body s x in for_each body s' l'
  end.

Definition get_fs : M filesystem := fun w => (Ok (w_fs w), w).

Definition get_numpy : M numpy_release := fun w => (Ok (w_numpy w), w).

Definition put_fs (fs : filesystem) : M unit :=
  fun w => (Ok tt, {| w_fs := fs; w_rng := w_rng w; w_log := w_log w; w_numpy := w_numpy w |}).

(** [logger.info(msg)] *)
Definition logger_info (msg : string) : M unit :=
  fun w => (Ok tt, {| w_fs := w_fs w; w_rng := w_rng w; w_log := w_log w ++ [msg];
                   w_numpy := w_numpy w |}).

(** [random.random()] *)
Definition random : M Q :=
  fun w => (Ok (rng_floats (w_rng w) (rng_pos (w_rng w))),
            {| w_fs := w_fs w; w_rng := rng_next (w_rng w); w_log := w_log w;
               w_numpy := w_numpy w |}).

(** [random._randbelow(n)], the integer draw of [random.shuffle]. *)
Definition randbelow (n : nat) : M nat :=
  fun w => (Ok (rng_ints (w_rng w) (rng_pos (w_rng w)) mod n)%nat,
            {| w_fs := w_fs w; w_rng := rng_next (w_rng w); w_log := w_log w;
               w_numpy := w_numpy w |}).

(** [x[i], x[j] = x[j], x[i]] *)
Definition swap {A} (x : list A) (i j : nat) : list A :=
  match x !! i, x !! j with
  | Some a, Some b => <[j := a]> (<[i := b]> x)
  | _, _ => x
  end.

(** [random.shuffle(x)]: for [i] from [len(x) - 1] down to [1], swap
    [x[i]] with [x[randbelow(i + 1)]]. *)
Fixpoint shuffle_from {A} (i : nat) (x : list A) : M (list A) :=
  match i with
  | O => ret x
  | S i' => let* j := randbelow (S i) in shuffle_from i' (swap x i j)
  end.

Definition shuffle {A} (x : list A) : M (list A) :=
  shuffle_from (length x - 1) x.

(** [os.mkdir] on the world. *)
Definition mkdir (p : string) : M unit :=
  let* fs := get_fs in
  match os_mkdir fs p with
  | Ok fs' => put_fs fs'
  | Raised e => raise e
  end.

(** Can the bytes be decoded as ASCII text? *)
Definition is_ascii (bytes : list Byte.byte) : bool :=
  forallb (fun b => (Byte.to_N b <? 128)%N) bytes.

(** [open(fname, 'r')] and the iteration over its lines.  The text is
    decoded as under an ASCII locale: a file with a byte above 127 is
    refused. *)
Definition open_lines (fname : string) : M (list string) :=
  let* fs := get_fs in
  match fs_files fs !! fname with
  | Some bytes =>
      if is_ascii bytes
      then ret (iter_lines (universal_newlines (String.string_of_list_byte bytes))
                  EmptyString)
      else raise UnicodeDecodeError
  | None =>
      if is_dir fs fname then raise IsADirectoryError else raise FileNotFoundError
  end.

(** ** Ingestion: the loop over files and lines (lines 58-76) *)

Record Args := {
  input_dir : string;
  seqlen : Z;
  train_dev_split : Q
}.

Record buckets := {
  train_chunks : list chunk;
  val_chunks : list chunk
}.

(** [random.random() > args.train_dev_split] *)
Definition goes_to_train (draw split : Q) : bool := negb (Qle_bool draw split).

(** The body of [for line in fin].  [chunks_list] is an alias of one of the
    two buckets: the appends of the chunk builder land in that bucket. *)
Definition process_line (tk : Tokenizer) (args : Args) (b : buckets)
    (line : string) : M buckets :=
  if decide (strip line = EmptyString) then ret b
  else
    let* draw := random in
    let to_train := goes_to_train draw (train_dev_split args) in
    let chunks_list := if to_train then train_chunks b else val_chunks b in
    let tokens := tokenize tk line in
    match chunk_builder tk (seqlen args) tokens chunks_list with
    | Ok chunks_list =>
        ret (if to_train
             then {| train_chunks := chunks_list; val_chunks := val_chunks b |}
             else {| train_chunks := train_chunks b; val_chunks := chunks_list |})
    | Raised e => raise e
    end.

(** The body of [for fname in all_files]. *)
Definition process_file (tk : Tokenizer) (args : Args) (b : buckets)
    (fname : string) : M buckets :=
  let* lines := open_lines fname in
  for_each (process_line tk args) b lines.

(** ** Serialisation: [_tokenized_text_to_mmap] (lines 78-89) *)

(** Storing a Python int into a [np.uint16] cell keeps its low 16 bits. *)
Definition to_uint16 (z : Z) : Z := z mod 65536.

Definition byte_of_Z (z : Z) : Byte.byte :=
  match Byte.of_N (Z.to_N (z mod 256)) with
  | Some b => b
  | None => Byte.x00
  end.

Definition Z_of_byte (b : Byte.byte) : Z := Z.of_N (Byte.to_N b).

(** One [uint16] cell on disk, low byte first. *)
Definition encode_uint16 (v : Z) : list Byte.byte :=
  [byte_of_Z v; byte_of_Z (v / 256)].

Fixpoint decode_uint16s (bytes : list Byte.byte) : list Z :=
  match bytes with
  | lo :: hi :: rest => (Z_of_byte lo + 256 * Z_of_byte hi) :: decode_uint16s rest
  | _ => []
  end.

(** [np.empty((n, m), dtype=np.uint16)]; the cells are arbitrary, here 0. *)
Definition np_empty (n m : Z) : M (list (list Z)) :=
  if (n <? 0) || (m <? 0) then raise ValueError
  else ret (replicate (Z.to_nat n) (replicate (Z.to_nat m) 0)).

(** [enumerate(l)] *)
Definition enumerate {A} (l : list A) : list (nat * A) :=
  zip (seq 0 (length l)) l.

(** [fp = np.memmap(fname, dtype=np.uint16, mode='w+', shape=...)],
    [fp[:, :] = rows], [fp.flush()]. *)
Definition memmap_write (fname : string) (rows : list (list Z)) : M unit :=
  let* fs := get_fs in
  let create (bytes : list Byte.byte) :=
    put_fs {| fs_dirs := fs_dirs fs; fs_files := <[fname := bytes]> (fs_files fs) |} in
  if is_dir fs fname then raise IsADirectoryError
  else if negb (is_dir fs (dirname fname))
  then (if is_file fs (dirname fname) then raise NotADirectoryError
        else raise FileNotFoundError)
  else match flat_map encode_uint16 (concat rows) with
       | [] =>
           (* an array without cells: the file is opened and left empty, and
              the mapping is refused, or one byte is written to allow it *)
           let* release := get_numpy in
           match release with
           | NumPy1 => let* _ := create [] in raise ValueError
           | NumPy2 => create [Byte.x00]
           end
       | bytes => create bytes
       end.

(** The body of [for k, chunk in enumerate(chunks_list)]. *)
Definition store_chunk (tk : Tokenizer) (seqlen : Z)
    (all_token_ids : list (list Z)) (kc : nat * chunk) : M (list (list Z)) :=
  let '(k, chunk) := kc in
  let token_ids := convert_tokens_to_ids tk chunk in
  let* _ := py_assert (py_len token_ids =? seqlen) in
  ret (<[k := map to_uint16 token_ids]> all_token_ids).

Definition _tokenized_text_to_mmap (tk : Tokenizer) (seqlen : Z)
    (output_fname : string) (chunks_list : list chunk) : M unit :=
  let* chunks_list := shuffle chunks_list in
  let num_chunks := py_len chunks_list in
  let* all_token_ids := np_empty num_chunks seqlen in
  let* all_token_ids :=
    for_each (store_chunk tk seqlen) all_token_ids (enumerate chunks_list) in
  memmap_write output_fname all_token_ids.

(** ** [MMapTextDataset.raw_text_to_mmap] (lines 44-92) *)

Definition cache_dir (args : Args) : string := (input_dir args +:+ "/cache/")%string.
Definition train_bin (args : Args) : string := (input_dir args +:+ "/cache/train.bin")%string.
Definition val_bin (args : Args) : string := (input_dir args +:+ "/cache/val.bin")%string.

Definition cache_exists_msg : string :=
  "Cache already exists. Remove the cache directory to regenerate".

(** [tk] is the tokenizer that [AutoTokenizer.from_pretrained] returns. *)
Definition raw_text_to_mmap (tk : Tokenizer) (args : Args) : M unit :=
  let* _ := py_assert (tokenizer_len tk <? 65535) in
  let* fs := get_fs in
  let all_files := glob_txt fs (input_dir args) in
  if os_path_exists fs (cache_dir args) then logger_info cache_exists_msg
  else
    let* _ := mkdir (cache_dir args) in
    let* b := for_each (process_file tk args)
                {| train_chunks := []; val_chunks := [] |} all_files in
    let* _ := _tokenized_text_to_mmap tk (seqlen args) (train_bin args) (train_chunks b) in
    _tokenized_text_to_mmap tk (seqlen args) (val_bin args) (val_chunks b).

(** ** The reader: [MMapTextDataset] (lines 24-41) *)

Record MMapTextDataset := {
  num_instances : Z;
  token_ids : option (list (list Z));
  _mmap_filename : string;
  _chunk_size : Z
}.

(** [np.memmap(fname, mode='r', dtype=np.uint16)]: the flat array of the
    whole file; a file of odd size is refused, and so is an empty file,
    which cannot be mapped. *)
Definition memmap_flat (fname : string) : M (list Z) :=
  let* fs := get_fs in
  match fs_files fs !! fname with
  | Some bytes =>
      if negb (py_len bytes mod 2 =? 0) then raise ValueError
      else match bytes with
           | [] => raise ValueError
           | _ => ret (decode_uint16s bytes)
           end
  | None =>
      if is_dir fs fname then raise IsADirectoryError
      else if is_file fs (dirname fname) then raise NotADirectoryError
      else raise FileNotFoundError
  end.

(** Rows of width [m] cut from a flat array. *)
Fixpoint reshape (n m : nat) (flat : list Z) : list (list Z) :=
  match n with
  | O => []
  | S n' => take m flat :: reshape n' m (drop m flat)
  end.

(** [np.memmap(fname, mode='r', dtype=np.uint16, shape=(n, m))]: the first
    [n * m] cells of the file; a file that is too short is refused, and so
    is an empty file. *)
Definition memmap_shaped (fname : string) (n m : Z) : M (list (list Z)) :=
  let* fs := get_fs in
  match fs_files fs !! fname with
  | Some bytes =>
      if (n <? 0) || (m <? 0) || (py_len bytes <? 2 * (n * m)) then raise ValueError
      else match bytes with
           | [] => raise ValueError
           | _ => ret (reshape (Z.to_nat n) (Z.to_nat m) (decode_uint16s bytes))
           end
  | None =>
      if is_dir fs fname then raise IsADirectoryError
      else if is_file fs (dirname fname) then raise NotADirectoryError
      else raise FileNotFoundError
  end.

(** [MMapTextDataset(mmap_filename, chunk_size)] *)
Definition MMapTextDataset_init (mmap_filename : string) (chunk_size : Z)
    : M MMapTextDataset :=
  let* flat := memmap_flat mmap_filename in
  if chunk_size =? 0 then raise ZeroDivisionError
  else ret {| num_instances := py_len flat / chunk_size;
              token_ids := None;
              _mmap_filename := mmap_filename;
              _chunk_size := chunk_size |}.

(** [len(dataset)] *)
Definition MMapTextDataset_len (self : MMapTextDataset) : Z := num_instances self.

(** [.astype(np.int32)] and then [dtype=torch.long]: a signed 32-bit value,
    stored in a 64-bit cell. *)
Definition to_int32 (z : Z) : Z := (z + 2147483648) mod 4294967296 - 2147483648.

(** [a[i, :]] on a two-dimensional array. *)
Definition np_row (a : list (list Z)) (i : Z) : option (list Z) :=
  let j := if i <? 0 then i + py_len a else i in
  if (0 <=? j) && (j <? py_len a) then a !! Z.to_nat j else None.

(** [dataset[i]]: the tensor, and the dataset with its mapping opened. *)
Definition MMapTextDataset_getitem (self : MMapTextDataset) (i : Z)
    : M (list Z * MMapTextDataset) :=
  let* rows :=
    match token_ids self with
    | None => memmap_shaped (_mmap_filename self) (num_instances self) (_chunk_size self)
    | Some rows => ret rows
    end in
  let self := {| num_instances := num_instances self;
                 token_ids := Some rows;
                 _mmap_filename := _mmap_filename self;
                 _chunk_size := _chunk_size self |} in
  match np_row rows i with
  | Some row => ret (map to_int32 row, self)
  | None => raise IndexError
  end.

(** ** [Pretrainer]: the forward pass and the two steps (lines 116-146) *)

(** A batch of token ids: one row per chunk. *)
Definition tensor := list (list Z).

(** [(input_ids != self.pad_token_id).int()] *)
Definition attention_mask (pad_token_id : Z) (input_ids : tensor) : tensor :=
  map (map (fun t => if t =? pad_token_id then 0 else 1)) input_ids.

(** The external model: [self.model(...)] and [self.model.roberta(...)]
    return tuples, whose components stay abstract. *)
Record Model (T : Type) := {
  lm_head : tensor -> tensor -> tensor -> list T;
  roberta : tensor -> tensor -> list T
}.
Arguments lm_head {T} _ _ _ _.
Arguments roberta {T} _ _ _.

Definition obind {A B} (o : outcome A) (k : A -> outcome B) : outcome B :=
  match o with
  | Ok a => k a
  | Raised e => Raised e
  end.

(** [output[i]] on a tuple *)
Definition tuple_get {T} (output : list T) (i : nat) : outcome T :=
  match output !! i with
  | Some v => Ok v
  | None => Raised IndexError
  end.

(** [Pretrainer.forward]: a tensor when [loss_only], a dict otherwise. *)
Definition forward {T} (model : Model T) (pad_token_id : Z) (input_ids : tensor)
    (labels : option tensor) (loss_only : bool)
    : outcome (if loss_only then T else gmap string T) :=
  let mask := attention_mask pad_token_id input_ids in
  match labels with
  | Some labels =>
      let output := lm_head model input_ids mask labels in
      match loss_only return outcome (if loss_only then T else gmap string T) with
      | true => tuple_get output 0
      | false =>
          obind (tuple_get output 0) (fun loss =>
          obind (tuple_get output 2) (fun hidden =>
          Ok (<["hidden_states"%string := hidden]> {["loss"%string := loss]})))
      end
  | None =>
      match loss_only return outcome (if loss_only then T else gmap string T) with
      | true => Raised AssertionError
      | false =>
          let output := roberta model input_ids mask in
          obind (tuple_get output 2) (fun hidden =>
          Ok {["hidden_states"%string := hidden]})
      end
  end.

(** What the collator hands to a step: [input_ids] and, when masking is on,
    [labels]. *)
Record Batch := {
  input_ids : tensor;
  labels : option tensor
}.

(** The dict a step returns: its tensor entries and the dict under ['log']. *)
Record step_dict (T : Type) := {
  sd_entries : gmap string T;
  sd_log : gmap string T
}.
Arguments sd_entries {T} _.
Arguments sd_log {T} _.

(** [Pretrainer.training_step]; [exp] is [torch.exp]. *)
Definition training_step {T} (exp : T -> T) (model : Model T) (pad_token_id : Z)
    (batch : Batch) : outcome (step_dict T) :=
  obind (forward model pad_token_id (input_ids batch) (labels batch) true) (fun loss =>
  let tensorboard_logs : gmap string T :=
    <["mlm_perplexity"%string := exp loss]> {["mlm_loss"%string := loss]} in
  Ok {| sd_entries := {["loss"%string := loss]}; sd_log := tensorboard_logs |}).

(** [Pretrainer.validation_step] *)
Definition validation_step {T} (model : Model T) (pad_token_id : Z)
    (batch : Batch) : outcome (step_dict T) :=
  obind (forward model pad_token_id (input_ids batch) (labels batch) true) (fun loss =>
  let tensorboard_logs : gmap string T := {["val_mlm_loss"%string := loss]} in
  match tensorboard_logs !! "val_mlm_loss"%string with
  | Some v => Ok {| sd_entries := {["val_loss"%string := v]}; sd_log := tensorboard_logs |}
  | None => Raised IndexError
  end).

(** ** [Pretrainer.configure_optimizers]: the parameter groups (lines 157-170) *)

(** [sub in s] on strings *)
Fixpoint py_in (sub s : string) : bool :=
  String.prefix sub s
  || match s with
     | EmptyString => false
     | String _ s' => py_in sub s'
     end.

Record Param := {
  param_id : nat;
  requires_grad : bool
}.

Definition no_decay : list string := ["bias"; "LayerNorm.weight"]%string.

(** [any(nd in n for nd in no_decay)] *)
Definition any_no_decay (n : string) : bool :=
  existsb (fun nd => py_in nd n) no_decay.

Record param_group := {
  g_params : list Param;
  g_weight_decay : Q
}.

(** [optimizer_grouped_parameters], from [self.named_parameters()] and
    [self.args.weight_decay]. *)
Definition optimizer_grouped_parameters (named_parameters : list (string * Param))
    (weight_decay : Q) : list param_group :=
  [ {| g_params :=
         map snd (List.filter (fun np => negb (any_no_decay np.1) && requires_grad np.2)
                    named_parameters);
       g_weight_decay := weight_decay |};
    {| g_params :=
         map snd (List.filter (fun np => any_no_decay np.1 && requires_grad np.2)
                    named_parameters);
       g_weight_decay := 0 |} ].

(** ** [Pretrainer._get_loader] and the two loaders (lines 177-202) *)

(** [DistributedSampler(dataset, shuffle=...)] *)
Record Sampler := {
  sampler_shuffle : bool
}.

(** The arguments [DataLoader] is built with. *)
Record DataLoader := {
  dl_dataset : MMapTextDataset;
  dl_batch_size : Z;
  dl_shuffle : bool;
  dl_sampler : option Sampler;
  dl_num_workers : Z;
  dl_drop_last : bool
}.

(** The fields of [self.args] and [self.trainer] that the loaders read. *)
Record LoaderArgs := {
  la_args : Args;
  batch_size : Z;
  num_workers : Z;
  use_ddp : bool
}.

Definition _get_loader (self : LoaderArgs) (fname : string) (is_train : bool)
    : M DataLoader :=
  let* dataset := MMapTextDataset_init fname (seqlen (la_args self)) in
  let '(sampler, shuffle) :=
    if use_ddp self
    then (Some {| sampler_shuffle := is_train |}, false)
    else (None, is_train) in
  ret {| dl_dataset := dataset;
         dl_batch_size := batch_size self;
         dl_shuffle := shuffle;
         dl_sampler := sampler;
         dl_num_workers := num_workers self;
         dl_drop_last := is_train |}.

Definition train_dataloader (self : LoaderArgs) : M DataLoader :=
  _get_loader self (input_dir (la_args self) +:+ "/cache/train.bin")%string true.

Definition val_dataloader (self : LoaderArgs) : M DataLoader :=
  _get_loader self (input_dir (la_args self) +:+ "/cache/val.bin")%string false.

(** ** [main]: the device list and the backend (lines 258-262) *)

(** [s.split(sep)] for a separator of one character. *)
Fixpoint split_on (sep : ascii) (s : string) (piece : string) : list string :=
  match s with
  | EmptyString => [String.rev piece]
  | String c s' =>
      if Ascii.eqb c sep then String.rev piece :: split_on sep s' EmptyString
      else split_on sep s' (String c piece)
  end.

Definition digit_of (c : ascii) : option Z :=
  let n := nat_of_ascii c in
  if ((48 <=? n) && (n <=? 57))%nat then Some (Z.of_nat n - 48) else None.

(** Decimal digits, with single underscores allowed between digits. *)
Fixpoint parse_digits (s : string) (acc : Z) (after_digit : bool) : option Z :=
  match s with
  | EmptyString => if after_digit then Some acc else None
  | String c s' =>
      if Ascii.eqb c "_"
      then (if after_digit then parse_digits s' acc false else None)
      else match digit_of c with
           | Some d => parse_digits s' (10 * acc + d) true
           | None => None
           end
  end.

(** The whitespace that [int] skips: the C [isspace] set. *)
Definition c_isspace (c : ascii) : bool :=
  let n := nat_of_ascii c in
  ((9 <=? n) && (n <=? 13) || (n =? 32))%nat.

Fixpoint lstrip_c (s : string) : string :=
  match s with
  | EmptyString => EmptyString
  | String c s' => if c_isspace c then lstrip_c s' else s
  end.

Definition strip_c (s : string) : string :=
  String.rev (lstrip_c (String.rev (lstrip_c s))).

(** [int(s)] on an ASCII string: [ValueError] when [s] is no integer. *)
Definition py_int (s : string) : outcome Z :=
  let parsed :=
    match strip_c s with
    | String "+" r => parse_digits r 0 false
    | String "-" r => Z.opp <$> parse_digits r 0 false
    | r => parse_digits r 0 false
    end in
  match parsed with
  | Some z => Ok z
  | None => Raised ValueError
  end.

(** [[f(x) for x in l]] where [f] may raise. *)
Fixpoint map_outcome {A B} (f : A -> outcome B) (l : list A) : outcome (list B) :=
  match l with
  | [] => Ok []
  | x :: l' => obind (f x) (fun y => obind (map_outcome f l') (fun ys => Ok (y :: ys)))
  end.

(** [args.gpus = [int(x) for x in args.gpus.split(',')]] *)
Definition parse_gpus (gpus : string) : outcome (list Z) :=
  map_outcome py_int (split_on "," gpus EmptyString).

(** ['ddp' if len(args.gpus) > 1 else None] *)
Definition distributed_backend (gpus : list Z) : option string :=
  if 1 <? py_len gpus then Some "ddp"%string else None.

(** ** A small concrete setting *)

(** A whitespace tokenizer with a six-word vocabulary. *)
Definition demo_vocab (t : token) : Z :=
  if decide (t = "<s>"%string) then 0
  else if decide (t = "<pad>"%string) then 1
  else if decide (t = "</s>"%string) then 2
  else if decide (t = "hello"%string) then 4
  else if decide (t = "world"%string) then 5
  else 3.

Definition demo_tk : Tokenizer := {|
  tokenize := String.words;
  convert_token_to_id := demo_vocab;
  bos_token := "<s>";
  eos_token := "</s>";
  pad_token := "<pad>";
  tokenizer_len := 6
|}.

Definition newline : string := String "010" EmptyString.

(** One input file with the two lines ["hello world"] and [""]. *)
Definition demo_fs : filesystem := {|
  fs_dirs := {["data"%string]};
  fs_files := {["data/corpus.txt"%string :=
                  String.list_byte_of_string ("hello world" +:+ newline +:+ newline)]}
|}.

Definition demo_args : Args := {|
  input_dir := "data";
  seqlen := 8;
  train_dev_split := 0
|}.

Definition demo_rng (draw : Q) : rng := {|
  rng_floats := fun _ => draw;
  rng_ints := fun n => n;
  rng_pos := 0
|}.

Definition demo_world (draw : Q) : world := {|
  w_fs := demo_fs;
  w_rng := demo_rng draw;
  w_log := [];
  w_numpy := NumPy1
|}.

(** The same world under another NumPy release. *)
Definition with_numpy (release : numpy_release) (w : world) : world :=
  {| w_fs := w_fs w; w_rng := w_rng w; w_log := w_log w; w_numpy := release |}.

(** ** Vocabulary of the statements *)

(** A chunk laid out as begin marker, content, padding, end marker. *)
Definition chunk_of (tk : Tokenizer) (content : list token) (npad : nat) : chunk :=
  bos_token tk :: content ++ replicate npad (pad_token tk) ++ [eos_token tk].

Definition chunk_of_layout (tk : Tokenizer) (l : list token * nat) : chunk :=
  chunk_of tk l.1 l.2.

(** Is [t] one of the three reserved tokens? *)
Definition is_marker (tk : Tokenizer) (t : token) : bool :=
  bool_decide (t = bos_token tk) || bool_decide (t = eos_token tk)
  || bool_decide (t = pad_token tk).

(** A chunk with every reserved token removed. *)
Definition strip_markers (tk : Tokenizer) (c : chunk) : list token :=
  List.filter (fun t => negb (is_marker tk t)) c.

(** The least integer not below [a / b], for [0 < b]. *)
Definition ceil_div (a b : Z) : Z := (a + b - 1) / b.

(** The float that the next call of [random.random()] returns. *)
Definition next_draw (w : world) : Q := rng_floats (w_rng w) (rng_pos (w_rng w)).

(** The world after one call of [random.random()]. *)
Definition after_draw (w : world) : world :=
  {| w_fs := w_fs w; w_rng := rng_next (w_rng w); w_log := w_log w;
               w_numpy := w_numpy w |}.

(** All of [chunks] appended to one bucket. *)
Definition add_chunks (to_train : bool) (chunks : list chunk) (b : buckets) : buckets :=
  if to_train
  then {| train_chunks := train_chunks b ++ chunks; val_chunks := val_chunks b |}
  else {| train_chunks := train_chunks b; val_chunks := val_chunks b ++ chunks |}.

(** The lines that are documents: not empty after [strip]. *)
Definition documents (lines : list string) : list string :=
  List.filter (fun line => negb (bool_decide (strip line = EmptyString))) lines.

(** The split as the specification words it: one fresh draw for every
    chunk, compared against the split ratio. *)
Fixpoint split_per_chunk (split : Q) (chunks : list chunk) (b : buckets) : M buckets :=
  match chunks with
  | [] => ret b
  | c :: chunks' =>
      let* draw := random in
      split_per_chunk split chunks' (add_chunks (goes_to_train draw split) [c] b)
  end.

Definition process_line_per_chunk (tk : Tokenizer) (args : Args) (b : buckets)
    (line : string) : M buckets :=
  if decide (strip line = EmptyString) then ret b
  else match emitted_chunks tk (seqlen args) (tokenize tk line) with
       | Ok chunks => split_per_chunk (train_dev_split args) chunks b
       | Raised e => raise e
       end.

(** A generator whose first float is [9/10] and whose later floats are
    [1/10], and a run with chunks of four tokens split at [1/2]. *)
Definition two_draws_world : world := {|
  w_fs := demo_fs;
  w_rng := {| rng_floats := fun n => match n with O => 9 # 10 | _ => 1 # 10 end;
              rng_ints := fun n => n;
              rng_pos := 0 |};
  w_log := [];
  w_numpy := NumPy1
|}.

(** One input file with the two documents ["hello world"] and ["world"];
    with the generator above and a split at [1/2] the first goes to the
    training bucket and the second to the validation bucket. *)
Definition two_docs_fs : filesystem := {|
  fs_dirs := {["data"%string]};
  fs_files := {["data/corpus.txt"%string :=
                  String.list_byte_of_string
                    ("hello world" +:+ newline +:+ "world" +:+ newline)]}
|}.

Definition two_docs_world : world := {|
  w_fs := two_docs_fs;
  w_rng := w_rng two_draws_world;
  w_log := [];
  w_numpy := NumPy1
|}.

Definition short_args : Args := {|
  input_dir := "data";
  seqlen := 4;
  train_dev_split := 1 # 2
|}.

Definition no_chunks : buckets := {| train_chunks := []; val_chunks := [] |}.

(** A tokenizer whose vocabulary does not fit in 16 bits. *)
Definition big_tk : Tokenizer := {|
  tokenize := String.words;
  convert_token_to_id := demo_vocab;
  bos_token := "<s>";
  eos_token := "</s>";
  pad_token := "<pad>";
  tokenizer_len := 65535
|}.

(** The demo input directory after an earlier run left its cache behind. *)
Definition cached_world : world := {|
  w_fs := {| fs_dirs := {["data"%string; "data/cache"%string]};
             fs_files := fs_files demo_fs |};
  w_rng := demo_rng (1 # 2);
  w_log := [];
  w_numpy := NumPy1
|}.

(** The rows that serialisation stores for a list of chunks. *)
Definition stored_rows (tk : Tokenizer) (chunks : list chunk) : list (list Z) :=
  map (fun c => map to_uint16 (convert_tokens_to_ids tk c)) chunks.

(** A dataset handle before and after its first [__getitem__]. *)
Definition closed_dataset (fname : string) (n m : Z) : MMapTextDataset :=
  {| num_instances := n; token_ids := None; _mmap_filename := fname; _chunk_size := m |}.

Definition opened_dataset (fname : string) (n m : Z) (rows : list (list Z))
    : MMapTextDataset :=
  {| num_instances := n; token_ids := Some rows; _mmap_filename := fname; _chunk_size := m |}.

(** The world once [os.mkdir] has turned the file system into [fs1]. *)
Definition after_mkdir (w : world) (fs1 : filesystem) : world :=
  {| w_fs := fs1; w_rng := w_rng w; w_log := w_log w; w_numpy := w_numpy w |}.

(** Is [p] a file that [open_lines] reads? *)
Definition readable_text (fs : filesystem) (p : string) : bool :=
  match fs_files fs !! p with
  | Some bytes => is_ascii bytes
  | None => false
  end.

(** Characters that [glob] reads as a pattern. *)
Definition glob_magic (c : ascii) : bool :=
  Ascii.eqb c "*" || Ascii.eqb c "?" || Ascii.eqb c "[".

Fixpoint has_glob_magic (s : string) : bool :=
  match s with
  | EmptyString => false
  | String c s' => glob_magic c || has_glob_magic s'
  end.

(** A path component that names an entry: not empty, not [.] or [..], and
    free of pattern characters. *)
Definition plain_component (c : string) : bool :=
  negb (bool_decide (c = EmptyString)) && negb (bool_decide (c = "."%string))
  && negb (bool_decide (c = ".."%string)) && negb (has_glob_magic c).

(** A path that is the name of its entry: [glob] reads it literally and
    the operating system resolves it to itself.  Its components are plain;
    only a leading slash is allowed besides. *)
Definition plain_path (p : string) : bool :=
  match split_on "/" p EmptyString with
  | [] => false
  | c :: cs =>
      match cs with
      | [] => plain_component c
      | _ :: _ => (bool_decide (c = EmptyString) || plain_component c)
                  && forallb plain_component cs
      end
  end.

(** Is some proper ancestor of [p] a regular file? *)
Definition below_a_file (fs : filesystem) (p : string) : Prop :=
  exists q : string,
    String.prefix (q +:+ "/") p = true /\ is_Some (fs_files fs !! q).

(** The file system after [fname] is written with [bytes]. *)
Definition fs_write (fs : filesystem) (fname : string) (bytes : list Byte.byte)
    : filesystem :=
  {| fs_dirs := fs_dirs fs; fs_files := <[fname := bytes]> (fs_files fs) |}.

(** A cache file of seven cells: two chunks of three and one cell over. *)
Definition ragged_world : world := {|
  w_fs := fs_write demo_fs "data/ragged.bin"
            (flat_map encode_uint16 [0; 4; 2; 0; 5; 2; 0]);
  w_rng := demo_rng (1 # 2);
  w_log := [];
  w_numpy := NumPy1
|}.

(** The demo file system once [os.mkdir] has created the cache directory. *)
Definition demo_fs_cache : filesystem :=
  {| fs_dirs := {["data/cache"%string]} ∪ fs_dirs demo_fs; fs_files := fs_files demo_fs |}.

(** The line ["hello world"] as the iteration over the file yields it. *)
Definition hello_line : string := ("hello world" +:+ newline)%string.

(** The two chunks of four tokens used to exercise the round trip. *)
Definition demo_chunks : list chunk :=
  [["<s>"; "hello"; "world"; "</s>"]; ["<s>"; "world"; "<pad>"; "</s>"]]%string.

(** The chunks of one line, none when the builder raises. *)
Definition line_chunks (tk : Tokenizer) (args : Args) (line : string) : list chunk :=
  match emitted_chunks tk (seqlen args) (tokenize tk line) with
  | Ok chunks => chunks
  | Raised _ => []
  end.

(** A computation that leaves the set of directories as it is. *)
Definition keeps_dirs {A} (m : M A) : Prop :=
  forall (w w' : world) (r : outcome A),
    m w = (r, w') -> fs_dirs (w_fs w') = fs_dirs (w_fs w).

(** The world after [logger.info] has logged the cache message. *)
Definition logged_skip (w : world) : world :=
  {| w_fs := w_fs w; w_rng := w_rng w; w_log := w_log w ++ [cache_exists_msg];
     w_numpy := w_numpy w |}.

(** An input directory in which a directory carries a [.txt] name. *)
Definition broken_world : world := {|
  w_fs := {| fs_dirs := {["data"%string; "data/notes.txt"%string]};
             fs_files := fs_files demo_fs |};
  w_rng := demo_rng (1 # 2);
  w_log := [];
  w_numpy := NumPy1
|}.

(** The lines of one input file, as [open_lines] yields them. *)
Definition file_lines (fs : filesystem) (fname : string) : list string :=
  match fs_files fs !! fname with
  | Some bytes =>
      iter_lines (universal_newlines (String.string_of_list_byte bytes)) EmptyString
  | None => []
  end.

(** Every chunk of every document of the input directory, in the order in
    which ingestion produces them. *)
Definition corpus_chunks (tk : Tokenizer) (args : Args) (fs : filesystem) : list chunk :=
  concat (map (line_chunks tk args)
            (documents (concat (map (file_lines fs) (glob_txt fs (input_dir args)))))).

(** Loader settings over the arguments with chunks of four tokens. *)
Definition short_loader_args (ddp : bool) : LoaderArgs := {|
  la_args := short_args;
  batch_size := 8;
  num_workers := 0;
  use_ddp := ddp
|}.

(** How often [c] occurs in [s]. *)
Fixpoint count_char (c : ascii) (s : string) : nat :=
  match s with
  | EmptyString => O
  | String a s' => (if Ascii.eqb a c then 1 else 0) + count_char c s'
  end.

(** [sub] occurs in [s]. *)
Definition occurs_in (sub s : string) : Prop :=
  exists a b : string, s = (a +:+ sub +:+ b)%string.

(** A model with four parameters, one of them frozen. *)
Definition demo_parameters : list (string * Param) :=
  [("encoder.layer.0.dense.weight"%string, {| param_id := 0; requires_grad := true |});
   ("encoder.layer.0.dense.bias"%string, {| param_id := 1; requires_grad := true |});
   ("encoder.layer.0.LayerNorm.weight"%string, {| param_id := 2; requires_grad := true |});
   ("embeddings.word_embeddings.weight"%string, {| param_id := 3; requires_grad := false |})].

(** A world in which the input directory does not exist. *)
Definition empty_world : world := {|
  w_fs := {| fs_dirs := ∅; fs_files := ∅ |};
  w_rng := demo_rng (1 # 2);
  w_log := [];
  w_numpy := NumPy1
|}.

(** * Properties *)

(** ** Running the monad *)

Lemma bind_run {A B} (m : M A) (k : A -> M B) (w w' : world) (a : A) :
  m w = (Ok a, w') -> bind m k w = k a w'.
Proof. intros Hm. unfold bind. rewrite Hm. reflexivity. Qed.

Lemma bind_raise {A B} (m : M A) (k : A -> M B) (w w' : world) (e : exn) :
  m w = (Raised e, w') -> bind m k w = (Raised e, w').
Proof. intros Hm. unfold bind. rewrite Hm. reflexivity. Qed.

Lemma bind_assoc {A B C} (m : M A) (k1 : A -> M B) (k2 : B -> M C) (w : world) :
  bind (bind m k1) k2 w = bind m (fun a => bind (k1 a) k2) w.
Proof. unfold bind. destruct (m w) as [[a|e] w']; reflexivity. Qed.

Lemma bind_ret_r {A} (m : M A) (w : world) : bind m ret w = m w.
Proof. unfold bind, ret. destruct (m w) as [[a|e] w']; reflexivity. Qed.

Lemma bind_get_fs {B} (k : filesystem -> M B) (w : world) :
  bind get_fs k w = k (w_fs w) w.
Proof. reflexivity. Qed.

Lemma py_assert_true (b : bool) (w : world) :
  b = true -> py_assert b w = (Ok tt, w).
Proof. intros ->. reflexivity. Qed.

Ltac run_with H := rewrite (bind_run _ _ _ _ _ H).

(** ** The chunk builder *)

Section ChunkBuilder.

Context (tk : Tokenizer).

Lemma chunk_loop_inv (m : nat) (tokens : list token) :
  (1 <= m)%nat ->
  exists (cs : list (list token)) (c : list token),
    (forall acc,
       foldl (chunk_step tk (Z.of_nat m + 2)) (acc, [bos_token tk]) tokens
       = (acc ++ map (fun x => chunk_of tk x 0) cs, bos_token tk :: c))
    /\ Forall (fun x => length x = m) cs
    /\ (length c <= m)%nat
    /\ (tokens <> [] -> (1 <= length c)%nat)
    /\ concat cs ++ c = tokens.
Proof.
  intros Hm. induction tokens as [|t tokens IH] using rev_ind.
  - exists [], []. split; [|split; [|split; [|split]]].
    + intros acc. cbn [foldl map]. rewrite app_nil_r. reflexivity.
    + constructor.
    + cbn [length]. lia.
    + congruence.
    + reflexivity.
  - destruct IH as (cs & c & Hfold & Hcs & Hlen & Hne & Hcat).
    destruct (Z.eqb_spec (Z.of_nat (length (bos_token tk :: c))) (Z.of_nat m + 2 - 1))
      as [Heq|Hneq]; cbn [length] in *.
    + exists (cs ++ [c]), [t]. repeat split.
      * intros acc. rewrite foldl_app, Hfold. cbn [foldl]. unfold chunk_step, py_len.
        cbn [length]. rewrite (proj2 (Z.eqb_eq _ _) Heq).
        rewrite map_app, app_assoc. unfold chunk_of. reflexivity.
      * apply Forall_app. split; [assumption|]. constructor; [lia|constructor].
      * simpl. lia.
      * simpl. lia.
      * rewrite concat_app. simpl. rewrite app_nil_r, <- Hcat, <- app_assoc. reflexivity.
    + exists cs, (c ++ [t]). repeat split.
      * intros acc. rewrite foldl_app, Hfold. cbn [foldl]. unfold chunk_step, py_len.
        cbn [length]. rewrite (proj2 (Z.eqb_neq _ _) Hneq). reflexivity.
      * assumption.
      * rewrite length_app. simpl. lia.
      * rewrite length_app. simpl. lia.
      * rewrite app_assoc, Hcat. reflexivity.
Qed.

Lemma setitem_last_pad (c : list token) (k : nat) (x : token) :
  py_setitem (bos_token tk :: c ++ replicate (S k) (pad_token tk))
             (Z.of_nat (length c + k) + 1) x
  = Some (bos_token tk :: c ++ replicate k (pad_token tk) ++ [x]).
Proof.
  unfold py_setitem, py_len.
  rewrite length_cons, length_app, length_replicate.
  destruct (Z.ltb_spec (Z.of_nat (length c + k) + 1) 0); [lia|].
  destruct (Z.leb_spec 0 (Z.of_nat (length c + k) + 1)); [|lia].
  destruct (Z.ltb_spec (Z.of_nat (length c + k) + 1)
              (Z.of_nat (S (length c + S k)))); [|lia].
  cbn [andb]. f_equal.
  replace (Z.to_nat (Z.of_nat (length c + k) + 1)) with (S (length c + k)) by lia.
  change (bos_token tk :: c ++ replicate (S k) (pad_token tk))
    with ((bos_token tk :: c) ++ replicate (S k) (pad_token tk)).
  rewrite insert_app_r_alt by (cbn [length]; lia).
  rewrite replicate_S_end.
  rewrite insert_app_r_alt by (cbn [length]; rewrite length_replicate; lia).
  replace (S (length c + k) - length (bos_token tk :: c)
           - length (replicate k (pad_token tk)))%nat with 0%nat
    by (cbn [length]; rewrite length_replicate; lia).
  reflexivity.
Qed.

(** The closed form of the builder: full chunks without padding, then one
    last chunk padded up to the end marker. *)
Lemma chunk_builder_layout (seqlen : Z) (tokens : list token) :
  3 <= seqlen ->
  exists (cs : list (list token)) (c : list token),
    (forall bucket,
       chunk_builder tk seqlen tokens bucket
       = Ok (bucket ++ map (fun x => chunk_of tk x 0) cs
                    ++ [chunk_of tk c (Z.to_nat (seqlen - 2) - length c)]))
    /\ Forall (fun x => length x = Z.to_nat (seqlen - 2)) cs
    /\ (length c <= Z.to_nat (seqlen - 2))%nat
    /\ (tokens <> [] -> (1 <= length c)%nat)
    /\ concat cs ++ c = tokens.
Proof.
  intros HS.
  destruct (chunk_loop_inv (Z.to_nat (seqlen - 2)) tokens ltac:(lia))
    as (cs & c & Hfold & Hcs & Hlen & Hne & Hcat).
  exists cs, c. split; [|auto].
  intros bucket. unfold chunk_builder.
  replace (Z.of_nat (Z.to_nat (seqlen - 2)) + 2) with seqlen in Hfold by lia.
  rewrite Hfold. unfold py_repeat, py_len. cbn [length].
  set (k := (Z.to_nat (seqlen - 2) - length c)%nat).
  replace (Z.to_nat (seqlen - Z.of_nat (S (length c)))) with (S k) by lia.
  replace (seqlen - 1) with (Z.of_nat (length c + k) + 1) by lia.
  change ((bos_token tk :: c) ++ replicate (S k) (pad_token tk))
    with (bos_token tk :: c ++ replicate (S k) (pad_token tk)).
  rewrite setitem_last_pad. rewrite <- app_assoc. reflexivity.
Qed.

Lemma chunk_of_length (c : list token) (k : nat) :
  py_len (chunk_of tk c k) = Z.of_nat (length c + k) + 2.
Proof.
  unfold py_len, chunk_of. cbn [length].
  rewrite !length_app, length_replicate. cbn [length]. lia.
Qed.

Lemma chunk_of_head (c : list token) (k : nat) :
  head (chunk_of tk c k) = Some (bos_token tk).
Proof. reflexivity. Qed.

Lemma chunk_of_last (c : list token) (k : nat) :
  last (chunk_of tk c k) = Some (eos_token tk).
Proof.
  unfold chunk_of.
  change (bos_token tk :: c ++ replicate k (pad_token tk) ++ [eos_token tk])
    with ([bos_token tk] ++ c ++ replicate k (pad_token tk) ++ [eos_token tk]).
  rewrite !app_assoc. apply last_snoc.
Qed.

Lemma concat_length_uniform (m : nat) (cs : list (list token)) :
  Forall (fun x => length x = m) cs -> length (concat cs) = (m * length cs)%nat.
Proof.
  induction 1 as [|x cs Hx _ IH]; cbn [concat length].
  - lia.
  - rewrite length_app, IH, Hx. lia.
Qed.

Lemma strip_markers_chunk_of (c : list token) (k : nat) :
  Forall (fun t => is_marker tk t = false) c ->
  strip_markers tk (chunk_of tk c k) = c.
Proof.
  intros Hc. unfold strip_markers, chunk_of.
  assert (Hb : is_marker tk (bos_token tk) = true).
  { unfold is_marker. rewrite bool_decide_eq_true_2; reflexivity. }
  assert (He : is_marker tk (eos_token tk) = true).
  { unfold is_marker. rewrite (bool_decide_eq_true_2 (eos_token tk = eos_token tk)) by reflexivity.
    rewrite orb_true_r. reflexivity. }
  assert (Hp : is_marker tk (pad_token tk) = true).
  { unfold is_marker. rewrite (bool_decide_eq_true_2 (pad_token tk = pad_token tk)) by reflexivity.
    rewrite orb_true_r. reflexivity. }
  cbn [List.filter]. rewrite Hb. cbn [negb].
  rewrite !List.filter_app. cbn [List.filter]. rewrite He. cbn [negb].
  assert (Hpad : List.filter (fun t => negb (is_marker tk t)) (replicate k (pad_token tk)) = []).
  { induction k as [|k IH]; cbn [replicate List.filter]; [reflexivity|].
    rewrite Hp. exact IH. }
  rewrite Hpad, !app_nil_r.
  induction Hc as [|t c Ht _ IH]; cbn [List.filter]; [reflexivity|].
  rewrite Ht. cbn [negb]. f_equal. exact IH.
Qed.

Lemma chunk_step_eq (seqlen : Z) acc cur (t : token) :
  chunk_step tk seqlen (acc, cur) t
  = if py_len cur =? seqlen - 1
    then (acc ++ [cur ++ [eos_token tk]], [bos_token tk; t])
    else (acc, cur ++ [t]).
Proof. unfold chunk_step. destruct (py_len cur =? seqlen - 1); reflexivity. Qed.

(** Whatever [seqlen] is, the loop only appends to the bucket it was given. *)
Lemma chunk_loop_appends (seqlen : Z) (tokens : list token) :
  forall cur, exists new cur',
    forall acc, foldl (chunk_step tk seqlen) (acc, cur) tokens = (acc ++ new, cur').
Proof.
  induction tokens as [|t tokens IH]; intros cur.
  - exists [], cur. intros acc. rewrite app_nil_r. reflexivity.
  - destruct (py_len cur =? seqlen - 1) eqn:Hfull.
    + destruct (IH [bos_token tk; t]) as (new & cur' & Hloop).
      exists ((cur ++ [eos_token tk]) :: new), cur'. intros acc.
      cbn [foldl]. rewrite chunk_step_eq, Hfull, Hloop, <- app_assoc. reflexivity.
    + destruct (IH (cur ++ [t])) as (new & cur' & Hloop).
      exists new, cur'. intros acc.
      cbn [foldl]. rewrite chunk_step_eq, Hfull, Hloop. reflexivity.
Qed.

Lemma chunk_builder_bucket (seqlen : Z) (tokens : list token) (bucket : list chunk) :
  chunk_builder tk seqlen tokens bucket
  = match emitted_chunks tk seqlen tokens with
    | Ok chunks => Ok (bucket ++ chunks)
    | Raised e => Raised e
    end.
Proof.
  destruct (chunk_loop_appends seqlen tokens [bos_token tk]) as (new & cur' & Hloop).
  unfold emitted_chunks, chunk_builder. unfold chunk in *.
  rewrite (Hloop bucket), (Hloop []).
  destruct (py_setitem _ _ _); [|reflexivity].
  cbn [app]. rewrite app_assoc. reflexivity.
Qed.

End ChunkBuilder.

(** C1. For every token sequence and every [seqlen >= 3] the builder
    returns, and every chunk it appends to the bucket has exactly [seqlen]
    elements, starts with the begin-of-sequence marker and ends with the
    end-of-sequence marker. *)
Theorem chunk_shape (tk : Tokenizer) (seqlen : Z) (tokens : list token) :
  3 <= seqlen ->
  exists chunks : list chunk,
    (forall bucket, chunk_builder tk seqlen tokens bucket = Ok (bucket ++ chunks))
    /\ emitted_chunks tk seqlen tokens = Ok chunks
    /\ Forall (fun c => py_len c = seqlen
                        /\ head c = Some (bos_token tk)
                        /\ last c = Some (eos_token tk)) chunks.
Proof.
  intros HS.
  destruct (chunk_builder_layout tk seqlen tokens HS)
    as (cs & c & Hrun & Hcs & Hlen & _ & Hcat).
  exists (map (fun x => chunk_of tk x 0) cs
          ++ [chunk_of tk c (Z.to_nat (seqlen - 2) - length c)]).
  split; [exact Hrun|split; [apply (Hrun [])|]].
  apply Forall_app. split.
  - clear Hrun Hcat. induction Hcs as [|x cs Hx _ IH]; cbn [map]; constructor.
    + rewrite chunk_of_length, chunk_of_head, chunk_of_last.
      repeat split. lia.
    + exact IH.
  - constructor; [|constructor].
    rewrite chunk_of_length, chunk_of_head, chunk_of_last.
    repeat split. lia.
Qed.

Lemma chunk_shape_witness :
  exists chunks : list chunk,
    (forall bucket, chunk_builder demo_tk 4 ["a"; "b"; "c"]%string bucket
                    = Ok (bucket ++ chunks))
    /\ emitted_chunks demo_tk 4 ["a"; "b"; "c"]%string = Ok chunks
    /\ Forall (fun c => py_len c = 4
                        /\ head c = Some (bos_token demo_tk)
                        /\ last c = Some (eos_token demo_tk)) chunks.
Proof. apply (chunk_shape demo_tk 4 ["a"; "b"; "c"]%string). lia. Defined.

(** C3, the claim as stated fails: a document of [seqlen - 2 = 6] tokens
    fills exactly one chunk, where [ceil((T + 2) / (S - 1))] asks for two. *)
Lemma chunk_count_counterexample :
  let tokens := ["a"; "b"; "c"; "d"; "e"; "f"]%string in
  exists chunks : list chunk,
    emitted_chunks demo_tk 8 tokens = Ok chunks
    /\ py_len chunks = 1
    /\ ceil_div (py_len tokens + 2) (8 - 1) = 2
    /\ py_len chunks <> ceil_div (py_len tokens + 2) (8 - 1).
Proof.
  eexists. split; [reflexivity|]. split; [reflexivity|]. split; [reflexivity|].
  vm_compute. discriminate.
Qed.

(** C3, amended. For every document of [T] tokens and every [seqlen >= 3]
    the builder produces [ceil(T / (seqlen - 2))] chunks when [T > 0], and
    one chunk when [T = 0]: a chunk holds [seqlen - 2] tokens between its
    two markers. *)
Theorem chunk_count (tk : Tokenizer) (seqlen : Z) (tokens : list token) :
  3 <= seqlen ->
  exists chunks : list chunk,
    emitted_chunks tk seqlen tokens = Ok chunks
    /\ (tokens = [] -> py_len chunks = 1)
    /\ (tokens <> [] -> py_len chunks = ceil_div (py_len tokens) (seqlen - 2)).
Proof.
  intros HS.
  destruct (chunk_builder_layout tk seqlen tokens HS)
    as (cs & c & Hrun & Hcs & Hlen & Hne & Hcat).
  eexists. split; [apply (Hrun [])|].
  pose proof (concat_length_uniform _ _ Hcs) as Hsum.
  apply (f_equal (@length _)) in Hcat. rewrite length_app, Hsum in Hcat.
  unfold py_len. cbn [app]. rewrite length_app, length_map. cbn [length].
  split.
  - intros ->. cbn [length] in Hcat.
    assert (length cs = 0)%nat by nia. lia.
  - intros Hnil. specialize (Hne Hnil). unfold ceil_div.
    apply Z.div_unique with (r := Z.of_nat (length c) - 1); [lia|].
    rewrite <- Hcat. nia.
Qed.

Lemma chunk_count_witness :
  exists chunks : list chunk,
    emitted_chunks demo_tk 4 ["a"; "b"; "c"]%string = Ok chunks
    /\ py_len chunks = 2.
Proof.
  destruct (chunk_count demo_tk 4 ["a"; "b"; "c"]%string) as (chunks & Hrun & _ & Hcount).
  - lia.
  - exists chunks. split; [exact Hrun|]. rewrite Hcount by discriminate. reflexivity.
Defined.

(** C4. For every token sequence and every [seqlen >= 3] the emitted chunks
    are, in order, begin marker + a slice of the document + padding + end
    marker, and the slices concatenated are the document: no token is
    dropped, duplicated or overwritten.  When no document token is itself a
    reserved token, deleting the reserved tokens from the chunks gives the
    document back. *)
Theorem chunks_cover_tokens (tk : Tokenizer) (seqlen : Z) (tokens : list token) :
  3 <= seqlen ->
  exists layout : list (list token * nat),
    emitted_chunks tk seqlen tokens = Ok (map (chunk_of_layout tk) layout)
    /\ concat (map fst layout) = tokens
    /\ (Forall (fun t => is_marker tk t = false) tokens ->
        concat (map (strip_markers tk) (map (chunk_of_layout tk) layout)) = tokens).
Proof.
  intros HS.
  destruct (chunk_builder_layout tk seqlen tokens HS)
    as (cs & c & Hrun & Hcs & Hlen & Hne & Hcat).
  exists (map (fun x => (x, 0%nat)) cs ++ [(c, (Z.to_nat (seqlen - 2) - length c)%nat)]).
  split; [|split].
  - unfold emitted_chunks. rewrite Hrun. cbn [app]. f_equal.
    rewrite map_app, map_map. reflexivity.
  - rewrite map_app, map_map, concat_app. cbn [map fst concat].
    rewrite map_id, app_nil_r. exact Hcat.
  - intros Hfree. rewrite <- Hcat in Hfree. apply Forall_app in Hfree.
    destruct Hfree as [Hfcs Hfc].
    rewrite !map_app, !map_map, concat_app. cbn [map concat].
    unfold chunk_of_layout. cbn [fst snd].
    rewrite (strip_markers_chunk_of tk c _ Hfc), app_nil_r, <- Hcat. f_equal.
    clear Hrun Hcat Hcs. induction cs as [|x cs IH]; [reflexivity|].
    cbn [concat map] in *. apply Forall_app in Hfcs. destruct Hfcs as [Hx Hrest].
    rewrite (strip_markers_chunk_of tk x _ Hx). f_equal. apply IH, Hrest.
Qed.

Lemma chunks_cover_tokens_witness :
  exists layout : list (list token * nat),
    emitted_chunks demo_tk 4 ["a"; "b"; "c"]%string = Ok (map (chunk_of_layout demo_tk) layout)
    /\ concat (map fst layout) = ["a"; "b"; "c"]%string
    /\ concat (map (strip_markers demo_tk) (map (chunk_of_layout demo_tk) layout))
       = ["a"; "b"; "c"]%string.
Proof.
  destruct (chunks_cover_tokens demo_tk 4 ["a"; "b"; "c"]%string)
    as (layout & Hrun & Hcat & Hstrip).
  - lia.
  - exists layout. split; [exact Hrun|]. split; [exact Hcat|].
    apply Hstrip. repeat constructor.
Defined.

(** ** The train/validation split *)

Lemma goes_to_train_true (draw split : Q) :
  goes_to_train draw split = true <-> (split < draw)%Q.
Proof.
  unfold goes_to_train. rewrite negb_true_iff, <- not_true_iff_false, Qle_bool_iff.
  split; [apply Qnot_le_lt | apply Qlt_not_le].
Qed.

Lemma goes_to_train_false (draw split : Q) :
  goes_to_train draw split = false <-> (draw <= split)%Q.
Proof.
  unfold goes_to_train. rewrite negb_false_iff. apply Qle_bool_iff.
Qed.

Lemma process_line_blank (tk : Tokenizer) (args : Args) (b : buckets)
    (line : string) (w : world) :
  strip line = EmptyString -> process_line tk args b line w = (Ok b, w).
Proof.
  intros Hblank. unfold process_line.
  destruct (decide (strip line = EmptyString)); [reflexivity|contradiction].
Qed.

(** A document makes one draw and hands all its chunks to one bucket. *)
Lemma process_line_any (tk : Tokenizer) (args : Args) (line : string)
    (b : buckets) (w : world) :
  strip line <> EmptyString ->
  process_line tk args b line w
  = (match emitted_chunks tk (seqlen args) (tokenize tk line) with
     | Ok chunks =>
         Ok (add_chunks (goes_to_train (next_draw w) (train_dev_split args)) chunks b)
     | Raised e => Raised e
     end, after_draw w).
Proof.
  intros Hdoc. unfold process_line.
  destruct (decide (strip line = EmptyString)); [contradiction|].
  unfold bind, random, ret, raise, add_chunks. fold (next_draw w). fold (after_draw w).
  destruct (goes_to_train (next_draw w) (train_dev_split args));
    rewrite chunk_builder_bucket;
    destruct (emitted_chunks tk (seqlen args) (tokenize tk line)); reflexivity.
Qed.

Lemma process_line_document (tk : Tokenizer) (args : Args) (line : string) :
  3 <= seqlen args ->
  strip line <> EmptyString ->
  exists chunks : list chunk,
    emitted_chunks tk (seqlen args) (tokenize tk line) = Ok chunks
    /\ chunks <> []
    /\ forall (b : buckets) (w : world),
         process_line tk args b line w
         = (Ok (add_chunks (goes_to_train (next_draw w) (train_dev_split args)) chunks b),
            after_draw w).
Proof.
  intros HS Hdoc.
  destruct (chunk_builder_layout tk (seqlen args) (tokenize tk line) HS)
    as (cs & c & Hrun & _).
  eexists. split; [apply (Hrun [])|]. split.
  { intros Hnil. apply (f_equal (@length _)) in Hnil.
    rewrite !length_app in Hnil. cbn [length] in Hnil. lia. }
  intros b w. rewrite (process_line_any tk args line b w Hdoc).
  unfold emitted_chunks. rewrite (Hrun []). reflexivity.
Qed.

(** C10. Every chunk of one non-empty line goes to the same bucket: the
    line makes exactly one draw, before chunking, and then either the train
    bucket receives all its chunks and the validation bucket none, or the
    other way round.  This holds for every [seqlen]; the call can only fail
    inside the chunk builder, which for [seqlen >= 3] it never does. *)
Theorem line_chunks_share_bucket (tk : Tokenizer) (args : Args) (line : string)
    (b : buckets) (w : world) :
  strip line <> EmptyString ->
  rng_pos (w_rng (after_draw w)) = S (rng_pos (w_rng w))
  /\ ((exists (chunks : list chunk) (b' : buckets),
         emitted_chunks tk (seqlen args) (tokenize tk line) = Ok chunks
         /\ process_line tk args b line w = (Ok b', after_draw w)
         /\ ((train_chunks b' = train_chunks b ++ chunks
              /\ val_chunks b' = val_chunks b)
             \/ (train_chunks b' = train_chunks b
                 /\ val_chunks b' = val_chunks b ++ chunks)))
      \/ (seqlen args < 3
          /\ exists e : exn,
               emitted_chunks tk (seqlen args) (tokenize tk line) = Raised e
               /\ process_line tk args b line w = (Raised e, after_draw w))).
Proof.
  intros Hdoc. split; [reflexivity|].
  rewrite (process_line_any tk args line b w Hdoc).
  destruct (emitted_chunks tk (seqlen args) (tokenize tk line)) as [chunks|e] eqn:Hem.
  - left. exists chunks. eexists. split; [reflexivity|]. split; [reflexivity|].
    unfold add_chunks.
    destruct (goes_to_train (next_draw w) (train_dev_split args)); cbn; auto.
  - right. split.
    + destruct (Z.lt_ge_cases (seqlen args) 3) as [Hlt|Hge]; [exact Hlt|].
      destruct (chunk_builder_layout tk (seqlen args) (tokenize tk line) Hge)
        as (cs & c & Hrun & _).
      unfold emitted_chunks in Hem. rewrite (Hrun []) in Hem. discriminate.
    + exists e. split; reflexivity.
Qed.

Lemma line_chunks_share_bucket_witness :
  exists (chunks : list chunk) (b' : buckets),
    emitted_chunks demo_tk (seqlen short_args) (tokenize demo_tk "a b c d e") = Ok chunks
    /\ process_line demo_tk short_args no_chunks "a b c d e" two_draws_world
       = (Ok b', after_draw two_draws_world)
    /\ ((train_chunks b' = train_chunks no_chunks ++ chunks
         /\ val_chunks b' = val_chunks no_chunks)
        \/ (train_chunks b' = train_chunks no_chunks
            /\ val_chunks b' = val_chunks no_chunks ++ chunks)).
Proof.
  destruct (line_chunks_share_bucket demo_tk short_args "a b c d e" no_chunks
              two_draws_world) as [_ [Hok|[Hlt _]]].
  - vm_compute. discriminate.
  - exact Hok.
  - vm_compute in Hlt. discriminate.
Defined.

Lemma lines_loop (tk : Tokenizer) (args : Args) (lines : list string) :
  3 <= seqlen args ->
  forall (b : buckets) (w : world),
  exists b' : buckets,
    for_each (process_line tk args) b lines w
    = (Ok b', Nat.iter (length (documents lines)) after_draw w).
Proof.
  intros HS. induction lines as [|line lines IH]; intros b w.
  - exists b. reflexivity.
  - cbn [for_each documents List.filter]. unfold bind.
    destruct (decide (strip line = EmptyString)) as [Hblank|Hdoc].
    + rewrite (process_line_blank _ _ _ _ _ Hblank).
      rewrite (bool_decide_eq_true_2 _ Hblank). cbn [negb]. apply IH.
    + destruct (process_line_document tk args line HS Hdoc) as (chunks & _ & _ & Hrun).
      rewrite Hrun, (bool_decide_eq_false_2 _ Hdoc). cbn [negb length].
      rewrite Nat.iter_succ_r. apply IH.
Qed.

Lemma iter_after_draw_pos (n : nat) (w : world) :
  rng_pos (w_rng (Nat.iter n after_draw w)) = (rng_pos (w_rng w) + n)%nat.
Proof.
  induction n as [|n IH]; cbn [Nat.iter nat_rect]; [lia|].
  unfold after_draw at 1. cbn. fold (Nat.iter n after_draw w). rewrite IH. lia.
Qed.

Lemma iter_after_draw_fs (n : nat) (w : world) :
  w_fs (Nat.iter n after_draw w) = w_fs w /\ w_log (Nat.iter n after_draw w) = w_log w.
Proof.
  induction n as [|n IH]; cbn [Nat.iter nat_rect]; [auto|].
  unfold after_draw at 1 3. cbn. exact IH.
Qed.

(** C2, the claim as stated fails: the line ["a b c"] gives two chunks of
    length four, the generator returns [9/10] and then [1/10], the ratio is
    [1/2].  The code makes one draw and sends both chunks to train; a draw
    per chunk would make two draws and send the second chunk to validation. *)
Lemma per_chunk_draw_counterexample :
  exists (c1 c2 : chunk) (w1 w2 : world),
    emitted_chunks demo_tk 4 (tokenize demo_tk "a b c") = Ok [c1; c2]
    /\ process_line demo_tk short_args no_chunks "a b c" two_draws_world
       = (Ok {| train_chunks := [c1; c2]; val_chunks := [] |}, w1)
    /\ rng_pos (w_rng w1) = 1%nat
    /\ process_line_per_chunk demo_tk short_args no_chunks "a b c" two_draws_world
       = (Ok {| train_chunks := [c1]; val_chunks := [c2] |}, w2)
    /\ rng_pos (w_rng w2) = 2%nat
    /\ process_line demo_tk short_args no_chunks "a b c" two_draws_world
       <> process_line_per_chunk demo_tk short_args no_chunks "a b c" two_draws_world.
Proof.
  do 4 eexists.
  split; [vm_compute; reflexivity|].
  split; [vm_compute; reflexivity|].
  split; [reflexivity|].
  split; [vm_compute; reflexivity|].
  split; [reflexivity|].
  vm_compute. discriminate.
Qed.

Lemma lines_loop_draws (tk : Tokenizer) (args : Args) (lines : list string) :
  forall (b b' : buckets) (w w' : world),
    for_each (process_line tk args) b lines w = (Ok b', w') ->
    w' = Nat.iter (length (documents lines)) after_draw w.
Proof.
  induction lines as [|line lines IH]; intros b b' w w' Hrun.
  - cbn in *. unfold ret in Hrun. congruence.
  - cbn [for_each documents List.filter] in *.
    destruct (decide (strip line = EmptyString)) as [Hblank|Hdoc].
    + rewrite (bind_run _ _ _ _ _ (process_line_blank _ _ _ _ _ Hblank)) in Hrun.
      rewrite (bool_decide_eq_true_2 _ Hblank). cbn [negb]. exact (IH _ _ _ _ Hrun).
    + rewrite (bool_decide_eq_false_2 _ Hdoc). cbn [negb length].
      rewrite Nat.iter_succ_r.
      pose proof (process_line_any tk args line b w Hdoc) as Hline.
      destruct (emitted_chunks tk (seqlen args) (tokenize tk line)) as [chunks|e].
      * rewrite (bind_run _ _ _ _ _ Hline) in Hrun. exact (IH _ _ _ _ Hrun).
      * rewrite (bind_raise _ _ _ _ _ Hline) in Hrun. discriminate.
Qed.

(** C2, amended. The bucket is decided by one random draw per non-empty
    line (document), not per chunk: a non-empty line draws one fresh number
    before chunking and compares it against the split ratio; draw > ratio
    sends all chunks of the line to train, draw <= ratio sends all of them
    to validation; a run over a list of lines makes as many draws as the
    list has non-empty lines, and for [seqlen >= 3] every run completes. *)
Theorem split_draw_per_document (tk : Tokenizer) (args : Args) :
  (forall (line : string) (chunks : list chunk) (b : buckets) (w : world),
     strip line <> EmptyString ->
     emitted_chunks tk (seqlen args) (tokenize tk line) = Ok chunks ->
     ((train_dev_split args < next_draw w)%Q ->
      process_line tk args b line w
      = (Ok {| train_chunks := train_chunks b ++ chunks;
               val_chunks := val_chunks b |}, after_draw w))
     /\ ((next_draw w <= train_dev_split args)%Q ->
         process_line tk args b line w
         = (Ok {| train_chunks := train_chunks b;
                  val_chunks := val_chunks b ++ chunks |}, after_draw w)))
  /\ (forall (lines : list string) (b b' : buckets) (w w' : world),
        for_each (process_line tk args) b lines w = (Ok b', w') ->
        rng_pos (w_rng w') = (rng_pos (w_rng w) + length (documents lines))%nat)
  /\ (3 <= seqlen args ->
      (forall line : string, exists chunks : list chunk,
         emitted_chunks tk (seqlen args) (tokenize tk line) = Ok chunks)
      /\ (forall (lines : list string) (b : buckets) (w : world),
            exists (b' : buckets) (w' : world),
              for_each (process_line tk args) b lines w = (Ok b', w'))).
Proof.
  split; [|split].
  - intros line chunks b w Hdoc Hem.
    rewrite (process_line_any tk args line b w Hdoc), Hem. split; intros Hcmp.
    + apply goes_to_train_true in Hcmp. rewrite Hcmp. reflexivity.
    + apply goes_to_train_false in Hcmp. rewrite Hcmp. reflexivity.
  - intros lines b b' w w' Hrun.
    rewrite (lines_loop_draws tk args lines b b' w w' Hrun). apply iter_after_draw_pos.
  - intros HS. split.
    + intros line.
      destruct (chunk_builder_layout tk (seqlen args) (tokenize tk line) HS)
        as (cs & c & Hrun & _).
      eexists. apply (Hrun []).
    + intros lines b w.
      destruct (lines_loop tk args lines HS b w) as (b' & Hloop).
      exists b'. eexists. exact Hloop.
Qed.

Lemma split_draw_per_document_witness :
  (exists chunks : list chunk,
     emitted_chunks demo_tk 4 (tokenize demo_tk "a b c") = Ok chunks
     /\ process_line demo_tk short_args no_chunks "a b c" two_draws_world
        = (Ok {| train_chunks := chunks; val_chunks := [] |}, after_draw two_draws_world))
  /\ (exists (b' : buckets) (w' : world),
        for_each (process_line demo_tk short_args) no_chunks
          ["a b c"; newline; "d"]%string two_draws_world = (Ok b', w')
        /\ rng_pos (w_rng w') = 2%nat).
Proof.
  destruct (split_draw_per_document demo_tk short_args) as (Hline & Hcount & Hruns).
  destruct Hruns as [Hem Hloop]; [cbn; lia|].
  split.
  - destruct (Hem "a b c"%string) as (chunks & Hchunks).
    exists chunks. split; [exact Hchunks|].
    apply (Hline "a b c"%string chunks no_chunks two_draws_world).
    + vm_compute. discriminate.
    + exact Hchunks.
    + reflexivity.
  - destruct (Hloop ["a b c"; newline; "d"]%string no_chunks two_draws_world)
      as (b' & w' & Hrun).
    exists b', w'. split; [exact Hrun|].
    apply (Hcount _ _ _ _ _ Hrun).
Defined.

(** ** The guards of [raw_text_to_mmap] *)

Lemma rev_app_append (s1 s2 acc : string) :
  String.rev_app (s1 +:+ s2) acc = String.rev_app s2 (String.rev_app s1 acc).
Proof.
  revert acc. induction s1 as [|a s1 IH]; intros acc; cbn; [reflexivity|apply IH].
Qed.

Lemma rev_app_rev_app (s acc1 acc2 : string) :
  String.rev_app (String.rev_app s acc1) acc2 = String.rev_app acc1 (s +:+ acc2).
Proof.
  revert acc1 acc2. induction s as [|a s IH]; intros acc1 acc2; cbn; [reflexivity|].
  rewrite IH. reflexivity.
Qed.

Lemma cache_dir_ends_with_slash (args : Args) :
  ends_with "/" (cache_dir args) = true.
Proof.
  unfold ends_with, cache_dir, String.rev. rewrite rev_app_append.
  cbn [String.rev_app String.prefix].
  destruct (ascii_dec "/" "/"); [reflexivity|contradiction].
Qed.

Lemma cache_dir_strip_slash (args : Args) :
  strip_slash (cache_dir args) = (input_dir args +:+ "/cache")%string.
Proof.
  unfold strip_slash, cache_dir, String.rev. rewrite rev_app_append.
  cbn [String.rev_app]. rewrite rev_app_rev_app. reflexivity.
Qed.

Lemma cache_dir_exists (args : Args) (fs : filesystem) :
  (input_dir args +:+ "/cache")%string ∈ fs_dirs fs ->
  os_path_exists fs (cache_dir args) = true.
Proof.
  intros Hdir. unfold os_path_exists.
  rewrite cache_dir_ends_with_slash, cache_dir_strip_slash.
  unfold is_dir. rewrite (bool_decide_eq_true_2 _ Hdir). apply orb_true_r.
Qed.

(** C8. When the vocabulary has 65535 entries or more, ingestion stops at
    its first assertion: it raises, and the file system, with its cache
    directory and cache files, is exactly as it was. *)
Theorem vocabulary_overflow_is_fatal (tk : Tokenizer) (args : Args) (w : world) :
  65535 <= tokenizer_len tk ->
  raw_text_to_mmap tk args w = (Raised AssertionError, w).
Proof.
  intros Hbig. unfold raw_text_to_mmap, bind, py_assert.
  destruct (Z.ltb_spec (tokenizer_len tk) 65535); [lia|reflexivity].
Qed.

Lemma vocabulary_overflow_is_fatal_witness :
  raw_text_to_mmap big_tk demo_args (demo_world (1 # 2))
  = (Raised AssertionError, demo_world (1 # 2)).
Proof.
  apply (vocabulary_overflow_is_fatal big_tk demo_args (demo_world (1 # 2))).
  cbn. lia.
Defined.

(** C7. Under the precondition of ingestion (a vocabulary size below
    65535), if a [cache/] directory already exists under [input_dir],
    ingestion returns without error as a no-op: the file system is
    unchanged (no cache file is created, written or modified), no random
    draw is made and no chunk is processed; only the message is logged. *)
Theorem cache_exists_is_noop (tk : Tokenizer) (args : Args) (w : world) :
  tokenizer_len tk < 65535 ->
  (input_dir args +:+ "/cache")%string ∈ fs_dirs (w_fs w) ->
  raw_text_to_mmap tk args w
  = (Ok tt, {| w_fs := w_fs w; w_rng := w_rng w;
               w_log := w_log w ++ [cache_exists_msg];
               w_numpy := w_numpy w |}).
Proof.
  intros Hsmall Hdir. unfold raw_text_to_mmap, bind, py_assert.
  destruct (Z.ltb_spec (tokenizer_len tk) 65535); [|lia].
  unfold ret, get_fs. rewrite (cache_dir_exists _ _ Hdir). reflexivity.
Qed.

Lemma cache_exists_is_noop_witness :
  raw_text_to_mmap demo_tk demo_args cached_world
  = (Ok tt, {| w_fs := w_fs cached_world; w_rng := w_rng cached_world;
               w_log := w_log cached_world ++ [cache_exists_msg];
               w_numpy := w_numpy cached_world |}).
Proof.
  apply (cache_exists_is_noop demo_tk demo_args cached_world).
  - cbn. lia.
  - vm_compute. reflexivity.
Defined.

(** ** The binary layout *)

Lemma list_pair_ind {A} (P : list A -> Prop) :
  P [] -> (forall a, P [a]) -> (forall a b l, P l -> P (a :: b :: l)) ->
  forall l, P l.
Proof.
  intros Hnil Hone Htwo l.
  assert (H : P l /\ forall a, P (a :: l)); [|apply H].
  induction l as [|b l [IH1 IH2]]; split; auto.
Qed.

Lemma decode_uint16s_length (bytes : list Byte.byte) :
  py_len (decode_uint16s bytes) = py_len bytes / 2.
Proof.
  unfold py_len. induction bytes as [|a|a b l IH] using list_pair_ind.
  - reflexivity.
  - reflexivity.
  - cbn [decode_uint16s length]. rewrite !Nat2Z.inj_succ, IH.
    replace (Z.succ (Z.succ (Z.of_nat (length l)))) with (Z.of_nat (length l) + 1 * 2) by lia.
    rewrite Z.div_add by lia. lia.
Qed.

Lemma byte_round_trip (z : Z) : Z_of_byte (byte_of_Z z) = z mod 256.
Proof.
  unfold Z_of_byte, byte_of_Z.
  pose proof (Z.mod_pos_bound z 256 ltac:(lia)) as Hb.
  destruct (Byte.of_N (Z.to_N (z mod 256))) as [b|] eqn:E.
  - apply Byte.to_of_N in E. rewrite E. lia.
  - apply Byte.of_N_None_iff in E. lia.
Qed.

Lemma decode_encode_uint16 (v : Z) (rest : list Byte.byte) :
  0 <= v < 65536 ->
  decode_uint16s (encode_uint16 v ++ rest) = v :: decode_uint16s rest.
Proof.
  intros Hv. cbn [encode_uint16 app decode_uint16s]. f_equal.
  rewrite !byte_round_trip.
  assert (0 <= v / 256 < 256) as Hhi.
  { split; [apply Z.div_pos; lia|apply Z.div_lt_upper_bound; lia]. }
  rewrite (Z.mod_small (v / 256)) by lia.
  pose proof (Z.div_mod v 256 ltac:(lia)). lia.
Qed.

Lemma decode_encode_all (l : list Z) :
  Forall (fun v => 0 <= v < 65536) l ->
  decode_uint16s (flat_map encode_uint16 l) = l.
Proof.
  induction 1 as [|v l Hv _ IH]; [reflexivity|].
  cbn [flat_map]. rewrite decode_encode_uint16 by exact Hv. f_equal. exact IH.
Qed.

Lemma encode_all_length (l : list Z) :
  py_len (flat_map encode_uint16 l) = 2 * py_len l.
Proof.
  unfold py_len. induction l as [|v l IH]; [reflexivity|].
  cbn [flat_map]. rewrite length_app. cbn [encode_uint16 length]. lia.
Qed.

Lemma concat_rows_length (m : Z) (rows : list (list Z)) :
  Forall (fun r => py_len r = m) rows ->
  py_len (concat rows) = py_len rows * m.
Proof.
  unfold py_len. induction 1 as [|r rows Hr _ IH]; cbn [concat length]; [lia|].
  rewrite length_app. lia.
Qed.

Lemma reshape_concat (m : nat) (rows : list (list Z)) :
  Forall (fun r => length r = m) rows ->
  reshape (length rows) m (concat rows) = rows.
Proof.
  induction 1 as [|r rows Hr _ IH]; [reflexivity|].
  cbn [length reshape concat].
  rewrite take_app_length' by (symmetry; exact Hr).
  rewrite drop_app_length' by (symmetry; exact Hr).
  rewrite IH. reflexivity.
Qed.

Lemma to_int32_uint16 (v : Z) : 0 <= v < 65536 -> to_int32 v = v.
Proof. intros Hv. unfold to_int32. rewrite Z.mod_small by lia. lia. Qed.

Lemma np_row_lookup (rows : list (list Z)) (i : nat) (row : list Z) :
  rows !! i = Some row -> np_row rows (Z.of_nat i) = Some row.
Proof.
  intros Hrow. pose proof (lookup_lt_Some _ _ _ Hrow) as Hlt.
  unfold np_row, py_len.
  destruct (Z.ltb_spec (Z.of_nat i) 0); [lia|].
  destruct (Z.leb_spec 0 (Z.of_nat i)); [|lia].
  destruct (Z.ltb_spec (Z.of_nat i) (Z.of_nat (length rows))); [|lia].
  cbn [andb]. rewrite Nat2Z.id. exact Hrow.
Qed.


Lemma memmap_flat_run (w : world) (fname : string) (bytes : list Byte.byte) :
  fs_files (w_fs w) !! fname = Some bytes ->
  bytes <> [] ->
  py_len bytes mod 2 = 0 ->
  memmap_flat fname w = (Ok (decode_uint16s bytes), w).
Proof.
  intros Hfile Hne Heven. unfold memmap_flat. rewrite bind_get_fs, Hfile.
  rewrite (proj2 (Z.eqb_eq _ _) Heven). cbn [negb].
  destruct bytes; [contradiction|reflexivity].
Qed.



(** ** Serialisation and reading back *)

Lemma swap_perm {A} (x : list A) (i j : nat) : swap x i j ≡ₚ x.
Proof.
  unfold swap.
  destruct (x !! i) as [a|] eqn:Hi; [|reflexivity].
  destruct (x !! j) as [b|] eqn:Hj; [|reflexivity].
  apply Permutation_insert_swap; assumption.
Qed.

Lemma shuffle_from_run {A} (i : nat) :
  forall (x : list A) (w : world),
  exists x' : list A,
    shuffle_from i x w = (Ok x', Nat.iter i after_draw w) /\ x' ≡ₚ x.
Proof.
  induction i as [|i IH]; intros x w.
  - exists x. split; reflexivity.
  - cbn [shuffle_from].
    assert (Hdraw : randbelow (S (S i)) w
                    = (Ok (rng_ints (w_rng w) (rng_pos (w_rng w)) mod S (S i))%nat,
                       after_draw w)) by reflexivity.
    run_with Hdraw.
    destruct (IH (swap x (S i) (rng_ints (w_rng w) (rng_pos (w_rng w)) mod S (S i))%nat)
                 (after_draw w)) as (x' & Hrun & Hperm).
    exists x'. rewrite Nat.iter_succ_r. split; [exact Hrun|].
    rewrite Hperm. apply swap_perm.
Qed.

Lemma shuffle_run {A} (x : list A) (w : world) :
  exists (x' : list A) (w' : world),
    shuffle x w = (Ok x', w') /\ x' ≡ₚ x
    /\ w_fs w' = w_fs w /\ w_log w' = w_log w
    /\ ((length x <= 1)%nat -> x' = x).
Proof.
  unfold shuffle.
  destruct (shuffle_from_run (length x - 1) x w) as (x' & Hrun & Hperm).
  exists x', (Nat.iter (length x - 1) after_draw w).
  destruct (iter_after_draw_fs (length x - 1) w) as [Hfs Hlog].
  repeat split; try assumption.
  intros Hshort. replace (length x - 1)%nat with 0%nat in Hrun by lia.
  cbn [shuffle_from] in Hrun. unfold ret in Hrun. congruence.
Qed.

Lemma store_chunk_run (tk : Tokenizer) (seqlen : Z) (rows : list (list Z))
    (k : nat) (c : chunk) (w : world) :
  py_len c = seqlen ->
  store_chunk tk seqlen rows (k, c) w
  = (Ok (<[k := map to_uint16 (convert_tokens_to_ids tk c)]> rows), w).
Proof.
  intros Hc. unfold store_chunk.
  rewrite (bind_run _ _ w w tt); [reflexivity|].
  apply py_assert_true. unfold convert_tokens_to_ids, py_len.
  rewrite length_map. apply Z.eqb_eq. exact Hc.
Qed.

Lemma fill_rows (tk : Tokenizer) (seqlen : Z) (chunks : list chunk) :
  Forall (fun c => py_len c = seqlen) chunks ->
  forall (filled blank : list (list Z)) (w : world),
    length blank = length chunks ->
    for_each (store_chunk tk seqlen) (filled ++ blank)
             (zip (seq (length filled) (length chunks)) chunks) w
    = (Ok (filled ++ stored_rows tk chunks), w).
Proof.
  induction 1 as [|c chunks Hc _ IH]; intros filled blank w Hlen.
  - destruct blank; [reflexivity|discriminate].
  - destruct blank as [|row blank]; [discriminate|].
    cbn [length seq zip zip_with for_each].
    run_with (store_chunk_run tk seqlen (filled ++ row :: blank) (length filled) c w Hc).
    replace (length filled) with (length filled + 0)%nat at 1 by lia.
    rewrite insert_app_r. cbn [insert list_insert].
    specialize (IH (filled ++ [map to_uint16 (convert_tokens_to_ids tk c)]) blank w).
    rewrite length_app, Nat.add_1_r, <- !app_assoc in IH. cbn [app] in IH.
    apply IH. cbn [length] in Hlen. lia.
Qed.

Lemma encode_nonempty (cells : list Z) :
  cells <> [] -> flat_map encode_uint16 cells <> [].
Proof. destruct cells; [contradiction|discriminate]. Qed.

Lemma memmap_write_run (fname : string) (rows : list (list Z)) (w : world) :
  is_dir (w_fs w) fname = false ->
  is_dir (w_fs w) (dirname fname) = true ->
  concat rows <> [] ->
  memmap_write fname rows w
  = (Ok tt, {| w_fs := fs_write (w_fs w) fname (flat_map encode_uint16 (concat rows));
               w_rng := w_rng w; w_log := w_log w; w_numpy := w_numpy w |}).
Proof.
  intros Hnodir Hparent Hcells. unfold memmap_write.
  rewrite bind_get_fs, Hnodir, Hparent. cbn [negb].
  pose proof (encode_nonempty _ Hcells) as Hbytes.
  destruct (flat_map encode_uint16 (concat rows)); [contradiction|reflexivity].
Qed.

(** An array without cells: what is left of the file depends on the
    release, and only NumPy 2.x lets the call return. *)
Lemma memmap_write_empty (fname : string) (rows : list (list Z)) (w : world) :
  is_dir (w_fs w) fname = false ->
  is_dir (w_fs w) (dirname fname) = true ->
  concat rows = [] ->
  memmap_write fname rows w
  = match w_numpy w with
    | NumPy1 =>
        (Raised ValueError,
         {| w_fs := fs_write (w_fs w) fname []; w_rng := w_rng w; w_log := w_log w;
            w_numpy := w_numpy w |})
    | NumPy2 =>
        (Ok tt,
         {| w_fs := fs_write (w_fs w) fname [Byte.x00]; w_rng := w_rng w;
            w_log := w_log w; w_numpy := w_numpy w |})
    end.
Proof.
  intros Hnodir Hparent Hcells. unfold memmap_write.
  rewrite bind_get_fs, Hnodir, Hparent, Hcells. cbn [negb flat_map].
  destruct w as [fs g lg release]. destruct release; reflexivity.
Qed.

Lemma stored_rows_cells (tk : Tokenizer) (seqlen : Z) (chunks : list chunk) :
  0 < seqlen ->
  chunks <> [] ->
  Forall (fun c => py_len c = seqlen) chunks ->
  concat (stored_rows tk chunks) <> [].
Proof.
  intros HS Hne Hlen. destruct chunks as [|c chunks]; [contradiction|].
  inversion Hlen as [|? ? Hc _]; subst.
  destruct c as [|t c]; [unfold py_len in HS; cbn in HS; lia|].
  cbn. discriminate.
Qed.

(** What one call of [_tokenized_text_to_mmap] does on a bucket that is not
    empty. *)
Lemma tokenized_text_to_mmap_run (tk : Tokenizer) (seqlen : Z) (fname : string)
    (chunks : list chunk) (w : world) :
  0 < seqlen ->
  chunks <> [] ->
  Forall (fun c => py_len c = seqlen) chunks ->
  is_dir (w_fs w) fname = false ->
  is_dir (w_fs w) (dirname fname) = true ->
  exists (shuffled : list chunk) (w' : world),
    _tokenized_text_to_mmap tk seqlen fname chunks w = (Ok tt, w')
    /\ shuffled ≡ₚ chunks
    /\ ((length chunks <= 1)%nat -> shuffled = chunks)
    /\ w_fs w' = fs_write (w_fs w) fname
                   (flat_map encode_uint16 (concat (stored_rows tk shuffled)))
    /\ w_log w' = w_log w
    /\ w_numpy w' = w_numpy w.
Proof.
  intros HS Hne Hlen Hnodir Hparent.
  destruct (shuffle_run chunks w) as (shuffled & w1 & Hsh & Hperm & Hfs & Hlog & Hshort).
  exists shuffled. eexists. unfold _tokenized_text_to_mmap.
  run_with Hsh.
  assert (Hempty : np_empty (py_len shuffled) seqlen w1
                   = (Ok (replicate (Z.to_nat (py_len shuffled))
                            (replicate (Z.to_nat seqlen) 0)), w1)).
  { unfold np_empty, py_len.
    destruct (Z.ltb_spec (Z.of_nat (length shuffled)) 0); [lia|].
    destruct (Z.ltb_spec seqlen 0); [lia|]. reflexivity. }
  run_with Hempty.
  assert (Hlen' : Forall (fun c => py_len c = seqlen) shuffled).
  { rewrite Hperm. exact Hlen. }
  assert (Hne' : shuffled <> []).
  { intros ->. apply Permutation_nil_l in Hperm. congruence. }
  pose proof (fill_rows tk seqlen shuffled Hlen' []
                (replicate (Z.to_nat (py_len shuffled)) (replicate (Z.to_nat seqlen) 0)) w1)
    as Hfill.
  cbn [app length] in Hfill. unfold enumerate.
  rewrite (bind_run _ _ _ _ _ (Hfill ltac:(rewrite length_replicate; unfold py_len; lia))).
  rewrite memmap_write_run;
    [|rewrite Hfs; assumption|rewrite Hfs; assumption
     |apply (stored_rows_cells tk seqlen); assumption].
  rewrite Hfs, Hlog. cbn [w_fs w_log w_numpy].
  repeat split; try assumption; try reflexivity.
  unfold shuffle in Hsh.
  destruct (shuffle_from_run (length chunks - 1) chunks w) as (x' & Hrun' & _).
  rewrite Hsh in Hrun'. injection Hrun' as _ ->.
  clear. induction (length chunks - 1)%nat as [|n IH]; [reflexivity|].
  cbn [Nat.iter nat_rect]. unfold after_draw at 1. cbn [w_numpy]. exact IH.
Qed.

Lemma stored_rows_in_range (tk : Tokenizer) (chunks : list chunk) :
  Forall (Forall (fun t => 0 <= convert_token_to_id tk t < 65535)) chunks ->
  stored_rows tk chunks = map (convert_tokens_to_ids tk) chunks
  /\ Forall (Forall (fun v => 0 <= v < 65536)) (map (convert_tokens_to_ids tk) chunks).
Proof.
  induction 1 as [|c chunks Hc _ [IH1 IH2]]; [split; [reflexivity|constructor]|].
  cbn [stored_rows map]. fold (stored_rows tk chunks). rewrite IH1.
  assert (Hrow : map to_uint16 (convert_tokens_to_ids tk c) = convert_tokens_to_ids tk c
                 /\ Forall (fun v => 0 <= v < 65536) (convert_tokens_to_ids tk c)).
  { clear -Hc. unfold convert_tokens_to_ids.
    induction Hc as [|t c Ht _ [IHa IHb]]; [split; [reflexivity|constructor]|].
    cbn [map]. split.
    - rewrite IHa. unfold to_uint16. rewrite Z.mod_small by lia. reflexivity.
    - constructor; [lia|exact IHb]. }
  destruct Hrow as [Hrow1 Hrow2]. rewrite Hrow1. split; [reflexivity|].
  constructor; assumption.
Qed.

Lemma Forall_concat_rows (P : Z -> Prop) (rows : list (list Z)) :
  Forall (Forall P) rows -> Forall P (concat rows).
Proof.
  induction 1 as [|r rows Hr _ IH]; cbn [concat]; [constructor|].
  apply Forall_app. split; assumption.
Qed.

Lemma memmap_shaped_run (w : world) (fname : string) (rows : list (list Z)) (m : Z) :
  0 <= m ->
  Forall (fun r => py_len r = m) rows ->
  Forall (Forall (fun v => 0 <= v < 65536)) rows ->
  concat rows <> [] ->
  fs_files (w_fs w) !! fname = Some (flat_map encode_uint16 (concat rows)) ->
  memmap_shaped fname (py_len rows) m w = (Ok rows, w).
Proof.
  intros Hm Hlen Hrange Hne Hfile. unfold memmap_shaped.
  rewrite bind_get_fs, Hfile, encode_all_length, (concat_rows_length m rows Hlen).
  destruct (Z.ltb_spec (py_len rows) 0); [unfold py_len in *; lia|].
  destruct (Z.ltb_spec m 0); [lia|].
  destruct (Z.ltb_spec (2 * (py_len rows * m)) (2 * (py_len rows * m))); [lia|].
  cbn [orb].
  assert (Hdec : decode_uint16s (flat_map encode_uint16 (concat rows)) = concat rows)
    by (apply decode_encode_all, Forall_concat_rows; exact Hrange).
  pose proof (encode_nonempty _ Hne) as Hbytes.
  destruct (flat_map encode_uint16 (concat rows)) as [|b bytes]; [contradiction|].
  rewrite Hdec. unfold py_len at 1. rewrite Nat2Z.id, reshape_concat; [reflexivity|].
  eapply Forall_impl; [exact Hlen|]. intros r Hr. unfold py_len in Hr. cbn beta. lia.
Qed.

(** Reading back a file that holds [rows], at least one cell of them. *)
Lemma dataset_read (w : world) (fname : string) (rows : list (list Z)) (m : Z) :
  0 < m ->
  Forall (fun r => py_len r = m) rows ->
  Forall (Forall (fun v => 0 <= v < 65536)) rows ->
  concat rows <> [] ->
  fs_files (w_fs w) !! fname = Some (flat_map encode_uint16 (concat rows)) ->
  MMapTextDataset_init fname m w = (Ok (closed_dataset fname (py_len rows) m), w)
  /\ forall ds : MMapTextDataset,
       ds = closed_dataset fname (py_len rows) m
       \/ ds = opened_dataset fname (py_len rows) m rows ->
       forall (i : nat) (row : list Z),
         rows !! i = Some row ->
         MMapTextDataset_getitem ds (Z.of_nat i) w
         = (Ok (row, opened_dataset fname (py_len rows) m rows), w).
Proof.
  intros Hm Hlen Hrange Hne Hfile. split.
  - unfold MMapTextDataset_init.
    rewrite (bind_run _ _ _ _ _ (memmap_flat_run w fname _ Hfile
               (encode_nonempty _ Hne)
               ltac:(rewrite encode_all_length, Z.mul_comm; apply Z_mod_mult))).
    destruct (Z.eqb_spec m 0); [lia|].
    rewrite decode_encode_all by (apply Forall_concat_rows; exact Hrange).
    rewrite (concat_rows_length m rows Hlen), Z.div_mul by lia. reflexivity.
  - intros ds Hds i row Hrow.
    assert (Hopen : (match token_ids ds with
                     | Some rows0 => ret rows0
                     | None => memmap_shaped (_mmap_filename ds) (num_instances ds)
                                 (_chunk_size ds)
                     end) w = (Ok rows, w)).
    { destruct Hds as [-> | ->]; cbn.
      - apply memmap_shaped_run; [lia|assumption..].
      - reflexivity. }
    unfold MMapTextDataset_getitem. run_with Hopen.
    rewrite (np_row_lookup rows i row Hrow).
    assert (Hsame : map to_int32 row = row).
    { apply list_elem_of_lookup_2 in Hrow.
      rewrite Forall_forall in Hrange. specialize (Hrange row Hrow).
      clear -Hrange. induction Hrange as [|v row Hv _ IH]; [reflexivity|].
      cbn [map]. rewrite IH, to_int32_uint16 by exact Hv. reflexivity. }
    rewrite Hsame. destruct Hds as [-> | ->]; reflexivity.
Qed.

(** C5. Round trip: a bucket of at least one chunk, each of exactly
    [seqlen] tokens whose ids are below 65535, written by
    [_tokenized_text_to_mmap], is stored as the rows of the file (the
    chunks' id sequences in the shuffled order), the dataset opened on the
    file has one instance per row, and [dataset[i]] is row [i] with every
    value and the order unchanged, on the first access and on every later
    one.  (An empty bucket has no round trip: see [memmap_write_empty].) *)
Theorem mmap_round_trip (tk : Tokenizer) (seqlen : Z) (fname : string)
    (chunks : list chunk) (w : world) :
  0 < seqlen ->
  chunks <> [] ->
  Forall (fun c => py_len c = seqlen) chunks ->
  Forall (Forall (fun t => 0 <= convert_token_to_id tk t < 65535)) chunks ->
  is_dir (w_fs w) fname = false ->
  is_dir (w_fs w) (dirname fname) = true ->
  exists (rows : list (list Z)) (w' : world),
    _tokenized_text_to_mmap tk seqlen fname chunks w = (Ok tt, w')
    /\ rows ≡ₚ map (convert_tokens_to_ids tk) chunks
    /\ fs_files (w_fs w') !! fname = Some (flat_map encode_uint16 (concat rows))
    /\ MMapTextDataset_init fname seqlen w'
       = (Ok (closed_dataset fname (py_len rows) seqlen), w')
    /\ forall ds : MMapTextDataset,
         ds = closed_dataset fname (py_len rows) seqlen
         \/ ds = opened_dataset fname (py_len rows) seqlen rows ->
         forall (i : nat) (row : list Z),
           rows !! i = Some row ->
           MMapTextDataset_getitem ds (Z.of_nat i) w'
           = (Ok (row, opened_dataset fname (py_len rows) seqlen rows), w').
Proof.
  intros HS Hne Hlen Hids Hnodir Hparent.
  destruct (tokenized_text_to_mmap_run tk seqlen fname chunks w
              HS Hne Hlen Hnodir Hparent)
    as (shuffled & w' & Hrun & Hperm & _ & Hfs & _).
  assert (Hne' : shuffled <> []).
  { intros ->. apply Permutation_nil_l in Hperm. congruence. }
  assert (Hids' : Forall (Forall (fun t => 0 <= convert_token_to_id tk t < 65535)) shuffled).
  { rewrite Hperm. exact Hids. }
  assert (Hlen' : Forall (fun c => py_len c = seqlen) shuffled).
  { rewrite Hperm. exact Hlen. }
  destruct (stored_rows_in_range tk shuffled Hids') as [Hrows Hrange].
  rewrite Hrows in Hfs.
  assert (Hfile : fs_files (w_fs w') !! fname
                  = Some (flat_map encode_uint16
                            (concat (map (convert_tokens_to_ids tk) shuffled)))).
  { rewrite Hfs. unfold fs_write. cbn [fs_files]. apply lookup_insert_eq. }
  assert (Hwidth : Forall (fun r => py_len r = seqlen)
                     (map (convert_tokens_to_ids tk) shuffled)).
  { clear -Hlen'. induction Hlen' as [|c l Hc _ IH]; cbn [map]; constructor; [|exact IH].
    unfold convert_tokens_to_ids, py_len in *. rewrite length_map. exact Hc. }
  assert (Hcells : concat (map (convert_tokens_to_ids tk) shuffled) <> []).
  { rewrite <- Hrows. apply (stored_rows_cells tk seqlen); assumption. }
  destruct (dataset_read w' fname _ seqlen HS Hwidth Hrange Hcells Hfile) as [Hinit Hget].
  exists (map (convert_tokens_to_ids tk) shuffled), w'.
  split; [exact Hrun|]. split; [apply Permutation_map; exact Hperm|].
  split; [exact Hfile|]. split; [exact Hinit|exact Hget].
Qed.

Lemma mmap_round_trip_witness :
  exists (rows : list (list Z)) (w' : world),
    _tokenized_text_to_mmap demo_tk 4 "data/out.bin" demo_chunks (demo_world (1 # 2))
    = (Ok tt, w')
    /\ rows ≡ₚ map (convert_tokens_to_ids demo_tk) demo_chunks
    /\ fs_files (w_fs w') !! "data/out.bin"%string
       = Some (flat_map encode_uint16 (concat rows))
    /\ MMapTextDataset_init "data/out.bin" 4 w'
       = (Ok (closed_dataset "data/out.bin" (py_len rows) 4), w')
    /\ forall ds : MMapTextDataset,
         ds = closed_dataset "data/out.bin" (py_len rows) 4
         \/ ds = opened_dataset "data/out.bin" (py_len rows) 4 rows ->
         forall (i : nat) (row : list Z),
           rows !! i = Some row ->
           MMapTextDataset_getitem ds (Z.of_nat i) w'
           = (Ok (row, opened_dataset "data/out.bin" (py_len rows) 4 rows), w').
Proof.
  apply (mmap_round_trip demo_tk 4 "data/out.bin" demo_chunks (demo_world (1 # 2))).
  - lia.
  - discriminate.
  - repeat constructor.
  - repeat constructor; vm_compute; discriminate.
  - vm_compute. reflexivity.
  - vm_compute. reflexivity.
Defined.

(** ** The scenario with one file of two lines *)

Lemma demo_glob : glob_txt demo_fs (input_dir demo_args) = ["data/corpus.txt"%string].
Proof. vm_compute. reflexivity. Qed.

Lemma demo_no_cache : os_path_exists demo_fs (cache_dir demo_args) = false.
Proof. vm_compute. reflexivity. Qed.

Lemma demo_mkdir : os_mkdir demo_fs (cache_dir demo_args) = Ok demo_fs_cache.
Proof. vm_compute. reflexivity. Qed.

Lemma demo_lines (w : world) :
  w_fs w = demo_fs_cache ->
  open_lines "data/corpus.txt" w = (Ok [hello_line; newline], w).
Proof.
  intros Hfs. unfold open_lines. rewrite bind_get_fs, Hfs.
  vm_compute. reflexivity.
Qed.

Lemma is_dir_fs_write (fs : filesystem) (fname : string) (bytes : list Byte.byte)
    (p : string) :
  is_dir (fs_write fs fname bytes) p = is_dir fs p.
Proof. reflexivity. Qed.

(** What [_tokenized_text_to_mmap] does on an empty bucket: the file is
    created, and mapping its zero bytes is refused (NumPy 1.x) or the file
    is left one byte long (NumPy 2.x). *)
Lemma tokenized_text_to_mmap_empty (tk : Tokenizer) (seqlen : Z) (fname : string)
    (w : world) :
  0 <= seqlen ->
  is_dir (w_fs w) fname = false ->
  is_dir (w_fs w) (dirname fname) = true ->
  _tokenized_text_to_mmap tk seqlen fname [] w
  = match w_numpy w with
    | NumPy1 =>
        (Raised ValueError,
         {| w_fs := fs_write (w_fs w) fname []; w_rng := w_rng w; w_log := w_log w;
            w_numpy := w_numpy w |})
    | NumPy2 =>
        (Ok tt,
         {| w_fs := fs_write (w_fs w) fname [Byte.x00]; w_rng := w_rng w;
            w_log := w_log w; w_numpy := w_numpy w |})
    end.
Proof.
  intros HS Hnodir Hparent. unfold _tokenized_text_to_mmap, shuffle.
  cbn [length Nat.sub shuffle_from].
  assert (Hempty : np_empty (py_len (@nil chunk)) seqlen w = (Ok [], w)).
  { unfold np_empty, py_len. cbn [length].
    destruct (Z.ltb_spec seqlen 0); [lia|]. reflexivity. }
  change (bind (ret []) ?k w) with (k [] w). cbv beta.
  run_with Hempty. cbn [enumerate length seq zip for_each].
  change (bind (ret []) ?k w) with (k [] w). cbv beta.
  apply memmap_write_empty; [assumption..|reflexivity].
Qed.

(** What ingestion does on the demo file system when the only document is
    tokenized into two tokens and its draw is positive: [train.bin] holds
    the one chunk, and what is left is the call for the empty validation
    bucket. *)
Lemma demo_run (tk : Tokenizer) (w : world) (h wd : token) :
  tokenizer_len tk < 65535 ->
  tokenize tk hello_line = [h; wd] ->
  w_fs w = demo_fs ->
  (0 < next_draw w)%Q ->
  exists w2 : world,
    raw_text_to_mmap tk demo_args w
    = _tokenized_text_to_mmap tk (seqlen demo_args) (val_bin demo_args) [] w2
    /\ w_fs w2 = fs_write demo_fs_cache (train_bin demo_args)
                   (flat_map encode_uint16
                      (concat (stored_rows tk [chunk_of tk [h; wd] 4])))
    /\ w_numpy w2 = w_numpy w.
Proof.
  intros Hvocab Htok Hfs Hdraw.
  unfold raw_text_to_mmap.
  run_with (py_assert_true _ w (proj2 (Z.ltb_lt _ _) Hvocab)).
  rewrite bind_get_fs, Hfs, demo_glob, demo_no_cache.
  set (w1 := {| w_fs := demo_fs_cache; w_rng := w_rng w; w_log := w_log w; w_numpy := w_numpy w |}).
  assert (Hmk : mkdir (cache_dir demo_args) w = (Ok tt, w1)).
  { unfold mkdir. rewrite bind_get_fs, Hfs, demo_mkdir. reflexivity. }
  run_with Hmk.
  (* the loop over the files and their lines *)
  assert (HS : 3 <= seqlen demo_args) by (cbn; lia).
  assert (Hdoc : strip hello_line <> EmptyString) by (vm_compute; discriminate).
  destruct (process_line_document tk demo_args hello_line HS Hdoc)
    as (chunks & Hem & _ & Hline).
  rewrite Htok in Hem.
  assert (Hchunks : chunks = [chunk_of tk [h; wd] 4]).
  { assert (Hc : emitted_chunks tk (seqlen demo_args) [h; wd]
                 = Ok [chunk_of tk [h; wd] 4]) by reflexivity.
    congruence. }
  subst chunks.
  assert (Htrain : goes_to_train (next_draw w1) (train_dev_split demo_args) = true).
  { apply goes_to_train_true. exact Hdraw. }
  assert (Hloop : for_each (process_file tk demo_args) no_chunks ["data/corpus.txt"%string] w1
                  = (Ok {| train_chunks := [chunk_of tk [h; wd] 4]; val_chunks := [] |},
                     after_draw w1)).
  { cbn [for_each]. rewrite bind_ret_r. unfold process_file.
    run_with (demo_lines w1 eq_refl). cbn [for_each].
    run_with (Hline no_chunks w1).
    run_with (process_line_blank tk demo_args
                (add_chunks (goes_to_train (next_draw w1) (train_dev_split demo_args))
                   [chunk_of tk [h; wd] 4] no_chunks)
                newline (after_draw w1) eq_refl).
    rewrite Htrain. reflexivity. }
  fold no_chunks. run_with Hloop. cbn [train_chunks val_chunks].
  (* the training file *)
  destruct (tokenized_text_to_mmap_run tk (seqlen demo_args) (train_bin demo_args)
              [chunk_of tk [h; wd] 4] (after_draw w1))
    as (shuffled & w2 & Hrun2 & _ & Hshort & Hfs2 & _ & Hnp2).
  { cbn. lia. }
  { discriminate. }
  { constructor; [reflexivity|constructor]. }
  { vm_compute. reflexivity. }
  { vm_compute. reflexivity. }
  rewrite (Hshort ltac:(cbn; lia)) in Hfs2. clear Hshort.
  run_with Hrun2.
  exists w2. split; [reflexivity|]. split; [exact Hfs2|exact Hnp2].
Qed.

(** The stated layout of C9 against the code, under both NumPy releases.
    With a draw of [1/2] the one chunk of [train.bin] is BOS, hello, world,
    PAD, PAD, PAD, PAD, EOS: the end marker is written into the last cell,
    after the padding, not next to the last token.  With a draw of [0],
    which [random.random()] may return, [0 > 0.0] is false: [train.bin]
    receives no chunk, and where the run goes on (NumPy 2.x) the chunk is
    in [val.bin]. *)
Lemma hello_world_counterexample :
  (forall release : numpy_release,
     exists (r : outcome unit) (w' : world),
       raw_text_to_mmap demo_tk demo_args (with_numpy release (demo_world (1 # 2)))
       = (r, w')
       /\ decode_uint16s <$> fs_files (w_fs w') !! train_bin demo_args
          = Some [0; 4; 5; 1; 1; 1; 1; 2]
       /\ decode_uint16s <$> fs_files (w_fs w') !! train_bin demo_args
          <> Some (convert_tokens_to_ids demo_tk
                     ["<s>"; "hello"; "world"; "</s>";
                      "<pad>"; "<pad>"; "<pad>"; "<pad>"]%string))
  /\ (forall release : numpy_release,
        exists (r : outcome unit) (w' : world),
          raw_text_to_mmap demo_tk demo_args (with_numpy release (demo_world 0))
          = (r, w')
          /\ decode_uint16s <$> fs_files (w_fs w') !! train_bin demo_args = Some []
          /\ (release = NumPy2 ->
              decode_uint16s <$> fs_files (w_fs w') !! val_bin demo_args
              = Some [0; 4; 5; 1; 1; 1; 1; 2])).
Proof.
  split; intros release; destruct release.
  - eexists _, _. split; [vm_compute; reflexivity|].
    split; [vm_compute; reflexivity|]. vm_compute. discriminate.
  - eexists _, _. split; [vm_compute; reflexivity|].
    split; [vm_compute; reflexivity|]. vm_compute. discriminate.
  - eexists _, _. split; [vm_compute; reflexivity|].
    split; [vm_compute; reflexivity|]. discriminate.
  - eexists _, _. split; [vm_compute; reflexivity|].
    split; [vm_compute; reflexivity|]. intros _. vm_compute. reflexivity.
Qed.

(** C9, amended. For an input directory with one file of the two lines
    ["hello world"] and [""], with [seqlen = 8] and [split_ratio = 0.0], a
    tokenizer that cuts the line into two tokens and a random draw greater
    than 0, ingestion writes [train.bin] with exactly one chunk of eight
    16-bit values, BOS, id(hello), id(world), PAD, PAD, PAD, PAD, EOS (the
    empty line is dropped), which the dataset opened on [train.bin] returns
    as its one instance.  No chunk reaches [val.bin], and the array of no
    rows cannot be mapped: under NumPy 1.x the run ends in [ValueError] with
    [val.bin] created empty, under NumPy 2.x the run returns and leaves
    [val.bin] one byte long; in both cases [val.bin] holds no 16-bit cell
    and a dataset cannot be opened on it. *)
Theorem hello_world_scenario (tk : Tokenizer) (w : world) (h wd : token) :
  tokenizer_len tk < 65535 ->
  tokenize tk hello_line = [h; wd] ->
  Forall (fun t => 0 <= convert_token_to_id tk t < 65535)
    [bos_token tk; h; wd; pad_token tk; eos_token tk] ->
  w_fs w = demo_fs ->
  (0 < next_draw w)%Q ->
  let ids := convert_tokens_to_ids tk
               [bos_token tk; h; wd; pad_token tk; pad_token tk;
                pad_token tk; pad_token tk; eos_token tk] in
  exists (r : outcome unit) (w' : world),
    raw_text_to_mmap tk demo_args w = (r, w')
    /\ fs_files (w_fs w') !! train_bin demo_args = Some (flat_map encode_uint16 ids)
    /\ py_len (flat_map encode_uint16 ids) = 2 * 8
    /\ MMapTextDataset_init (train_bin demo_args) 8 w'
       = (Ok (closed_dataset (train_bin demo_args) 1 8), w')
    /\ MMapTextDataset_getitem (closed_dataset (train_bin demo_args) 1 8) 0 w'
       = (Ok (ids, opened_dataset (train_bin demo_args) 1 8 [ids]), w')
    /\ (r, fs_files (w_fs w') !! val_bin demo_args)
       = match w_numpy w with
         | NumPy1 => (Raised ValueError, Some [])
         | NumPy2 => (Ok tt, Some [Byte.x00])
         end
    /\ decode_uint16s <$> fs_files (w_fs w') !! val_bin demo_args = Some []
    /\ MMapTextDataset_init (val_bin demo_args) 8 w' = (Raised ValueError, w').
Proof.
  intros Hvocab Htok Hids Hfs Hdraw ids.
  destruct (demo_run tk w h wd Hvocab Htok Hfs Hdraw) as (w2 & Hrun & Hfs2 & Hnp2).
  rewrite tokenized_text_to_mmap_empty in Hrun;
    [|cbn; lia|rewrite Hfs2; vm_compute; reflexivity..].
  assert (Hchunk : Forall (Forall (fun t => 0 <= convert_token_to_id tk t < 65535))
                     [chunk_of tk [h; wd] 4]).
  { inversion Hids as [|? ? Hb Hids1]; subst.
    inversion Hids1 as [|? ? Hh Hids2]; subst.
    inversion Hids2 as [|? ? Hw Hids3]; subst.
    inversion Hids3 as [|? ? Hp Hids4]; subst.
    inversion Hids4 as [|? ? He _]; subst.
    constructor; [|constructor].
    unfold chunk_of. cbn [app replicate].
    repeat (constructor; [assumption|]). constructor. }
  destruct (stored_rows_in_range tk _ Hchunk) as [Hrows Hrange].
  rewrite Hrows in Hfs2.
  change (concat (map (convert_tokens_to_ids tk) [chunk_of tk [h; wd] 4]))
    with (concat [ids]) in Hfs2.
  change (map (convert_tokens_to_ids tk) [chunk_of tk [h; wd] 4]) with [ids] in Hrange.
  assert (Hcommon : forall (vb : list Byte.byte) (w' : world),
             w_fs w' = fs_write (w_fs w2) (val_bin demo_args) vb ->
             py_len vb mod 2 <> 0 \/ vb = [] ->
             fs_files (w_fs w') !! train_bin demo_args = Some (flat_map encode_uint16 ids)
             /\ py_len (flat_map encode_uint16 ids) = 2 * 8
             /\ MMapTextDataset_init (train_bin demo_args) 8 w'
                = (Ok (closed_dataset (train_bin demo_args) 1 8), w')
             /\ MMapTextDataset_getitem (closed_dataset (train_bin demo_args) 1 8) 0 w'
                = (Ok (ids, opened_dataset (train_bin demo_args) 1 8 [ids]), w')
             /\ fs_files (w_fs w') !! val_bin demo_args = Some vb
             /\ MMapTextDataset_init (val_bin demo_args) 8 w' = (Raised ValueError, w')).
  { intros vb w' Hfs' Hvb.
    assert (Htrain : fs_files (w_fs w') !! train_bin demo_args
                     = Some (flat_map encode_uint16 (concat [ids]))).
    { rewrite Hfs', Hfs2. unfold fs_write. cbn [fs_files].
      rewrite lookup_insert_ne by (vm_compute; discriminate).
      apply lookup_insert_eq. }
    assert (Hval : fs_files (w_fs w') !! val_bin demo_args = Some vb).
    { rewrite Hfs'. unfold fs_write. cbn [fs_files]. apply lookup_insert_eq. }
    destruct (dataset_read w' (train_bin demo_args) [ids] 8) as [Hinit Hget];
      [lia|repeat constructor|exact Hrange|discriminate|exact Htrain|].
    split. { rewrite Htrain. cbn [concat]. rewrite app_nil_r. reflexivity. }
    split; [reflexivity|]. split; [exact Hinit|]. split.
    { apply (Hget (closed_dataset (train_bin demo_args) 1 8) (or_introl eq_refl)
               0%nat ids). reflexivity. }
    split; [exact Hval|].
    unfold MMapTextDataset_init, bind, memmap_flat at 1.
    rewrite bind_get_fs, Hval.
    destruct Hvb as [Hodd | ->]; [|reflexivity].
    destruct (Z.eqb_spec (py_len vb mod 2) 0); [contradiction|reflexivity]. }
  rewrite Hnp2 in Hrun.
  destruct (w_numpy w).
  - match type of Hrun with _ = (_, ?w') =>
      destruct (Hcommon [] w' eq_refl (or_intror eq_refl))
        as (Ht & Hl & Hi & Hg & Hv & Hvi)
    end.
    eexists _, _. split; [exact Hrun|].
    split; [exact Ht|]. split; [exact Hl|]. split; [exact Hi|]. split; [exact Hg|].
    split; [rewrite Hv; reflexivity|]. split; [rewrite Hv; reflexivity|exact Hvi].
  - assert (Hodd : py_len [Byte.x00] mod 2 <> 0) by (vm_compute; discriminate).
    match type of Hrun with _ = (_, ?w') =>
      destruct (Hcommon [Byte.x00] w' eq_refl (or_introl Hodd))
        as (Ht & Hl & Hi & Hg & Hv & Hvi)
    end.
    eexists _, _. split; [exact Hrun|].
    split; [exact Ht|]. split; [exact Hl|]. split; [exact Hi|]. split; [exact Hg|].
    split; [rewrite Hv; reflexivity|]. split; [rewrite Hv; reflexivity|exact Hvi].
Qed.

Lemma hello_world_scenario_witness :
  exists (r : outcome unit) (w' : world),
    raw_text_to_mmap demo_tk demo_args (demo_world (1 # 2)) = (r, w')
    /\ fs_files (w_fs w') !! train_bin demo_args
       = Some (flat_map encode_uint16 [0; 4; 5; 1; 1; 1; 1; 2])
    /\ MMapTextDataset_getitem (closed_dataset (train_bin demo_args) 1 8) 0 w'
       = (Ok ([0; 4; 5; 1; 1; 1; 1; 2],
              opened_dataset (train_bin demo_args) 1 8 [[0; 4; 5; 1; 1; 1; 1; 2]]), w')
    /\ (r, fs_files (w_fs w') !! val_bin demo_args) = (Raised ValueError, Some [])
    /\ MMapTextDataset_init (val_bin demo_args) 8 w' = (Raised ValueError, w').
Proof.
  destruct (hello_world_scenario demo_tk (demo_world (1 # 2)) "hello" "world")
    as (r & w' & Hrun & Htrain & _ & _ & Hget & Hval & _ & Hinit).
  - cbn. lia.
  - vm_compute. reflexivity.
  - repeat constructor; vm_compute; discriminate.
  - reflexivity.
  - reflexivity.
  - exists r, w'. split; [exact Hrun|]. split; [exact Htrain|]. split; [exact Hget|].
    split; [exact Hval|exact Hinit].
Defined.

(** * Further properties *)

(** ** The chunk builder at its boundaries *)

(** X1. For [seqlen >= 3] only the last chunk of a document is padded:
    every earlier chunk is BOS, exactly [seqlen - 2] document tokens, EOS;
    the last chunk holds the remaining tokens (at least one when the
    document is not empty) followed by [seqlen - 2 - remaining] pad tokens
    and EOS. *)
Theorem padding_only_in_last_chunk (tk : Tokenizer) (seqlen : Z) (tokens : list token) :
  3 <= seqlen ->
  exists (full : list (list token)) (rest : list token),
    emitted_chunks tk seqlen tokens
    = Ok (map (fun x => bos_token tk :: x ++ [eos_token tk]) full
          ++ [bos_token tk :: rest
              ++ replicate (Z.to_nat (seqlen - 2) - length rest) (pad_token tk)
              ++ [eos_token tk]])
    /\ Forall (fun x => py_len x = seqlen - 2) full
    /\ py_len rest <= seqlen - 2
    /\ (tokens <> [] -> rest <> [])
    /\ concat full ++ rest = tokens.
Proof.
  intros HS.
  destruct (chunk_builder_layout tk seqlen tokens HS)
    as (cs & c & Hrun & Hcs & Hlen & Hne & Hcat).
  exists cs, c. split; [|split; [|split; [|split]]].
  - unfold emitted_chunks. rewrite (Hrun []). reflexivity.
  - eapply Forall_impl; [exact Hcs|]. intros x Hx. unfold py_len. cbn beta in *. lia.
  - unfold py_len. lia.
  - intros Hnil ->. specialize (Hne Hnil). cbn in Hne. lia.
  - exact Hcat.
Qed.

Lemma padding_only_in_last_chunk_witness :
  exists (full : list (list token)) (rest : list token),
    emitted_chunks demo_tk 4 ["a"; "b"; "c"]%string
    = Ok (map (fun x => bos_token demo_tk :: x ++ [eos_token demo_tk]) full
          ++ [bos_token demo_tk :: rest
              ++ replicate (Z.to_nat (4 - 2) - length rest) (pad_token demo_tk)
              ++ [eos_token demo_tk]])
    /\ concat full ++ rest = ["a"; "b"; "c"]%string.
Proof.
  destruct (padding_only_in_last_chunk demo_tk 4 ["a"; "b"; "c"]%string)
    as (full & rest & Hrun & _ & _ & _ & Hcat).
  - lia.
  - exists full, rest. split; assumption.
Defined.

Lemma short_loop (tk : Tokenizer) (t : token) (rest : list token) :
  forall (acc : list chunk) (pre : list token),
    foldl (chunk_step tk 2) (acc, bos_token tk :: t :: pre) rest
    = (acc, bos_token tk :: t :: pre ++ rest).
Proof.
  induction rest as [|x rest IH]; intros acc pre.
  - rewrite app_nil_r. reflexivity.
  - cbn [foldl]. rewrite chunk_step_eq.
    destruct (Z.eqb_spec (py_len (bos_token tk :: t :: pre)) (2 - 1)) as [Heq|_].
    + unfold py_len in Heq. cbn [length] in Heq. lia.
    + change (bos_token tk :: t :: pre) with ([bos_token tk; t] ++ pre).
      rewrite <- app_assoc. cbn [app].
      rewrite (IH acc (pre ++ [x])), <- app_assoc. reflexivity.
Qed.

(** X2. The bound [seqlen >= 3] is needed: at [seqlen = 2] a document of
    one token or more yields the chunk [BOS, EOS] and then a chunk in which
    EOS has overwritten the first token, so that token is lost, and the
    second chunk has one cell more than the document has tokens. *)
Theorem seqlen_two_loses_first_token (tk : Tokenizer) (t : token) (rest : list token) :
  emitted_chunks tk 2 (t :: rest)
  = Ok [[bos_token tk; eos_token tk]; bos_token tk :: eos_token tk :: rest].
Proof.
  unfold emitted_chunks, chunk_builder. cbn [foldl]. rewrite chunk_step_eq.
  change (py_len [bos_token tk] =? 2 - 1) with true. cbn iota.
  rewrite (short_loop tk t rest _ []). cbn [app].
  unfold py_repeat, py_len. cbn [length].
  replace (Z.to_nat (2 - Z.of_nat (S (S (length rest))))) with 0%nat by lia.
  cbn [replicate]. rewrite app_nil_r.
  unfold py_setitem, py_len. cbn [length].
  change (2 - 1 <? 0) with false. change (0 <=? 2 - 1) with true. cbn iota.
  destruct (Z.ltb_spec (2 - 1) (Z.of_nat (S (S (length rest))))); [|lia].
  reflexivity.
Qed.

(** ** The split loop as a whole *)

Lemma add_chunks_perm (flag : bool) (chunks : list chunk) (b : buckets) :
  train_chunks (add_chunks flag chunks b) ++ val_chunks (add_chunks flag chunks b)
  ≡ₚ (train_chunks b ++ val_chunks b) ++ chunks.
Proof.
  destruct flag; cbn [add_chunks train_chunks val_chunks].
  - rewrite <- !app_assoc. apply Permutation_app_head, Permutation_app_comm.
  - rewrite <- app_assoc. reflexivity.
Qed.

Lemma lines_loop_chunks (tk : Tokenizer) (args : Args) (lines : list string) :
  forall (b b' : buckets) (w w' : world),
    for_each (process_line tk args) b lines w = (Ok b', w') ->
    train_chunks b' ++ val_chunks b'
    ≡ₚ (train_chunks b ++ val_chunks b)
       ++ concat (map (line_chunks tk args) (documents lines))
    /\ (exists new_train new_val : list chunk,
          train_chunks b' = train_chunks b ++ new_train
          /\ val_chunks b' = val_chunks b ++ new_val).
Proof.
  induction lines as [|line lines IH]; intros b b' w w' Hrun.
  - cbn in Hrun. unfold ret in Hrun. injection Hrun as <- _.
    cbn. rewrite app_nil_r. split; [reflexivity|].
    exists [], []. rewrite !app_nil_r. split; reflexivity.
  - cbn [for_each documents List.filter] in *.
    destruct (decide (strip line = EmptyString)) as [Hblank|Hdoc].
    + rewrite (bind_run _ _ _ _ _ (process_line_blank _ _ _ _ _ Hblank)) in Hrun.
      rewrite (bool_decide_eq_true_2 _ Hblank). cbn [negb]. exact (IH _ _ _ _ Hrun).
    + rewrite (bool_decide_eq_false_2 _ Hdoc). cbn [negb map concat].
      pose proof (process_line_any tk args line b w Hdoc) as Hline.
      unfold line_chunks at 1.
      destruct (emitted_chunks tk (seqlen args) (tokenize tk line)) as [chunks|e].
      * rewrite (bind_run _ _ _ _ _ Hline) in Hrun.
        destruct (IH _ _ _ _ Hrun) as (Hperm & nt & nv & Ht & Hv).
        split.
        -- rewrite Hperm, add_chunks_perm, <- app_assoc. reflexivity.
        -- rewrite Ht, Hv. unfold add_chunks.
           destruct (goes_to_train (next_draw w) (train_dev_split args));
             cbn [train_chunks val_chunks]; rewrite <- ?app_assoc; eauto.
      * rewrite (bind_raise _ _ _ _ _ Hline) in Hrun. discriminate.
Qed.

(** X3. The loop over the lines neither loses nor duplicates a chunk: when
    it completes, the two buckets together hold what they held before plus
    the chunks of every non-empty line, each exactly once, each bucket has
    only grown at its end, and the two bucket sizes have grown by the
    number of chunks of the documents. *)
Theorem split_keeps_every_chunk (tk : Tokenizer) (args : Args) (lines : list string)
    (b b' : buckets) (w w' : world) :
  for_each (process_line tk args) b lines w = (Ok b', w') ->
  train_chunks b' ++ val_chunks b'
  ≡ₚ (train_chunks b ++ val_chunks b)
     ++ concat (map (line_chunks tk args) (documents lines))
  /\ (exists new_train new_val : list chunk,
        train_chunks b' = train_chunks b ++ new_train
        /\ val_chunks b' = val_chunks b ++ new_val)
  /\ py_len (train_chunks b') + py_len (val_chunks b')
     = py_len (train_chunks b) + py_len (val_chunks b)
       + py_len (concat (map (line_chunks tk args) (documents lines))).
Proof.
  intros Hrun.
  destruct (lines_loop_chunks tk args lines b b' w w' Hrun) as [Hperm Hgrow].
  split; [exact Hperm|]. split; [exact Hgrow|].
  apply Permutation_length in Hperm.
  unfold py_len. rewrite !length_app in Hperm. lia.
Qed.

Lemma split_keeps_every_chunk_witness :
  exists (b' : buckets) (w' : world),
    for_each (process_line demo_tk short_args) no_chunks
      ["a b c"; newline; "d"]%string two_draws_world = (Ok b', w')
    /\ py_len (train_chunks b') + py_len (val_chunks b') = 3.
Proof.
  eexists. eexists. split; [vm_compute; reflexivity|].
  destruct (split_keeps_every_chunk demo_tk short_args
              ["a b c"; newline; "d"]%string no_chunks
              {| train_chunks := _; val_chunks := _ |} two_draws_world _
              ltac:(vm_compute; reflexivity)) as (_ & _ & Hlen).
  rewrite Hlen. vm_compute. reflexivity.
Defined.

(** ** The assertion of the serialisation step *)

Lemma store_chunk_fails (tk : Tokenizer) (seqlen : Z) (rows : list (list Z))
    (k : nat) (c : chunk) (w : world) :
  py_len c <> seqlen ->
  store_chunk tk seqlen rows (k, c) w = (Raised AssertionError, w).
Proof.
  intros Hc. unfold store_chunk.
  apply bind_raise. unfold py_assert, convert_tokens_to_ids, py_len.
  rewrite length_map.
  destruct (Z.eqb_spec (Z.of_nat (length c)) seqlen); [contradiction|reflexivity].
Qed.

Lemma fill_rows_fails (tk : Tokenizer) (seqlen : Z) (chunks : list chunk) :
  Exists (fun c => py_len c <> seqlen) chunks ->
  forall (k : nat) (rows : list (list Z)) (w : world),
    for_each (store_chunk tk seqlen) rows (zip (seq k (length chunks)) chunks) w
    = (Raised AssertionError, w).
Proof.
  induction chunks as [|c chunks IH]; intros Hbad k rows w.
  - inversion Hbad.
  - cbn [length seq zip zip_with for_each].
    destruct (Z.eq_dec (py_len c) seqlen) as [Hc|Hc].
    + run_with (store_chunk_run tk seqlen rows k c w Hc).
      apply IH. inversion Hbad; [contradiction|assumption].
    + apply bind_raise, store_chunk_fails, Hc.
Qed.

(** X4. A chunk of the wrong length is fatal and nothing is written: when
    some chunk of the bucket does not have exactly [seqlen] tokens,
    [_tokenized_text_to_mmap] raises [AssertionError] and leaves the file
    system as it was (the file is only created after the loop). *)
Theorem wrong_length_chunk_is_fatal (tk : Tokenizer) (seqlen : Z) (fname : string)
    (chunks : list chunk) (w : world) :
  0 <= seqlen ->
  Exists (fun c => py_len c <> seqlen) chunks ->
  exists w' : world,
    _tokenized_text_to_mmap tk seqlen fname chunks w = (Raised AssertionError, w')
    /\ w_fs w' = w_fs w.
Proof.
  intros HS Hbad.
  destruct (shuffle_run chunks w) as (shuffled & w1 & Hsh & Hperm & Hfs & _).
  exists w1. split; [|exact Hfs].
  unfold _tokenized_text_to_mmap. run_with Hsh.
  assert (Hempty : np_empty (py_len shuffled) seqlen w1
                   = (Ok (replicate (Z.to_nat (py_len shuffled))
                            (replicate (Z.to_nat seqlen) 0)), w1)).
  { unfold np_empty, py_len.
    destruct (Z.ltb_spec (Z.of_nat (length shuffled)) 0); [lia|].
    destruct (Z.ltb_spec seqlen 0); [lia|]. reflexivity. }
  run_with Hempty.
  apply bind_raise. unfold enumerate. apply fill_rows_fails.
  rewrite Hperm. exact Hbad.
Qed.

Lemma wrong_length_chunk_is_fatal_witness :
  exists w' : world,
    _tokenized_text_to_mmap demo_tk 4 "data/out.bin"
      [["<s>"; "hello"; "world"; "</s>"]; ["<s>"; "</s>"]]%string (demo_world (1 # 2))
    = (Raised AssertionError, w')
    /\ w_fs w' = w_fs (demo_world (1 # 2)).
Proof.
  apply (wrong_length_chunk_is_fatal demo_tk 4 "data/out.bin"
           [["<s>"; "hello"; "world"; "</s>"]; ["<s>"; "</s>"]]%string
           (demo_world (1 # 2))).
  - lia.
  - apply Exists_cons_tl, Exists_cons_hd. vm_compute. discriminate.
Defined.

(** ** The cache directory as a completion marker *)

Lemma keeps_dirs_ret {A} (a : A) : keeps_dirs (ret a).
Proof. intros w w' r H. unfold ret in H. congruence. Qed.

Lemma keeps_dirs_raise {A} (e : exn) : keeps_dirs (@raise A e).
Proof. intros w w' r H. unfold raise in H. congruence. Qed.

Lemma keeps_dirs_bind {A B} (m : M A) (k : A -> M B) :
  keeps_dirs m -> (forall a, keeps_dirs (k a)) -> keeps_dirs (bind m k).
Proof.
  intros Hm Hk w w' r H. unfold bind in H.
  destruct (m w) as [[a|e] w1] eqn:Hmw.
  - rewrite (Hk a _ _ _ H). exact (Hm _ _ _ Hmw).
  - injection H as _ <-. exact (Hm _ _ _ Hmw).
Qed.

Lemma keeps_dirs_for_each {S A} (body : S -> A -> M S) (l : list A) :
  (forall s x, keeps_dirs (body s x)) -> forall s, keeps_dirs (for_each body s l).
Proof.
  intros Hbody. induction l as [|x l IH]; intros s; cbn [for_each].
  - apply keeps_dirs_ret.
  - apply keeps_dirs_bind; [apply Hbody|exact IH].
Qed.

Lemma keeps_dirs_get_fs : keeps_dirs get_fs.
Proof. intros w w' r H. unfold get_fs in H. congruence. Qed.

Lemma keeps_dirs_random : keeps_dirs random.
Proof. intros w w' r H. unfold random in H. injection H as _ <-. reflexivity. Qed.

Lemma keeps_dirs_randbelow (n : nat) : keeps_dirs (randbelow n).
Proof. intros w w' r H. unfold randbelow in H. injection H as _ <-. reflexivity. Qed.

Lemma keeps_dirs_assert (b : bool) : keeps_dirs (py_assert b).
Proof. destruct b; [apply keeps_dirs_ret|apply keeps_dirs_raise]. Qed.

Lemma keeps_dirs_process_line (tk : Tokenizer) (args : Args) (b : buckets)
    (line : string) :
  keeps_dirs (process_line tk args b line).
Proof.
  unfold process_line. destruct (decide (strip line = EmptyString)).
  - apply keeps_dirs_ret.
  - apply keeps_dirs_bind; [apply keeps_dirs_random|]. intros draw.
    destruct (chunk_builder _ _ _ _); [apply keeps_dirs_ret|apply keeps_dirs_raise].
Qed.

Lemma keeps_dirs_open_lines (fname : string) : keeps_dirs (open_lines fname).
Proof.
  unfold open_lines. apply keeps_dirs_bind; [apply keeps_dirs_get_fs|]. intros fs.
  destruct (fs_files fs !! fname) as [bytes|].
  - destruct (is_ascii bytes); [apply keeps_dirs_ret|apply keeps_dirs_raise].
  - destruct (is_dir fs fname); apply keeps_dirs_raise.
Qed.

Lemma keeps_dirs_process_file (tk : Tokenizer) (args : Args) (b : buckets)
    (fname : string) :
  keeps_dirs (process_file tk args b fname).
Proof.
  unfold process_file. apply keeps_dirs_bind; [apply keeps_dirs_open_lines|].
  intros lines. apply keeps_dirs_for_each. intros. apply keeps_dirs_process_line.
Qed.

Lemma keeps_dirs_shuffle_from {A} (i : nat) :
  forall x : list A, keeps_dirs (shuffle_from i x).
Proof.
  induction i as [|i IH]; intros x; cbn [shuffle_from].
  - apply keeps_dirs_ret.
  - apply keeps_dirs_bind; [apply keeps_dirs_randbelow|]. intros j. apply IH.
Qed.

Lemma keeps_dirs_memmap_write (fname : string) (rows : list (list Z)) :
  keeps_dirs (memmap_write fname rows).
Proof.
  intros w w' r H. unfold memmap_write in H. rewrite bind_get_fs in H.
  destruct (is_dir (w_fs w) fname); [unfold raise in H; congruence|].
  destruct (negb (is_dir (w_fs w) (dirname fname))).
  { destruct (is_file (w_fs w) (dirname fname)); unfold raise in H; congruence. }
  destruct (flat_map encode_uint16 (concat rows)) as [|b bytes].
  - destruct w as [fs g lg release]. destruct release; cbn in H;
      injection H as _ <-; reflexivity.
  - unfold put_fs in H. injection H as _ <-. reflexivity.
Qed.

Lemma keeps_dirs_np_empty (n m : Z) : keeps_dirs (np_empty n m).
Proof.
  unfold np_empty. destruct ((n <? 0) || (m <? 0));
    [apply keeps_dirs_raise|apply keeps_dirs_ret].
Qed.

Lemma keeps_dirs_store_chunk (tk : Tokenizer) (seqlen : Z) (rows : list (list Z))
    (kc : nat * chunk) :
  keeps_dirs (store_chunk tk seqlen rows kc).
Proof.
  destruct kc as [k c]. unfold store_chunk.
  apply keeps_dirs_bind; [apply keeps_dirs_assert|]. intros _. apply keeps_dirs_ret.
Qed.

Lemma keeps_dirs_tokenized (tk : Tokenizer) (seqlen : Z) (fname : string)
    (chunks : list chunk) :
  keeps_dirs (_tokenized_text_to_mmap tk seqlen fname chunks).
Proof.
  unfold _tokenized_text_to_mmap, shuffle.
  apply keeps_dirs_bind; [apply keeps_dirs_shuffle_from|]. intros shuffled.
  apply keeps_dirs_bind; [apply keeps_dirs_np_empty|]. intros rows.
  apply keeps_dirs_bind; [|intros; apply keeps_dirs_memmap_write].
  apply keeps_dirs_for_each. intros. apply keeps_dirs_store_chunk.
Qed.

(** Once the cache directory is there, it is there after the call, however
    the call ends. *)
Lemma sentinel_stays (tk : Tokenizer) (args : Args) (w w' : world) (r : outcome unit) :
  raw_text_to_mmap tk args w = (r, w') ->
  (input_dir args +:+ "/cache")%string ∈ fs_dirs (w_fs w) ->
  (input_dir args +:+ "/cache")%string ∈ fs_dirs (w_fs w').
Proof.
  intros Hrun Hdir. unfold raw_text_to_mmap in Hrun.
  unfold bind at 1 in Hrun. unfold py_assert in Hrun.
  destruct (tokenizer_len tk <? 65535).
  - unfold ret at 1 in Hrun. rewrite bind_get_fs in Hrun.
    rewrite (cache_dir_exists _ _ Hdir) in Hrun.
    unfold logger_info in Hrun. injection Hrun as _ <-. exact Hdir.
  - unfold raise in Hrun. injection Hrun as _ <-. exact Hdir.
Qed.

(** After [os.mkdir] has succeeded, the directory is there at the end of
    the call, whether the call returns or raises. *)
Lemma sentinel_created (tk : Tokenizer) (args : Args) (w w' : world)
    (r : outcome unit) (fs1 : filesystem) :
  tokenizer_len tk < 65535 ->
  os_path_exists (w_fs w) (cache_dir args) = false ->
  os_mkdir (w_fs w) (cache_dir args) = Ok fs1 ->
  raw_text_to_mmap tk args w = (r, w') ->
  (input_dir args +:+ "/cache")%string ∈ fs_dirs (w_fs w').
Proof.
  intros Hvocab Hfresh Hmk Hrun. unfold raw_text_to_mmap in Hrun.
  rewrite (bind_run _ _ _ _ _ (py_assert_true _ w (proj2 (Z.ltb_lt _ _) Hvocab))) in Hrun.
  rewrite bind_get_fs, Hfresh in Hrun.
  set (w1 := {| w_fs := fs1; w_rng := w_rng w; w_log := w_log w; w_numpy := w_numpy w |}).
  assert (Hmkdir : mkdir (cache_dir args) w = (Ok tt, w1)).
  { unfold mkdir. rewrite bind_get_fs, Hmk. reflexivity. }
  rewrite (bind_run _ _ _ _ _ Hmkdir) in Hrun.
  assert (Hkeeps : keeps_dirs
            (let* b := for_each (process_file tk args)
                         {| train_chunks := []; val_chunks := [] |}
                         (glob_txt (w_fs w) (input_dir args)) in
             let* _ := _tokenized_text_to_mmap tk (seqlen args) (train_bin args)
                         (train_chunks b) in
             _tokenized_text_to_mmap tk (seqlen args) (val_bin args) (val_chunks b))).
  { apply keeps_dirs_bind.
    - apply keeps_dirs_for_each. intros. apply keeps_dirs_process_file.
    - intros b. apply keeps_dirs_bind; intros; apply keeps_dirs_tokenized. }
  rewrite (Hkeeps _ _ _ Hrun). cbn [w1 w_fs].
  unfold os_mkdir in Hmk. rewrite cache_dir_strip_slash in Hmk.
  destruct (is_dir (w_fs w) _ || is_file (w_fs w) _); [discriminate|].
  destruct (is_dir (w_fs w) _);
    [|destruct (is_file (w_fs w) _); discriminate].
  injection Hmk as <-. cbn [fs_dirs]. set_solver.
Qed.

Lemma skip_when_sentinel (tk : Tokenizer) (args : Args) (w : world) :
  tokenizer_len tk < 65535 ->
  (input_dir args +:+ "/cache")%string ∈ fs_dirs (w_fs w) ->
  raw_text_to_mmap tk args w = (Ok tt, logged_skip w).
Proof.
  intros Hvocab Hdir. unfold raw_text_to_mmap.
  run_with (py_assert_true _ w (proj2 (Z.ltb_lt _ _) Hvocab)).
  rewrite bind_get_fs, (cache_dir_exists _ _ Hdir). reflexivity.
Qed.

Lemma exists_gives_sentinel (args : Args) (fs : filesystem) :
  os_path_exists fs (cache_dir args) = true ->
  (input_dir args +:+ "/cache")%string ∈ fs_dirs fs.
Proof.
  unfold os_path_exists. rewrite cache_dir_ends_with_slash, cache_dir_strip_slash.
  unfold is_dir. intros H. apply orb_true_iff in H. destruct H as [H|H].
  - apply bool_decide_eq_true_1 in H. destruct (input_dir args); discriminate.
  - apply bool_decide_eq_true_1 in H. exact H.
Qed.

(** X5. Ingestion is idempotent: after a call that returned, a second call
    on the resulting world returns at once; it changes no file and no
    directory, makes no random draw and only logs the message. *)
Theorem second_run_is_noop (tk : Tokenizer) (args : Args) (w w' : world) :
  raw_text_to_mmap tk args w = (Ok tt, w') ->
  raw_text_to_mmap tk args w' = (Ok tt, logged_skip w').
Proof.
  intros Hrun.
  assert (Hvocab : tokenizer_len tk < 65535).
  { destruct (Z.lt_ge_cases (tokenizer_len tk) 65535) as [H|H]; [exact H|].
    unfold raw_text_to_mmap, bind, py_assert in Hrun.
    destruct (Z.ltb_spec (tokenizer_len tk) 65535); [lia|].
    unfold raise in Hrun. discriminate. }
  apply (skip_when_sentinel tk args w' Hvocab).
  destruct (os_path_exists (w_fs w) (cache_dir args)) eqn:Hex.
  - apply (sentinel_stays tk args w w' _ Hrun), exists_gives_sentinel, Hex.
  - destruct (os_mkdir (w_fs w) (cache_dir args)) as [fs1|e] eqn:Hmk.
    + exact (sentinel_created tk args w w' _ fs1 Hvocab Hex Hmk Hrun).
    + exfalso. unfold raw_text_to_mmap in Hrun.
      rewrite (bind_run _ _ _ _ _ (py_assert_true _ w (proj2 (Z.ltb_lt _ _) Hvocab)))
        in Hrun.
      rewrite bind_get_fs, Hex in Hrun.
      assert (Hmkdir : mkdir (cache_dir args) w = (Raised e, w)).
      { unfold mkdir. rewrite bind_get_fs, Hmk. reflexivity. }
      rewrite (bind_raise _ _ _ _ _ Hmkdir) in Hrun. discriminate.
Qed.

Lemma second_run_is_noop_witness :
  exists w' : world,
    raw_text_to_mmap demo_tk short_args two_docs_world = (Ok tt, w')
    /\ raw_text_to_mmap demo_tk short_args w' = (Ok tt, logged_skip w').
Proof.
  eexists. split; [vm_compute; reflexivity|].
  apply (second_run_is_noop demo_tk short_args two_docs_world).
  vm_compute. reflexivity.
Defined.

(** X6. The cache directory is no proof of a complete cache: when a call
    has created the directory and then raises (an unreadable input, a
    failed assertion), the next call still finds the directory and returns
    at once without writing anything. *)
Theorem failed_run_is_not_retried (tk : Tokenizer) (args : Args) (w w' : world)
    (fs1 : filesystem) (e : exn) :
  tokenizer_len tk < 65535 ->
  os_path_exists (w_fs w) (cache_dir args) = false ->
  os_mkdir (w_fs w) (cache_dir args) = Ok fs1 ->
  raw_text_to_mmap tk args w = (Raised e, w') ->
  raw_text_to_mmap tk args w' = (Ok tt, logged_skip w').
Proof.
  intros Hvocab Hfresh Hmk Hrun.
  apply (skip_when_sentinel tk args w' Hvocab).
  exact (sentinel_created tk args w w' _ fs1 Hvocab Hfresh Hmk Hrun).
Qed.

Lemma failed_run_is_not_retried_witness :
  exists w' : world,
    raw_text_to_mmap demo_tk demo_args broken_world = (Raised IsADirectoryError, w')
    /\ fs_files (w_fs w') !! train_bin demo_args = None
    /\ raw_text_to_mmap demo_tk demo_args w' = (Ok tt, logged_skip w').
Proof.
  eexists. split; [vm_compute; reflexivity|]. split; [vm_compute; reflexivity|].
  eapply (failed_run_is_not_retried demo_tk demo_args broken_world).
  - cbn. lia.
  - vm_compute. reflexivity.
  - vm_compute. reflexivity.
  - vm_compute. reflexivity.
Defined.

(** ** Random access into an arbitrary cache file *)

Lemma Z_of_byte_range (b : Byte.byte) : 0 <= Z_of_byte b < 256.
Proof. unfold Z_of_byte. pose proof (Byte.to_N_bounded b). lia. Qed.

Lemma decode_uint16s_range (bytes : list Byte.byte) :
  Forall (fun v => 0 <= v < 65536) (decode_uint16s bytes).
Proof.
  induction bytes as [|a|a b l IH] using list_pair_ind; cbn [decode_uint16s].
  - constructor.
  - constructor.
  - constructor; [|exact IH].
    pose proof (Z_of_byte_range a). pose proof (Z_of_byte_range b). lia.
Qed.

Lemma reshape_length (n m : nat) (flat : list Z) : length (reshape n m flat) = n.
Proof.
  revert flat. induction n as [|n IH]; intros flat; cbn [reshape length]; [reflexivity|].
  rewrite IH. reflexivity.
Qed.

Lemma reshape_lookup (n m : nat) :
  forall (flat : list Z) (i : nat),
    (i < n)%nat -> reshape n m flat !! i = Some (take m (drop (i * m) flat)).
Proof.
  induction n as [|n IH]; intros flat i Hi; [lia|].
  destruct i as [|i]; cbn [reshape].
  - reflexivity.
  - cbn [lookup list_lookup]. change (reshape n m (drop m flat) !! i
                                       = Some (take m (drop (S i * m) flat))).
    rewrite IH by lia. rewrite drop_drop. reflexivity.
Qed.

Lemma to_int32_row (row : list Z) :
  Forall (fun v => 0 <= v < 65536) row -> map to_int32 row = row.
Proof.
  induction 1 as [|v row Hv _ IH]; [reflexivity|].
  cbn [map]. rewrite IH, to_int32_uint16 by exact Hv. reflexivity.
Qed.

Lemma memmap_shaped_any (w : world) (fname : string) (bytes : list Byte.byte) (m : Z) :
  fs_files (w_fs w) !! fname = Some bytes ->
  bytes <> [] ->
  py_len bytes mod 2 = 0 ->
  0 < m ->
  memmap_shaped fname (py_len (decode_uint16s bytes) / m) m w
  = (Ok (reshape (Z.to_nat (py_len (decode_uint16s bytes) / m)) (Z.to_nat m)
           (decode_uint16s bytes)), w).
Proof.
  intros Hfile Hne Heven Hm. unfold memmap_shaped. rewrite bind_get_fs, Hfile.
  rewrite decode_uint16s_length.
  pose proof (Z.div_mod (py_len bytes) 2 ltac:(lia)) as Hhalf.
  assert (0 <= py_len bytes) by (unfold py_len; lia).
  assert (0 <= py_len bytes / 2) by (apply Z.div_pos; lia).
  assert (0 <= py_len bytes / 2 / m) by (apply Z.div_pos; lia).
  pose proof (Z.mul_div_le (py_len bytes / 2) m Hm).
  destruct (Z.ltb_spec (py_len bytes / 2 / m) 0); [lia|].
  destruct (Z.ltb_spec m 0); [lia|].
  destruct (Z.ltb_spec (py_len bytes) (2 * (py_len bytes / 2 / m * m))); [lia|].
  destruct bytes; [contradiction|reflexivity].
Qed.

(** X7. Random access by offset: for any cache file of whole 16-bit cells
    and any chunk size [m > 0], [dataset[i]] for [0 <= i < len(dataset)] is
    the [m] cells of the file that start at cell [i * m], in file order and
    with their values unchanged; cells past [len(dataset) * m] are never
    returned. *)
Theorem dataset_row_is_slice (w : world) (fname : string) (bytes : list Byte.byte)
    (m i : Z) :
  fs_files (w_fs w) !! fname = Some bytes ->
  py_len bytes mod 2 = 0 ->
  0 < m ->
  0 <= i < py_len (decode_uint16s bytes) / m ->
  exists (ds ds' : MMapTextDataset) (row : list Z),
    MMapTextDataset_init fname m w = (Ok ds, w)
    /\ MMapTextDataset_getitem ds i w = (Ok (row, ds'), w)
    /\ row = take (Z.to_nat m) (drop (Z.to_nat (i * m)) (decode_uint16s bytes))
    /\ py_len row = m
    /\ MMapTextDataset_getitem ds' i w = (Ok (row, ds'), w).
Proof.
  intros Hfile Heven Hm Hi.
  assert (Hne : bytes <> []).
  { intros ->. cbn in Hi. rewrite Z.div_0_l in Hi; lia. }
  set (flat := decode_uint16s bytes) in *.
  set (n := py_len flat / m) in *.
  set (rows := reshape (Z.to_nat n) (Z.to_nat m) flat).
  set (row := take (Z.to_nat m) (drop (Z.to_nat (i * m)) flat)).
  exists (closed_dataset fname n m), (opened_dataset fname n m rows), row.
  assert (Hrow : rows !! Z.to_nat i = Some row).
  { unfold rows, row. rewrite reshape_lookup by lia.
    rewrite Z2Nat.inj_mul by lia. reflexivity. }
  assert (Hnp : np_row rows i = Some row).
  { rewrite <- (Z2Nat.id i) by lia. apply np_row_lookup. exact Hrow. }
  assert (Hrange : Forall (fun v => 0 <= v < 65536) row).
  { unfold row. apply Forall_take, Forall_drop, decode_uint16s_range. }
  split; [|split; [|split; [reflexivity|split]]].
  - unfold MMapTextDataset_init.
    run_with (memmap_flat_run w fname bytes Hfile Hne Heven).
    destruct (Z.eqb_spec m 0); [lia|reflexivity].
  - unfold MMapTextDataset_getitem. cbn [token_ids closed_dataset
      _mmap_filename num_instances _chunk_size].
    run_with (memmap_shaped_any w fname bytes m Hfile Hne Heven Hm).
    fold flat n rows. rewrite Hnp, (to_int32_row row Hrange). reflexivity.
  - pose proof (Z.mul_div_le (py_len flat) m Hm) as Hle.
    assert (Hb : i * m + m <= Z.of_nat (length flat)).
    { unfold n, py_len in *. nia. }
    assert (Hnn : 0 <= i * m) by nia.
    unfold row, py_len. rewrite length_take_le; [lia|].
    rewrite length_drop. lia.
  - unfold MMapTextDataset_getitem. cbn [token_ids opened_dataset
      _mmap_filename num_instances _chunk_size].
    rewrite (bind_run _ _ w w rows) by reflexivity.
    rewrite Hnp, (to_int32_row row Hrange). reflexivity.
Qed.

Lemma dataset_row_is_slice_witness :
  exists (ds ds' : MMapTextDataset),
    MMapTextDataset_init "data/ragged.bin" 3 ragged_world = (Ok ds, ragged_world)
    /\ MMapTextDataset_getitem ds 1 ragged_world = (Ok ([0; 5; 2], ds'), ragged_world).
Proof.
  destruct (dataset_row_is_slice ragged_world "data/ragged.bin"
              (flat_map encode_uint16 [0; 4; 2; 0; 5; 2; 0]) 3 1)
    as (ds & ds' & row & Hinit & Hget & Hrow & _).
  - vm_compute. reflexivity.
  - vm_compute. reflexivity.
  - lia.
  - vm_compute. split; [discriminate|reflexivity].
  - exists ds, ds'. split; [exact Hinit|]. rewrite Hget, Hrow. vm_compute. reflexivity.
Defined.

(** X8. Indexing follows the array: for a cache file of whole 16-bit
    cells, at least one of them (an empty file cannot be mapped), and
    [m > 0], an index [i >= len(dataset)] or [i < -len(dataset)] raises
    [IndexError], and an index [-len(dataset) <= i < 0] reads the same row
    as [i + len(dataset)]. *)
Theorem dataset_index_bounds (w : world) (fname : string) (bytes : list Byte.byte)
    (m i : Z) :
  fs_files (w_fs w) !! fname = Some bytes ->
  bytes <> [] ->
  py_len bytes mod 2 = 0 ->
  0 < m ->
  let n := py_len (decode_uint16s bytes) / m in
  let ds := closed_dataset fname n m in
  MMapTextDataset_init fname m w = (Ok ds, w)
  /\ (n <= i \/ i < - n -> MMapTextDataset_getitem ds i w = (Raised IndexError, w))
  /\ (- n <= i < 0 ->
      MMapTextDataset_getitem ds i w = MMapTextDataset_getitem ds (i + n) w).
Proof.
  intros Hfile Hne Heven Hm n ds.
  set (rows := reshape (Z.to_nat n) (Z.to_nat m) (decode_uint16s bytes)).
  assert (Hn : 0 <= n).
  { apply Z.div_pos; [unfold py_len|]; lia. }
  assert (Hlen : py_len rows = n).
  { unfold py_len, rows. rewrite reshape_length. lia. }
  assert (Hopen : forall j,
            MMapTextDataset_getitem ds j w
            = match np_row rows j with
              | Some row => (Ok (map to_int32 row, opened_dataset fname n m rows), w)
              | None => (Raised IndexError, w)
              end).
  { intros j. unfold MMapTextDataset_getitem. cbn [ds token_ids closed_dataset
      _mmap_filename num_instances _chunk_size].
    run_with (memmap_shaped_any w fname bytes m Hfile Hne Heven Hm).
    fold n rows. destruct (np_row rows j); reflexivity. }
  split; [|split].
  - unfold MMapTextDataset_init.
    run_with (memmap_flat_run w fname bytes Hfile Hne Heven).
    destruct (Z.eqb_spec m 0); [lia|reflexivity].
  - intros Hout. rewrite Hopen. unfold np_row. rewrite Hlen.
    destruct (Z.ltb_spec i 0).
    + destruct (Z.leb_spec 0 (i + n)); [|reflexivity].
      destruct (Z.ltb_spec (i + n) n); [lia|reflexivity].
    + destruct (Z.leb_spec 0 i); [|lia].
      destruct (Z.ltb_spec i n); [lia|reflexivity].
  - intros Hneg. rewrite !Hopen. unfold np_row. rewrite Hlen.
    destruct (Z.ltb_spec i 0); [|lia].
    destruct (Z.ltb_spec (i + n) 0); [lia|]. reflexivity.
Qed.

Lemma dataset_index_bounds_witness :
  MMapTextDataset_getitem (closed_dataset "data/ragged.bin" 2 3) 2 ragged_world
  = (Raised IndexError, ragged_world)
  /\ MMapTextDataset_getitem (closed_dataset "data/ragged.bin" 2 3) (-1) ragged_world
     = MMapTextDataset_getitem (closed_dataset "data/ragged.bin" 2 3) 1 ragged_world.
Proof.
  destruct (dataset_index_bounds ragged_world "data/ragged.bin"
              (flat_map encode_uint16 [0; 4; 2; 0; 5; 2; 0]) 3 2)
    as (_ & Hout & _);
    [vm_compute; reflexivity|discriminate|vm_compute; reflexivity|lia|].
  destruct (dataset_index_bounds ragged_world "data/ragged.bin"
              (flat_map encode_uint16 [0; 4; 2; 0; 5; 2; 0]) 3 (-1))
    as (_ & _ & Hneg);
    [vm_compute; reflexivity|discriminate|vm_compute; reflexivity|lia|].
  split.
  - apply Hout. left. vm_compute. discriminate.
  - apply Hneg. vm_compute. split; [discriminate|reflexivity].
Defined.

(** ** Ingestion from any input directory, and the loaders on its output *)

Lemma emitted_lengths (tk : Tokenizer) (seqlen : Z) (tokens : list token)
    (chunks : list chunk) :
  3 <= seqlen ->
  emitted_chunks tk seqlen tokens = Ok chunks ->
  Forall (fun c => py_len c = seqlen) chunks.
Proof.
  intros HS Hem.
  destruct (chunk_builder_layout tk seqlen tokens HS) as (cs & c & Hrun & Hcs & Hlen & _).
  unfold emitted_chunks in Hem. rewrite (Hrun []) in Hem. injection Hem as <-.
  cbn [app]. apply Forall_app. split.
  - clear Hrun. induction Hcs as [|x cs Hx _ IH]; cbn [map]; constructor; [|exact IH].
    rewrite chunk_of_length. lia.
  - constructor; [|constructor]. rewrite chunk_of_length. lia.
Qed.

Lemma line_chunks_lengths (tk : Tokenizer) (args : Args) (lines : list string) :
  3 <= seqlen args ->
  Forall (fun c => py_len c = seqlen args) (concat (map (line_chunks tk args) lines)).
Proof.
  intros HS. induction lines as [|line lines IH]; cbn [map concat]; [constructor|].
  apply Forall_app. split; [|exact IH]. unfold line_chunks.
  destruct (emitted_chunks tk (seqlen args) (tokenize tk line)) as [chunks|e] eqn:Hem.
  - exact (emitted_lengths tk _ _ _ HS Hem).
  - constructor.
Qed.

Lemma documents_app (l1 l2 : list string) :
  documents (l1 ++ l2) = documents l1 ++ documents l2.
Proof. unfold documents. apply List.filter_app. Qed.

Lemma open_lines_run (fname : string) (w : world) :
  readable_text (w_fs w) fname = true ->
  open_lines fname w = (Ok (file_lines (w_fs w) fname), w).
Proof.
  unfold readable_text, open_lines, file_lines. rewrite bind_get_fs.
  destruct (fs_files (w_fs w) !! fname) as [bytes|]; [|discriminate].
  intros ->. reflexivity.
Qed.

Lemma files_loop (tk : Tokenizer) (args : Args) (files : list string) :
  3 <= seqlen args ->
  forall (b : buckets) (w : world),
    Forall (fun p => readable_text (w_fs w) p = true) files ->
    exists (b' : buckets) (w' : world),
      for_each (process_file tk args) b files w = (Ok b', w')
      /\ w_fs w' = w_fs w
      /\ train_chunks b' ++ val_chunks b'
         ≡ₚ (train_chunks b ++ val_chunks b)
            ++ concat (map (line_chunks tk args)
                         (documents (concat (map (file_lines (w_fs w)) files)))).
Proof.
  intros HS. induction files as [|f files IH]; intros b w Hfiles.
  - exists b, w. cbn. rewrite app_nil_r. repeat split; reflexivity.
  - inversion Hfiles as [|? ? Hf Hrest]; subst.
    destruct (lines_loop tk args (file_lines (w_fs w) f) HS b w) as (b1 & Hlines).
    destruct (iter_after_draw_fs (length (documents (file_lines (w_fs w) f))) w)
      as [Hfs1 _].
    set (w1 := Nat.iter (length (documents (file_lines (w_fs w) f))) after_draw w) in *.
    destruct (lines_loop_chunks tk args _ _ _ _ _ Hlines) as [Hperm1 _].
    destruct (IH b1 w1) as (b' & w' & Hloop & Hfs' & Hperm').
    { eapply Forall_impl; [exact Hrest|]. intros p Hp. cbn beta.
      rewrite Hfs1. exact Hp. }
    exists b', w'. split; [|split].
    + cbn [for_each]. unfold process_file at 1. rewrite bind_assoc.
      run_with (open_lines_run f w Hf).
      run_with Hlines. exact Hloop.
    + rewrite Hfs', Hfs1. reflexivity.
    + rewrite Hperm', Hperm1, Hfs1. cbn [map concat].
      rewrite documents_app, map_app, concat_app, <- !app_assoc. reflexivity.
Qed.

Lemma train_bin_dirname (args : Args) :
  dirname (train_bin args) = (input_dir args +:+ "/cache")%string.
Proof.
  unfold dirname, train_bin, String.rev. rewrite rev_app_append.
  cbn [String.rev_app after_slash Ascii.eqb Bool.eqb]. cbn.
  rewrite rev_app_rev_app. reflexivity.
Qed.

Lemma val_bin_dirname (args : Args) :
  dirname (val_bin args) = (input_dir args +:+ "/cache")%string.
Proof.
  unfold dirname, val_bin, String.rev. rewrite rev_app_append.
  cbn [String.rev_app after_slash Ascii.eqb Bool.eqb]. cbn.
  rewrite rev_app_rev_app. reflexivity.
Qed.

Lemma append_suffix_inj (d s1 s2 : string) :
  (d +:+ s1)%string = (d +:+ s2)%string -> s1 = s2.
Proof. induction d as [|a d IH]; cbn; intros H; [exact H|]. injection H as H. auto. Qed.

Lemma append_nonempty (d s : string) :
  s <> EmptyString -> (d +:+ s)%string <> EmptyString.
Proof. destruct d; cbn; [auto|discriminate]. Qed.

Lemma mkdir_result (args : Args) (fs fs1 : filesystem) :
  os_mkdir fs (cache_dir args) = Ok fs1 ->
  fs1 = {| fs_dirs := {[(input_dir args +:+ "/cache")%string]} ∪ fs_dirs fs;
           fs_files := fs_files fs |}.
Proof.
  unfold os_mkdir. rewrite cache_dir_strip_slash.
  destruct (is_dir fs _ || is_file fs _); [discriminate|].
  destruct (is_dir fs _); [congruence|].
  destruct (is_file fs _); discriminate.
Qed.

Lemma cache_file_not_dir (args : Args) (fs : filesystem) (name : string) :
  name <> EmptyString ->
  (input_dir args +:+ "/cache/" +:+ name)%string ∉ fs_dirs fs ->
  is_dir {| fs_dirs := {[(input_dir args +:+ "/cache")%string]} ∪ fs_dirs fs;
            fs_files := fs_files fs |}
         (input_dir args +:+ "/cache/" +:+ name)%string = false.
Proof.
  intros Hname Hnot. unfold is_dir. cbn [fs_dirs].
  apply orb_false_iff. split; apply bool_decide_eq_false_2.
  - apply append_nonempty. discriminate.
  - intros Hin. apply elem_of_union in Hin. destruct Hin as [Hin|Hin]; [|contradiction].
    apply elem_of_singleton in Hin. apply append_suffix_inj in Hin.
    destruct name; [contradiction|discriminate].
Qed.

Lemma init_after_write (tk : Tokenizer) (seqlen : Z) (fname : string)
    (chunks : list chunk) (w : world) :
  0 < seqlen ->
  chunks <> [] ->
  Forall (fun c => py_len c = seqlen) chunks ->
  fs_files (w_fs w) !! fname
  = Some (flat_map encode_uint16 (concat (stored_rows tk chunks))) ->
  MMapTextDataset_init fname seqlen w
  = (Ok (closed_dataset fname (py_len chunks) seqlen), w).
Proof.
  intros HS Hne Hlen Hfile.
  assert (Hrows : Forall (fun r => py_len r = seqlen) (stored_rows tk chunks)).
  { clear Hfile Hne. induction Hlen as [|c l Hc _ IH]; cbn [stored_rows map]; constructor.
    - unfold convert_tokens_to_ids, py_len in *. rewrite !length_map. exact Hc.
    - exact IH. }
  unfold MMapTextDataset_init.
  rewrite (bind_run _ _ _ _ _ (memmap_flat_run w fname _ Hfile
             (encode_nonempty _ (stored_rows_cells tk seqlen chunks HS Hne Hlen))
             ltac:(rewrite encode_all_length, Z.mul_comm; apply Z_mod_mult))).
  destruct (Z.eqb_spec seqlen 0); [lia|].
  rewrite decode_uint16s_length, encode_all_length, (concat_rows_length seqlen _ Hrows).
  replace (py_len (stored_rows tk chunks)) with (py_len chunks)
    by (unfold py_len, stored_rows; rewrite length_map; reflexivity).
  replace (2 * (py_len chunks * seqlen)) with (py_len chunks * seqlen * 2) by lia.
  rewrite Z.div_mul, Z.div_mul by lia. reflexivity.
Qed.

(** The whole of [raw_text_to_mmap] on a fresh input directory, when the
    split leaves neither bucket empty. *)
Lemma ingestion_run (tk : Tokenizer) (args : Args) (w : world) (fs1 : filesystem)
    (b : buckets) :
  tokenizer_len tk < 65535 ->
  3 <= seqlen args ->
  os_path_exists (w_fs w) (cache_dir args) = false ->
  os_mkdir (w_fs w) (cache_dir args) = Ok fs1 ->
  Forall (fun p => readable_text (w_fs w) p = true) (glob_txt (w_fs w) (input_dir args)) ->
  train_bin args ∉ fs_dirs (w_fs w) ->
  val_bin args ∉ fs_dirs (w_fs w) ->
  (for_each (process_file tk args) no_chunks (glob_txt (w_fs w) (input_dir args))
     (after_mkdir w fs1)).1 = Ok b ->
  train_chunks b <> [] ->
  val_chunks b <> [] ->
  exists (train val : list chunk) (w' : world),
    raw_text_to_mmap tk args w = (Ok tt, w')
    /\ train ++ val ≡ₚ corpus_chunks tk args (w_fs w)
    /\ Forall (fun c => py_len c = seqlen args) (train ++ val)
    /\ train <> [] /\ val <> []
    /\ fs_files (w_fs w') !! train_bin args
       = Some (flat_map encode_uint16 (concat (stored_rows tk train)))
    /\ fs_files (w_fs w') !! val_bin args
       = Some (flat_map encode_uint16 (concat (stored_rows tk val))).
Proof.
  intros Hvocab HS Hfresh Hmk Hfiles Htrain Hval Hsplit Hbt Hbv.
  pose proof (mkdir_result args _ _ Hmk) as Hfs1.
  set (w1 := after_mkdir w fs1) in *.
  assert (Hmkdir : mkdir (cache_dir args) w = (Ok tt, w1)).
  { unfold mkdir. rewrite bind_get_fs, Hmk. reflexivity. }
  assert (Hfiles1 : Forall (fun p => readable_text (w_fs w1) p = true)
                      (glob_txt (w_fs w) (input_dir args))).
  { cbn [w1 after_mkdir w_fs]. rewrite Hfs1. exact Hfiles. }
  destruct (files_loop tk args _ HS no_chunks w1 Hfiles1)
    as (b' & w2 & Hloop & Hfs2 & Hperm).
  rewrite Hloop in Hsplit. cbn [fst] in Hsplit. injection Hsplit as ->.
  cbn [no_chunks train_chunks val_chunks app] in Hperm.
  assert (Hsame : map (file_lines (w_fs w1)) (glob_txt (w_fs w) (input_dir args))
                  = map (file_lines (w_fs w)) (glob_txt (w_fs w) (input_dir args))).
  { cbn [w1 after_mkdir w_fs]. rewrite Hfs1. reflexivity. }
  rewrite Hsame in Hperm. fold (corpus_chunks tk args (w_fs w)) in Hperm.
  assert (Hall : Forall (fun c => py_len c = seqlen args)
                   (train_chunks b ++ val_chunks b)).
  { rewrite Hperm. apply line_chunks_lengths, HS. }
  apply Forall_app in Hall. destruct Hall as [Hlt Hlv].
  assert (Hdir_t : is_dir fs1 (train_bin args) = false).
  { rewrite Hfs1. apply (cache_file_not_dir args (w_fs w) "train.bin");
      [discriminate|exact Htrain]. }
  assert (Hdir_v : is_dir fs1 (val_bin args) = false).
  { rewrite Hfs1. apply (cache_file_not_dir args (w_fs w) "val.bin");
      [discriminate|exact Hval]. }
  assert (Hparent : is_dir fs1 (input_dir args +:+ "/cache")%string = true).
  { rewrite Hfs1. unfold is_dir. cbn [fs_dirs].
    rewrite (bool_decide_eq_true_2 (_ ∈ _)) by set_solver. apply orb_true_r. }
  destruct (tokenized_text_to_mmap_run tk (seqlen args) (train_bin args)
              (train_chunks b) w2)
    as (st & w3 & Hrun3 & Hperm3 & _ & Hfs3 & _).
  { lia. }
  { exact Hbt. }
  { exact Hlt. }
  { rewrite Hfs2. exact Hdir_t. }
  { rewrite Hfs2, train_bin_dirname. exact Hparent. }
  destruct (tokenized_text_to_mmap_run tk (seqlen args) (val_bin args)
              (val_chunks b) w3)
    as (sv & w4 & Hrun4 & Hperm4 & _ & Hfs4 & _).
  { lia. }
  { exact Hbv. }
  { exact Hlv. }
  { rewrite Hfs3, is_dir_fs_write, Hfs2. exact Hdir_v. }
  { rewrite Hfs3, is_dir_fs_write, Hfs2, val_bin_dirname. exact Hparent. }
  exists st, sv, w4. split; [|split; [|split; [|split; [|split; [|split]]]]].
  - unfold raw_text_to_mmap.
    run_with (py_assert_true _ w (proj2 (Z.ltb_lt _ _) Hvocab)).
    rewrite bind_get_fs, Hfresh. run_with Hmkdir.
    fold no_chunks. run_with Hloop. run_with Hrun3. exact Hrun4.
  - rewrite Hperm3, Hperm4. exact Hperm.
  - rewrite Hperm3, Hperm4. apply Forall_app. split; assumption.
  - intros ->. apply Permutation_nil_l in Hperm3. congruence.
  - intros ->. apply Permutation_nil_l in Hperm4. congruence.
  - rewrite Hfs4, Hfs3. unfold fs_write. cbn [fs_files].
    rewrite lookup_insert_ne.
    + apply lookup_insert_eq.
    + intros Heq. apply append_suffix_inj in Heq. discriminate.
  - rewrite Hfs4. unfold fs_write. cbn [fs_files]. apply lookup_insert_eq.
Qed.

(** X9. Ingestion end to end.  On an input directory without a cache,
    named by a plain path, whose [*.txt] entries are all readable text
    files, with a vocabulary below 65535 and [seqlen >= 3], and when the
    split sends at least one chunk to each bucket, ingestion returns, and
    the two datasets then open on [train.bin] and [val.bin]; neither is
    empty, and together they have exactly one instance per chunk of the
    corpus: no chunk is lost between the chunk builder and the datasets,
    and none is in both. *)
Theorem ingestion_then_datasets (tk : Tokenizer) (args : Args) (w : world)
    (fs1 : filesystem) (b : buckets) :
  tokenizer_len tk < 65535 ->
  3 <= seqlen args ->
  plain_path (input_dir args) = true ->
  os_path_exists (w_fs w) (cache_dir args) = false ->
  os_mkdir (w_fs w) (cache_dir args) = Ok fs1 ->
  Forall (fun p => readable_text (w_fs w) p = true) (glob_txt (w_fs w) (input_dir args)) ->
  train_bin args ∉ fs_dirs (w_fs w) ->
  val_bin args ∉ fs_dirs (w_fs w) ->
  (for_each (process_file tk args) no_chunks (glob_txt (w_fs w) (input_dir args))
     (after_mkdir w fs1)).1 = Ok b ->
  train_chunks b <> [] ->
  val_chunks b <> [] ->
  exists (w' : world) (n_train n_val : Z),
    raw_text_to_mmap tk args w = (Ok tt, w')
    /\ MMapTextDataset_init (train_bin args) (seqlen args) w'
       = (Ok (closed_dataset (train_bin args) n_train (seqlen args)), w')
    /\ MMapTextDataset_init (val_bin args) (seqlen args) w'
       = (Ok (closed_dataset (val_bin args) n_val (seqlen args)), w')
    /\ 0 < n_train /\ 0 < n_val
    /\ n_train + n_val = py_len (corpus_chunks tk args (w_fs w)).
Proof.
  intros Hvocab HS _ Hfresh Hmk Hfiles Htrain Hval Hsplit Hbt Hbv.
  destruct (ingestion_run tk args w fs1 b Hvocab HS Hfresh Hmk Hfiles Htrain Hval
              Hsplit Hbt Hbv)
    as (train & val & w' & Hrun & Hperm & Hlen & Hnt & Hnv & Hft & Hfv).
  apply Forall_app in Hlen. destruct Hlen as [Hlt Hlv].
  exists w', (py_len train), (py_len val).
  split; [exact Hrun|]. split; [|split; [|split; [|split]]].
  - apply (init_after_write tk); [lia|exact Hnt|exact Hlt|exact Hft].
  - apply (init_after_write tk); [lia|exact Hnv|exact Hlv|exact Hfv].
  - unfold py_len. destruct train; [contradiction|cbn [length]; lia].
  - unfold py_len. destruct val; [contradiction|cbn [length]; lia].
  - unfold py_len. rewrite <- Hperm, length_app. lia.
Qed.

Lemma ingestion_then_datasets_witness :
  exists (w' : world) (n_train n_val : Z),
    raw_text_to_mmap demo_tk short_args two_docs_world = (Ok tt, w')
    /\ MMapTextDataset_init (train_bin short_args) (seqlen short_args) w'
       = (Ok (closed_dataset (train_bin short_args) n_train (seqlen short_args)), w')
    /\ MMapTextDataset_init (val_bin short_args) (seqlen short_args) w'
       = (Ok (closed_dataset (val_bin short_args) n_val (seqlen short_args)), w')
    /\ 0 < n_train /\ 0 < n_val
    /\ n_train + n_val = py_len (corpus_chunks demo_tk short_args (w_fs two_docs_world)).
Proof.
  apply (ingestion_then_datasets demo_tk short_args two_docs_world
           {| fs_dirs := {["data/cache"%string]} ∪ fs_dirs two_docs_fs;
              fs_files := fs_files two_docs_fs |}
           {| train_chunks := [["<s>"; "hello"; "world"; "</s>"]%string];
              val_chunks := [["<s>"; "world"; "<pad>"; "</s>"]%string] |}).
  - cbn. lia.
  - cbn. lia.
  - vm_compute. reflexivity.
  - vm_compute. reflexivity.
  - vm_compute. reflexivity.
  - assert (Hglob : glob_txt (w_fs two_docs_world) (input_dir short_args)
                    = ["data/corpus.txt"%string]) by (vm_compute; reflexivity).
    rewrite Hglob. constructor; [|constructor]. vm_compute. reflexivity.
  - vm_compute. discriminate.
  - vm_compute. discriminate.
  - vm_compute. reflexivity.
  - discriminate.
  - discriminate.
Defined.

(** X10. The loaders on a fresh ingestion.  Under the conditions of X9
    (the split leaves neither bucket empty), [train_dataloader] and
    [val_dataloader] both construct; neither is ever built with a sampler
    together with [shuffle=True]; the training loader shuffles exactly once
    (through the sampler under DDP, through the loader otherwise) and drops
    the last batch; the validation loader never shuffles and drops nothing;
    and their datasets together have one instance per chunk of the
    corpus. *)
Theorem loaders_after_ingestion (tk : Tokenizer) (self : LoaderArgs) (w : world)
    (fs1 : filesystem) (b : buckets) :
  tokenizer_len tk < 65535 ->
  3 <= seqlen (la_args self) ->
  plain_path (input_dir (la_args self)) = true ->
  os_path_exists (w_fs w) (cache_dir (la_args self)) = false ->
  os_mkdir (w_fs w) (cache_dir (la_args self)) = Ok fs1 ->
  Forall (fun p => readable_text (w_fs w) p = true)
    (glob_txt (w_fs w) (input_dir (la_args self))) ->
  train_bin (la_args self) ∉ fs_dirs (w_fs w) ->
  val_bin (la_args self) ∉ fs_dirs (w_fs w) ->
  (for_each (process_file tk (la_args self)) no_chunks
     (glob_txt (w_fs w) (input_dir (la_args self))) (after_mkdir w fs1)).1 = Ok b ->
  train_chunks b <> [] ->
  val_chunks b <> [] ->
  exists (w' : world) (train val : DataLoader),
    raw_text_to_mmap tk (la_args self) w = (Ok tt, w')
    /\ train_dataloader self w' = (Ok train, w')
    /\ val_dataloader self w' = (Ok val, w')
    /\ MMapTextDataset_len (dl_dataset train) + MMapTextDataset_len (dl_dataset val)
       = py_len (corpus_chunks tk (la_args self) (w_fs w))
    /\ (dl_shuffle train = true -> dl_sampler train = None)
    /\ (dl_shuffle val = true -> dl_sampler val = None)
    /\ xorb (dl_shuffle train)
            (match dl_sampler train with
             | Some s => sampler_shuffle s
             | None => false
             end) = true
    /\ dl_drop_last train = true
    /\ dl_shuffle val = false
    /\ (forall s, dl_sampler val = Some s -> sampler_shuffle s = false)
    /\ dl_drop_last val = false.
Proof.
  intros Hvocab HS _ Hfresh Hmk Hfiles Htrain Hval Hsplit Hbt Hbv.
  destruct (ingestion_run tk (la_args self) w fs1 b Hvocab HS Hfresh Hmk Hfiles
              Htrain Hval Hsplit Hbt Hbv)
    as (train & val & w' & Hrun & Hperm & Hlen & Hnt & Hnv & Hft & Hfv).
  apply Forall_app in Hlen. destruct Hlen as [Hlt Hlv].
  pose proof (init_after_write tk (seqlen (la_args self)) _ train w'
                ltac:(lia) Hnt Hlt Hft) as Hinit_t.
  pose proof (init_after_write tk (seqlen (la_args self)) _ val w'
                ltac:(lia) Hnv Hlv Hfv) as Hinit_v.
  exists w',
    {| dl_dataset := closed_dataset (train_bin (la_args self)) (py_len train)
                       (seqlen (la_args self));
       dl_batch_size := batch_size self;
       dl_shuffle := negb (use_ddp self);
       dl_sampler := if use_ddp self then Some {| sampler_shuffle := true |} else None;
       dl_num_workers := num_workers self;
       dl_drop_last := true |},
    {| dl_dataset := closed_dataset (val_bin (la_args self)) (py_len val)
                       (seqlen (la_args self));
       dl_batch_size := batch_size self;
       dl_shuffle := false;
       dl_sampler := if use_ddp self then Some {| sampler_shuffle := false |} else None;
       dl_num_workers := num_workers self;
       dl_drop_last := false |}.
  split; [exact Hrun|].
  split; [unfold train_dataloader, _get_loader; fold (train_bin (la_args self));
          run_with Hinit_t; destruct (use_ddp self); reflexivity|].
  split; [unfold val_dataloader, _get_loader; fold (val_bin (la_args self));
          run_with Hinit_v; destruct (use_ddp self); reflexivity|].
  cbn [dl_dataset dl_shuffle dl_sampler dl_drop_last MMapTextDataset_len
       closed_dataset num_instances].
  split; [unfold py_len; rewrite <- Hperm, length_app; lia|].
  destruct (use_ddp self); cbn; repeat split; try discriminate; try congruence.
  intros s Hs. injection Hs as <-. reflexivity.
Qed.

Lemma loaders_after_ingestion_witness :
  exists (w' : world) (train val : DataLoader),
    raw_text_to_mmap demo_tk short_args two_docs_world = (Ok tt, w')
    /\ train_dataloader (short_loader_args true) w' = (Ok train, w')
    /\ val_dataloader (short_loader_args true) w' = (Ok val, w')
    /\ MMapTextDataset_len (dl_dataset train) + MMapTextDataset_len (dl_dataset val)
       = 2.
Proof.
  destruct (loaders_after_ingestion demo_tk (short_loader_args true) two_docs_world
              {| fs_dirs := {["data/cache"%string]} ∪ fs_dirs two_docs_fs;
                 fs_files := fs_files two_docs_fs |}
              {| train_chunks := [["<s>"; "hello"; "world"; "</s>"]%string];
                 val_chunks := [["<s>"; "world"; "<pad>"; "</s>"]%string] |})
    as (w' & train & val & Hrun & Ht & Hv & Hsum & _).
  - cbn. lia.
  - cbn. lia.
  - vm_compute. reflexivity.
  - vm_compute. reflexivity.
  - vm_compute. reflexivity.
  - assert (Hglob : glob_txt (w_fs two_docs_world)
                      (input_dir (la_args (short_loader_args true)))
                    = ["data/corpus.txt"%string]) by (vm_compute; reflexivity).
    rewrite Hglob. constructor; [|constructor]. vm_compute. reflexivity.
  - vm_compute. discriminate.
  - vm_compute. discriminate.
  - vm_compute. reflexivity.
  - discriminate.
  - discriminate.
  - exists w', train, val. split; [exact Hrun|]. split; [exact Ht|]. split; [exact Hv|].
    rewrite Hsum. vm_compute. reflexivity.
Defined.

(** ** The forward pass and the steps *)

Lemma mask_of_ids (pad_id : Z) (ids : list Z) :
  Forall (fun v => v <> pad_id) ids ->
  map (fun t => if t =? pad_id then 0 else 1) ids = replicate (length ids) 1.
Proof.
  induction 1 as [|v ids Hv _ IH]; [reflexivity|].
  cbn [map length replicate]. rewrite IH.
  destruct (Z.eqb_spec v pad_id); [contradiction|reflexivity].
Qed.

(** X11. The attention mask of a stored chunk.  When the ids of BOS, EOS
    and of the document tokens differ from the pad id, the mask of the
    chunk BOS + content + [k] pads + EOS is 1 on BOS and the content, 0 on
    the [k] pads and 1 again on the final EOS: the end marker that the
    chunk builder writes after the padding is attended to. *)
Theorem mask_of_stored_chunk (tk : Tokenizer) (content : list token) (k : nat) :
  let pad_id := convert_token_to_id tk (pad_token tk) in
  convert_token_to_id tk (bos_token tk) <> pad_id ->
  convert_token_to_id tk (eos_token tk) <> pad_id ->
  Forall (fun t => convert_token_to_id tk t <> pad_id) content ->
  attention_mask pad_id [convert_tokens_to_ids tk (chunk_of tk content k)]
  = [1 :: replicate (length content) 1 ++ replicate k 0 ++ [1]].
Proof.
  intros pad_id Hbos Heos Hcontent.
  unfold attention_mask, convert_tokens_to_ids, chunk_of. cbn [map].
  rewrite !map_app. cbn [map].
  destruct (Z.eqb_spec (convert_token_to_id tk (bos_token tk)) pad_id); [contradiction|].
  destruct (Z.eqb_spec (convert_token_to_id tk (eos_token tk)) pad_id); [contradiction|].
  f_equal. f_equal. f_equal; [|f_equal].
  - rewrite mask_of_ids.
    + rewrite length_map. reflexivity.
    + clear -Hcontent. induction Hcontent; cbn [map]; constructor; assumption.
  - clear. induction k as [|k IH]; [reflexivity|].
    cbn [replicate map]. rewrite IH. fold pad_id. rewrite Z.eqb_refl. reflexivity.
Qed.

Lemma mask_of_stored_chunk_witness :
  attention_mask 1 [convert_tokens_to_ids demo_tk (chunk_of demo_tk ["hello"; "world"]%string 4)]
  = [[1; 1; 1; 0; 0; 0; 0; 1]].
Proof.
  apply (mask_of_stored_chunk demo_tk ["hello"; "world"]%string 4).
  - vm_compute. discriminate.
  - vm_compute. discriminate.
  - repeat constructor; vm_compute; discriminate.
Defined.

(** X12. Both steps report the first output of the language-model head,
    called on the batch with the pad mask: [training_step] returns it as
    ['loss'] and logs it with its exponential, [validation_step] returns
    the same value as ['val_loss'].  A batch without labels makes both
    steps raise [AssertionError], whatever the model; a model that returns
    an empty tuple makes both raise [IndexError]. *)
Theorem steps_report_model_loss {T} (exp : T -> T) (model : Model T) (pad_token_id : Z)
    (ids : tensor) :
  (training_step exp model pad_token_id {| input_ids := ids; labels := None |}
   = Raised AssertionError
   /\ validation_step model pad_token_id {| input_ids := ids; labels := None |}
      = Raised AssertionError)
  /\ (forall (l : tensor) (loss : T) (others : list T),
        lm_head model ids (attention_mask pad_token_id ids) l = loss :: others ->
        training_step exp model pad_token_id {| input_ids := ids; labels := Some l |}
        = Ok {| sd_entries := {["loss"%string := loss]};
                sd_log := <["mlm_perplexity"%string := exp loss]>
                            {["mlm_loss"%string := loss]} |}
        /\ validation_step model pad_token_id {| input_ids := ids; labels := Some l |}
           = Ok {| sd_entries := {["val_loss"%string := loss]};
                   sd_log := {["val_mlm_loss"%string := loss]} |})
  /\ (forall l : tensor,
        lm_head model ids (attention_mask pad_token_id ids) l = [] ->
        training_step exp model pad_token_id {| input_ids := ids; labels := Some l |}
        = Raised IndexError
        /\ validation_step model pad_token_id {| input_ids := ids; labels := Some l |}
           = Raised IndexError).
Proof.
  split; [split; reflexivity|]. split.
  - intros l loss others Hout.
    unfold training_step, validation_step, forward. cbn [input_ids labels].
    rewrite Hout. cbn [tuple_get lookup list_lookup obind].
    rewrite lookup_singleton_eq. split; reflexivity.
  - intros l Hout.
    unfold training_step, validation_step, forward. cbn [input_ids labels].
    rewrite Hout. split; reflexivity.
Qed.

(** X13. In dict mode ([loss_only=False]) [forward] needs a tuple of at
    least three outputs: with fewer it raises [IndexError], with labels or
    without; with three or more it returns the third as ['hidden_states'],
    together with the first as ['loss'] when labels are given and alone
    when they are not. *)
Theorem forward_dict_needs_three_outputs {T} (model : Model T) (pad_token_id : Z)
    (ids : tensor) :
  let mask := attention_mask pad_token_id ids in
  (forall l : tensor,
     (length (lm_head model ids mask l) < 3)%nat ->
     forward model pad_token_id ids (Some l) false = Raised IndexError)
  /\ ((length (roberta model ids mask) < 3)%nat ->
      forward model pad_token_id ids None false = Raised IndexError)
  /\ (forall (l : tensor) (loss scores hidden : T) (others : list T),
        lm_head model ids mask l = loss :: scores :: hidden :: others ->
        forward model pad_token_id ids (Some l) false
        = Ok (<["hidden_states"%string := hidden]> {["loss"%string := loss]}))
  /\ (forall (a b hidden : T) (others : list T),
        roberta model ids mask = a :: b :: hidden :: others ->
        forward model pad_token_id ids None false
        = Ok {["hidden_states"%string := hidden]}).
Proof.
  intros mask. unfold forward. fold mask. split; [|split; [|split]].
  - intros l Hshort.
    destruct (lm_head model ids mask l) as [|a [|b [|c rest]]]; cbn in Hshort;
      try reflexivity; lia.
  - intros Hshort.
    destruct (roberta model ids mask) as [|a [|b [|c rest]]]; cbn in Hshort;
      try reflexivity; lia.
  - intros l loss scores hidden others ->. reflexivity.
  - intros a b hidden others ->. reflexivity.
Qed.

Lemma forward_dict_needs_three_outputs_witness :
  forward {| lm_head := fun _ _ _ => [5; 6]; roberta := fun _ _ => [7; 8; 9] |}
    1 [[0; 4; 1; 2]] (Some [[0; 4; 1; 2]]) false = Raised IndexError
  /\ forward {| lm_head := fun _ _ _ => [5; 6]; roberta := fun _ _ => [7; 8; 9] |}
       1 [[0; 4; 1; 2]] None false = Ok {["hidden_states"%string := 9]}.
Proof.
  destruct (forward_dict_needs_three_outputs
              {| lm_head := fun _ _ _ => [5; 6]; roberta := fun _ _ => [7; 8; 9] |}
              1 [[0; 4; 1; 2]]) as (Hshort & _ & _ & Hroberta).
  split.
  - apply Hshort. cbn. lia.
  - apply (Hroberta 7 8 9 []). reflexivity.
Defined.

(** ** The parameter groups of the optimizer *)

Lemma prefix_occurs (p s : string) :
  String.prefix p s = true <-> exists b : string, s = (p +:+ b)%string.
Proof.
  revert p. induction s as [|c s IH]; intros p.
  - destruct p as [|a p]; cbn.
    + split; [intros _; exists EmptyString; reflexivity|reflexivity].
    + split; [discriminate|intros [b Hb]; discriminate].
  - destruct p as [|a p]; cbn.
    + split; [intros _; exists (String c s); reflexivity|reflexivity].
    + destruct (ascii_dec a c) as [->|Hne].
      * rewrite IH. split; intros [b Hb]; exists b.
        -- rewrite Hb. reflexivity.
        -- change (String c s = String c (p +:+ b)) in Hb. congruence.
      * split; [discriminate|]. intros [b Hb].
        change (String c s = String a (p +:+ b)) in Hb. congruence.
Qed.

Lemma py_in_occurs (sub s : string) : py_in sub s = true <-> occurs_in sub s.
Proof.
  unfold occurs_in. induction s as [|c s IH]; cbn [py_in].
  - rewrite orb_false_r, prefix_occurs. split.
    + intros [b Hb]. exists EmptyString, b. exact Hb.
    + intros (a & b & Hab). destruct a; [exists b; exact Hab|discriminate].
  - rewrite orb_true_iff, prefix_occurs, IH. split.
    + intros [[b Hb]|(a & b & Hab)].
      * exists EmptyString, b. exact Hb.
      * exists (String c a), b. cbn. rewrite Hab. reflexivity.
    + intros (a & b & Hab). destruct a as [|a0 a].
      * left. exists b. exact Hab.
      * right. cbn in Hab. injection Hab as _ Hab. exists a, b. exact Hab.
Qed.

Lemma any_no_decay_occurs (n : string) :
  any_no_decay n = true <-> occurs_in "bias" n \/ occurs_in "LayerNorm.weight" n.
Proof.
  unfold any_no_decay, no_decay. cbn [existsb].
  rewrite orb_false_r, orb_true_iff, !py_in_occurs. reflexivity.
Qed.

Lemma groups_perm (named : list (string * Param)) :
  map snd (List.filter (fun np => negb (any_no_decay np.1) && requires_grad np.2) named)
  ++ map snd (List.filter (fun np => any_no_decay np.1 && requires_grad np.2) named)
  ≡ₚ map snd (List.filter (fun np => requires_grad np.2) named).
Proof.
  induction named as [|[n q] named IH]; [reflexivity|].
  cbn [List.filter fst snd].
  destruct (any_no_decay n), (requires_grad q); cbn [negb andb map app].
  - rewrite <- IH. symmetry. apply Permutation_middle.
  - exact IH.
  - constructor. exact IH.
  - exact IH.
Qed.

(** X14. The two parameter groups split the trainable parameters: every
    parameter with [requires_grad] is in exactly one group, frozen ones are
    in none; a trainable parameter whose name contains ["bias"] or
    ["LayerNorm.weight"] is in the second group, whose weight decay is 0,
    and every other trainable parameter is in the first group, which
    carries the configured weight decay. *)
Theorem optimizer_groups_partition (named : list (string * Param)) (weight_decay : Q) :
  exists decayed undecayed : list Param,
    optimizer_grouped_parameters named weight_decay
    = [{| g_params := decayed; g_weight_decay := weight_decay |};
       {| g_params := undecayed; g_weight_decay := 0 |}]
    /\ decayed ++ undecayed
       ≡ₚ map snd (List.filter (fun np => requires_grad np.2) named)
    /\ (forall (n : string) (q : Param),
          In (n, q) named -> requires_grad q = true ->
          (occurs_in "bias" n \/ occurs_in "LayerNorm.weight" n -> In q undecayed)
          /\ (~ (occurs_in "bias" n \/ occurs_in "LayerNorm.weight" n) -> In q decayed)).
Proof.
  eexists. eexists. split; [reflexivity|]. split; [apply groups_perm|].
  intros n q Hin Hgrad. split; intros Hname.
  - apply in_map_iff. exists (n, q). split; [reflexivity|].
    apply filter_In. split; [exact Hin|]. cbn [fst snd].
    rewrite (proj2 (any_no_decay_occurs n) Hname), Hgrad. reflexivity.
  - apply in_map_iff. exists (n, q). split; [reflexivity|].
    apply filter_In. split; [exact Hin|]. cbn [fst snd].
    destruct (any_no_decay n) eqn:Hany.
    + exfalso. apply Hname, any_no_decay_occurs, Hany.
    + rewrite Hgrad. reflexivity.
Qed.

Lemma optimizer_groups_partition_witness :
  optimizer_grouped_parameters demo_parameters (1 # 100)
  = [{| g_params := [{| param_id := 0; requires_grad := true |}];
        g_weight_decay := 1 # 100 |};
     {| g_params := [{| param_id := 1; requires_grad := true |};
                     {| param_id := 2; requires_grad := true |}];
        g_weight_decay := 0 |}].
Proof.
  destruct (optimizer_groups_partition demo_parameters (1 # 100))
    as (decayed & undecayed & Hgroups & _).
  rewrite Hgroups. vm_compute in Hgroups. injection Hgroups as <- <-. reflexivity.
Defined.

(** ** The device list *)

Lemma split_on_length (sep : ascii) (s : string) :
  forall piece : string,
    length (split_on sep s piece) = S (count_char sep s).
Proof.
  induction s as [|c s IH]; intros piece; cbn [split_on count_char length].
  - reflexivity.
  - destruct (Ascii.eqb c sep); cbn [length]; rewrite IH; reflexivity.
Qed.

Lemma split_on_trailing (sep : ascii) (s : string) :
  forall piece : string,
    split_on sep (s +:+ String sep EmptyString) piece
    = split_on sep s piece ++ [EmptyString].
Proof.
  induction s as [|c s IH]; intros piece.
  - change (split_on sep (String sep EmptyString) piece
            = split_on sep EmptyString piece ++ [EmptyString]).
    cbn [split_on]. rewrite Ascii.eqb_refl. reflexivity.
  - change (split_on sep (String c (s +:+ String sep EmptyString)) piece
            = split_on sep (String c s) piece ++ [EmptyString]).
    cbn [split_on]. destruct (Ascii.eqb c sep); cbn [app]; rewrite IH; reflexivity.
Qed.

Lemma map_outcome_length {A B} (f : A -> outcome B) (l : list A) (r : list B) :
  map_outcome f l = Ok r -> length r = length l.
Proof.
  revert r. induction l as [|x l IH]; intros r; cbn [map_outcome].
  - intros H. injection H as <-. reflexivity.
  - destruct (f x) as [y|e]; cbn [obind]; [|discriminate].
    destruct (map_outcome f l) as [ys|e]; cbn [obind]; [|discriminate].
    intros H. injection H as <-. cbn [length]. rewrite (IH ys eq_refl). reflexivity.
Qed.

Lemma py_int_raises (s : string) (e : exn) : py_int s = Raised e -> e = ValueError.
Proof.
  unfold py_int.
  match goal with
  | |- match ?parsed with Some _ => _ | None => _ end = _ -> _ => destruct parsed
  end; [discriminate|congruence].
Qed.

Lemma map_outcome_last_fails (l : list string) :
  exists e : exn, map_outcome py_int (l ++ [EmptyString]) = Raised e /\ e = ValueError.
Proof.
  induction l as [|x l (e & IH & He)]; cbn [app map_outcome].
  - exists ValueError. split; reflexivity.
  - destruct (py_int x) as [y|e'] eqn:Hx; cbn [obind].
    + rewrite IH. cbn [obind]. exists e. split; [reflexivity|exact He].
    + exists e'. split; [reflexivity|exact (py_int_raises x e' Hx)].
Qed.

Lemma contains_count (c : ascii) (s : string) :
  contains_char c s = true <-> (0 < count_char c s)%nat.
Proof.
  induction s as [|a s IH]; cbn [contains_char count_char].
  - split; [discriminate|lia].
  - destruct (Ascii.eqb a c); cbn [orb]; [split; [lia|reflexivity]|].
    rewrite IH. cbn. reflexivity.
Qed.

(** X15. The device list.  When [--gpus] parses, there is one device per
    comma-separated piece, that is one more than there are commas, and the
    backend is ['ddp'] exactly when the string contains a comma.  A string
    that ends with a comma never parses: the empty last piece makes
    [int('')] raise [ValueError]. *)
Theorem gpus_select_backend (gpus : string) :
  (forall l : list Z,
     parse_gpus gpus = Ok l ->
     py_len l = 1 + Z.of_nat (count_char "," gpus)
     /\ (distributed_backend l = Some "ddp"%string <-> contains_char "," gpus = true)
     /\ (distributed_backend l = None <-> contains_char "," gpus = false))
  /\ parse_gpus (gpus +:+ ",") = Raised ValueError.
Proof.
  split.
  - intros l Hparse. unfold parse_gpus in Hparse.
    apply map_outcome_length in Hparse. rewrite split_on_length in Hparse.
    assert (Hlen : py_len l = 1 + Z.of_nat (count_char "," gpus)).
    { unfold py_len. lia. }
    split; [exact Hlen|].
    unfold distributed_backend. rewrite Hlen.
    pose proof (contains_count "," gpus) as Hc.
    destruct (contains_char "," gpus).
    + destruct (Z.ltb_spec 1 (1 + Z.of_nat (count_char "," gpus))).
      * split; split; try reflexivity; discriminate.
      * pose proof (proj1 Hc eq_refl). lia.
    + destruct (Z.ltb_spec 1 (1 + Z.of_nat (count_char "," gpus))).
      * assert (0 < count_char "," gpus)%nat by lia.
        pose proof (proj2 Hc ltac:(assumption)). discriminate.
      * split; split; try reflexivity; discriminate.
  - unfold parse_gpus. rewrite split_on_trailing.
    destruct (map_outcome_last_fails (split_on "," gpus EmptyString)) as (e & He & ->).
    exact He.
Qed.

Lemma gpus_select_backend_witness :
  parse_gpus "0,1, 2" = Ok [0; 1; 2]
  /\ distributed_backend [0; 1; 2] = Some "ddp"%string
  /\ parse_gpus "0" = Ok [0]
  /\ distributed_backend [0] = None.
Proof.
  destruct (gpus_select_backend "0,1, 2") as [Hthree _].
  destruct (gpus_select_backend "0") as [Hone _].
  destruct (Hthree [0; 1; 2]) as (_ & Hddp & _); [vm_compute; reflexivity|].
  destruct (Hone [0]) as (_ & _ & Hnone); [vm_compute; reflexivity|].
  split; [vm_compute; reflexivity|]. split; [apply Hddp; reflexivity|].
  split; [vm_compute; reflexivity|]. apply Hnone. reflexivity.
Defined.

(** ** Failures at the two entry points *)

Lemma append_empty_r (s : string) : (s +:+ EmptyString)%string = s.
Proof.
  induction s as [|c s IH]; [reflexivity|].
  change (String c (s +:+ EmptyString) = String c s). rewrite IH. reflexivity.
Qed.

Lemma cache_parent (args : Args) :
  dirname (input_dir args +:+ "/cache")%string = input_dir args.
Proof.
  unfold dirname, String.rev. rewrite rev_app_append. cbn.
  rewrite rev_app_rev_app. apply append_empty_r.
Qed.

(** X16. A missing input directory is fatal and leaves no trace: with a
    vocabulary below 65535, when the input directory is named by a plain
    path under which nothing exists (no directory, no file, no regular file
    among its ancestors) and nothing named [cache] exists under it,
    ingestion raises [FileNotFoundError] from [os.mkdir] ([glob] finds
    nothing and does not fail) and changes neither the file system nor the
    generator. *)
Theorem missing_input_dir_is_fatal (tk : Tokenizer) (args : Args) (w : world) :
  tokenizer_len tk < 65535 ->
  plain_path (input_dir args) = true ->
  input_dir args ∉ fs_dirs (w_fs w) ->
  fs_files (w_fs w) !! input_dir args = None ->
  ~ below_a_file (w_fs w) (input_dir args) ->
  (input_dir args +:+ "/cache")%string ∉ fs_dirs (w_fs w) ->
  fs_files (w_fs w) !! (input_dir args +:+ "/cache")%string = None ->
  raw_text_to_mmap tk args w = (Raised FileNotFoundError, w).
Proof.
  intros Hvocab Hplain Hnodir Hnotfile _ Hnocache Hnofile.
  assert (Hname : input_dir args <> EmptyString).
  { intros Heq. rewrite Heq in Hplain. discriminate. }
  assert (Hq : is_dir (w_fs w) (input_dir args +:+ "/cache")%string = false).
  { unfold is_dir. apply orb_false_iff. split; apply bool_decide_eq_false_2.
    - apply append_nonempty. discriminate.
    - exact Hnocache. }
  unfold raw_text_to_mmap.
  run_with (py_assert_true _ w (proj2 (Z.ltb_lt _ _) Hvocab)).
  rewrite bind_get_fs. unfold os_path_exists.
  rewrite cache_dir_ends_with_slash, cache_dir_strip_slash, Hq.
  apply bind_raise. unfold mkdir. rewrite bind_get_fs. unfold os_mkdir.
  rewrite cache_dir_strip_slash, Hq, cache_parent.
  unfold is_file. rewrite Hnofile, Hnotfile.
  rewrite (bool_decide_eq_false_2 (is_Some None)) by (intros [x Hx]; discriminate).
  unfold is_dir.
  rewrite (bool_decide_eq_false_2 _ Hname), (bool_decide_eq_false_2 _ Hnodir).
  reflexivity.
Qed.

Lemma missing_input_dir_is_fatal_witness :
  raw_text_to_mmap demo_tk demo_args empty_world = (Raised FileNotFoundError, empty_world).
Proof.
  apply (missing_input_dir_is_fatal demo_tk demo_args empty_world).
  - cbn. lia.
  - vm_compute. reflexivity.
  - vm_compute. discriminate.
  - reflexivity.
  - intros (q & _ & x & Hx). discriminate.
  - vm_compute. discriminate.
  - reflexivity.
Defined.

(** X17. When a dataset can be constructed: [MMapTextDataset(fname, m)]
    never changes the world, and it succeeds exactly when the file exists,
    is not empty, has an even number of bytes and [m] is not zero.
    Otherwise it raises at construction, not at the first access, in this
    order: [FileNotFoundError] (or [IsADirectoryError], or
    [NotADirectoryError]) for a missing file, [ValueError] for a file that
    is empty or of odd size, [ZeroDivisionError] for [m = 0]. *)
Theorem dataset_init_outcomes (fname : string) (m : Z) (w : world) :
  exists r : outcome MMapTextDataset,
    MMapTextDataset_init fname m w = (r, w)
    /\ ((exists ds, r = Ok ds)
        <-> (exists bytes, fs_files (w_fs w) !! fname = Some bytes
                           /\ bytes <> [] /\ py_len bytes mod 2 = 0) /\ m <> 0)
    /\ (fs_files (w_fs w) !! fname = None ->
        r = Raised FileNotFoundError \/ r = Raised IsADirectoryError
        \/ r = Raised NotADirectoryError)
    /\ (forall bytes, fs_files (w_fs w) !! fname = Some bytes ->
        bytes = [] \/ py_len bytes mod 2 <> 0 -> r = Raised ValueError)
    /\ (forall bytes, fs_files (w_fs w) !! fname = Some bytes ->
        bytes <> [] -> py_len bytes mod 2 = 0 -> m = 0 ->
        r = Raised ZeroDivisionError).
Proof.
  unfold MMapTextDataset_init.
  destruct (fs_files (w_fs w) !! fname) as [bytes|] eqn:Hfile.
  - destruct (Z.eqb_spec (py_len bytes mod 2) 0) as [Heven|Hodd];
      [destruct bytes as [|b0 bytes0] eqn:Hbytes|].
    + exists (Raised ValueError). split.
      { apply bind_raise. unfold memmap_flat. rewrite bind_get_fs, Hfile. reflexivity. }
      split; [|split; [|split]].
      * split; [intros [ds Hds]; discriminate|].
        intros [(b & Hb & Hne & _) _]. congruence.
      * discriminate.
      * reflexivity.
      * intros b Hb Hne. congruence.
    + rewrite <- Hbytes in *.
      assert (Hne : bytes <> []) by (rewrite Hbytes; discriminate).
      run_with (memmap_flat_run w fname bytes Hfile Hne Heven).
      destruct (Z.eqb_spec m 0) as [Hm|Hm].
      * eexists. split; [reflexivity|]. split; [|split; [|split]].
        -- split; [intros [ds Hds]; discriminate|intros [_ Hm']; contradiction].
        -- discriminate.
        -- intros b Hb [Hb'|Hb']; congruence.
        -- reflexivity.
      * eexists. split; [reflexivity|]. split; [|split; [|split]].
        -- split; [intros _; split; [exists bytes; auto|exact Hm]
                  |intros _; eexists; reflexivity].
        -- discriminate.
        -- intros b Hb [Hb'|Hb']; congruence.
        -- intros b Hb _ _ Hz. contradiction.
    + exists (Raised ValueError). split.
      { apply bind_raise. unfold memmap_flat. rewrite bind_get_fs, Hfile.
        destruct (Z.eqb_spec (py_len bytes mod 2) 0); [contradiction|reflexivity]. }
      split; [|split; [|split]].
      * split; [intros [ds Hds]; discriminate|].
        intros [(b & Hb & _ & Hb') _]. congruence.
      * discriminate.
      * reflexivity.
      * intros b Hb _ Hb'. congruence.
  - assert (Hflat : exists e, memmap_flat fname w = (Raised e, w)
                      /\ (e = FileNotFoundError \/ e = IsADirectoryError
                          \/ e = NotADirectoryError)).
    { unfold memmap_flat. rewrite bind_get_fs, Hfile.
      destruct (is_dir (w_fs w) fname); [eexists; split; [reflexivity|auto]|].
      destruct (is_file (w_fs w) (dirname fname)); eexists; split; try reflexivity; auto. }
    destruct Hflat as (e & Hflat & He).
    exists (Raised e). split; [apply bind_raise; exact Hflat|].
    split; [|split; [|split]].
    + split; [intros [ds Hds]; discriminate|intros [(b & Hb & _) _]; discriminate].
    + intros _. destruct He as [->| [->| ->]]; auto.
    + discriminate.
    + discriminate.
Qed.
